(** * Intelligems analytics: the decision logic of the CLI tools

    A shallow embedding of the verdict classifier, the funnel analyser, the
    segment analyser, the financial projector and the metric accessors of
    the Intelligems analytics skills, with the properties the specification
    states about them.

    Conventions of the embedding.
    - A Python [float] (and a JSON number) is a rational [Q]; comparisons
      and arithmetic are exact.  Equalities between computed amounts are
      stated with [==] ([Qeq]).
    - A Python [int] is a [Z].
    - [Optional[float]] is [option Q]; Python's [None] is [None].
    - Decoded JSON (the metrics feed) is a [pyval]; a Python exception is a
      [Raise] in the [result] monad.
    - Verdicts are the string literals the tools return.

    The first part holds the definitions, one module per source file; the
    second part holds the facts. *)

From Stdlib Require Import ZArith QArith Qabs List String Ascii Bool.
From Stdlib Require Import Permutation Sorted Lia Lqa.
Import ListNotations.

Open Scope string_scope.
Open Scope Z_scope.
Open Scope Q_scope.

(** * Part I: the program *)

(** ** Comparisons on floats, as booleans *)

Module Float.

Definition ge (a b : Q) : bool := Qle_bool b a.
Definition le (a b : Q) : bool := Qle_bool a b.
Definition gt (a b : Q) : bool := negb (Qle_bool a b).
Definition lt (a b : Q) : bool := negb (Qle_bool b a).

(** [bool(x)] of a float. *)
Definition truthy (a : Q) : bool := negb (Qeq_bool a 0).

(** [int(x)] of a float: truncation towards zero. *)
Definition to_int (a : Q) : Z := Z.quot (Qnum a) (Zpos (Qden a)).

End Float.

(** ** ig_config.py *)

Module Config.

Definition MIN_CONFIDENCE : Q := 80 # 100.
Definition HIGH_CONFIDENCE : Q := 95 # 100.
Definition NEUTRAL_LIFT_THRESHOLD : Q := 2 # 100.

Definition MIN_RUNTIME_DAYS : Z := 10.
Definition MIN_VISITORS : Z := 100.
Definition MIN_ORDERS : Z := 10.

Definition VERDICT_MIN_RUNTIME : Z := 10.
Definition VERDICT_MIN_ORDERS : Z := 30.

Definition FUNNEL_STAGES : list (string * string) :=
  [ ("add_to_cart_rate", "Add to Cart");
    ("checkout_begin_rate", "Begin Checkout");
    ("checkout_enter_contact_info_rate", "Enter Contact Info");
    ("checkout_address_submitted_rate", "Submit Address");
    ("conversion_rate", "Purchase") ].

End Config.
Import Config.

(** ** Python values and exceptions *)

Module Py.

(** The JSON shapes of the analytics feed: null, numbers, strings and
    objects.  An object is kept as its list of items; a key is looked up
    from the front. *)
#[warnings="-register-all"]
Inductive pyval : Type :=
| PNone
| PNum (q : Q)
| PStr (s : string)
| PDict (items : list (string * pyval)).

Definition dict : Type := list (string * pyval).

Inductive exn : Type :=
| AttributeError | TypeError | IndexError | ZeroDivisionError.

Inductive result (A : Type) : Type :=
| Ok (a : A)
| Raise (e : exn).
Arguments Ok {A} a.
Arguments Raise {A} e.

Definition bind {A B : Type} (r : result A) (k : A -> result B) : result B :=
  match r with
  | Ok a => k a
  | Raise e => Raise e
  end.

Fixpoint lookup (d : dict) (key : string) : option pyval :=
  match d with
  | [] => None
  | (k, v) :: rest => if String.eqb k key then Some v else lookup rest key
  end.

(** [d.get(key, default)] on a dict. *)
Definition dict_get (d : dict) (key : string) (default : pyval) : pyval :=
  match lookup d key with
  | Some v => v
  | None => default
  end.

(** [m.get(key, default)] on any value: only a dict has the method. *)
Definition get (m : pyval) (key : string) (default : pyval) : result pyval :=
  match m with
  | PDict d => Ok (dict_get d key default)
  | _ => Raise AttributeError
  end.

Definition is_dict (v : pyval) : bool :=
  match v with PDict _ => true | _ => false end.

Definition is_none (v : pyval) : bool :=
  match v with PNone => true | _ => false end.

(** [v == s] for a [str] s. *)
Definition eq_str (v : pyval) (s : string) : bool :=
  match v with PStr t => String.eqb t s | _ => false end.

(** [a > b]: defined between two numbers and between two strings. *)
Definition gt (a b : pyval) : result bool :=
  match a, b with
  | PNum x, PNum y => Ok (Float.gt x y)
  | PStr s, PStr t => Ok (String.ltb t s)
  | _, _ => Raise TypeError
  end.

(** [a / b] on numbers. *)
Definition truediv (a b : Q) : result Q :=
  if Qeq_bool b 0 then Raise ZeroDivisionError else Ok (a / b).

(** An [Optional[float]] as a Python value. *)
Definition of_float (o : option Q) : pyval :=
  match o with Some q => PNum q | None => PNone end.

(** [bool(v)] *)
Definition truthy (v : pyval) : bool :=
  match v with
  | PNone => false
  | PNum q => Float.truthy q
  | PStr s => negb (String.eqb s "")
  | PDict items => match items with [] => false | _ :: _ => true end
  end.

(** [total + x] for a number [total]. *)
Definition add_to (total : Q) (x : pyval) : result Q :=
  match x with
  | PNum q => Ok (total + q)
  | _ => Raise TypeError
  end.

(** [a == b] between values that can be the key of a dict. *)
Definition key_eqb (a b : pyval) : bool :=
  match a, b with
  | PNone, PNone => true
  | PNum x, PNum y => Qeq_bool x y
  | PStr s, PStr t => String.eqb s t
  | _, _ => false
  end.

End Py.
Import Py.

Notation "x <- e ;; k" := (Py.bind e (fun x => k))
  (at level 61, e at next level, right associativity).

(** ** ig_metrics.py *)

Module Metrics.

Fixpoint get_metric_value (metrics : list pyval)
    (metric_name variation_id : string) : result pyval :=
  match metrics with
  | [] => Ok PNone
  | m :: rest =>
      vid <- Py.get m "variation_id" PNone ;;
      if Py.eq_str vid variation_id then
        data <- Py.get m metric_name (PDict []) ;;
        match data with
        | PDict d => Ok (dict_get d "value" PNone)
        | _ => get_metric_value rest metric_name variation_id
        end
      else get_metric_value rest metric_name variation_id
  end.

Fixpoint get_metric_uplift (metrics : list pyval)
    (metric_name variation_id : string) : result pyval :=
  match metrics with
  | [] => Ok PNone
  | m :: rest =>
      vid <- Py.get m "variation_id" PNone ;;
      if Py.eq_str vid variation_id then
        data <- Py.get m metric_name (PDict []) ;;
        match data with
        | PDict d =>
            match dict_get d "uplift" (PDict []) with
            | PDict u => Ok (dict_get u "value" PNone)
            | _ => get_metric_uplift rest metric_name variation_id
            end
        | _ => get_metric_uplift rest metric_name variation_id
        end
      else get_metric_uplift rest metric_name variation_id
  end.

Fixpoint get_metric_confidence (metrics : list pyval)
    (metric_name variation_id : string) : result pyval :=
  match metrics with
  | [] => Ok PNone
  | m :: rest =>
      vid <- Py.get m "variation_id" PNone ;;
      if Py.eq_str vid variation_id then
        data <- Py.get m metric_name (PDict []) ;;
        match data with
        | PDict d => Ok (dict_get d "p2bb" PNone)
        | _ => get_metric_confidence rest metric_name variation_id
        end
      else get_metric_confidence rest metric_name variation_id
  end.

Fixpoint get_metric_ci (metrics : list pyval)
    (metric_name variation_id : string) : result (pyval * pyval) :=
  match metrics with
  | [] => Ok (PNone, PNone)
  | m :: rest =>
      vid <- Py.get m "variation_id" PNone ;;
      if Py.eq_str vid variation_id then
        data <- Py.get m metric_name (PDict []) ;;
        match data with
        | PDict d =>
            match dict_get d "uplift" (PDict []) with
            | PDict u =>
                Ok (dict_get u "ci_low" PNone, dict_get u "ci_high" PNone)
            | _ => get_metric_ci rest metric_name variation_id
            end
        | _ => get_metric_ci rest metric_name variation_id
        end
      else get_metric_ci rest metric_name variation_id
  end.

(** [get_total_visitors]: the loop, with [total] as argument.  The
    counts of the feed are whole numbers; their sum is kept exact, as the
    program keeps it on [int]s, and on [float]s up to 2^53. *)
Fixpoint get_total_visitors_from (total : Q) (metrics : list pyval)
  : result Q :=
  match metrics with
  | [] => Ok total
  | m :: rest =>
      v <- Py.get m "n_visitors" (PDict []) ;;
      match v with
      | PDict d =>
          let x := dict_get d "value" (PNum 0) in
          total <- Py.add_to total (if Py.truthy x then x else PNum 0) ;;
          get_total_visitors_from total rest
      | _ => get_total_visitors_from total rest
      end
  end.

Definition get_total_visitors (metrics : list pyval) : result Z :=
  total <- get_total_visitors_from 0 metrics ;;
  Ok (Float.to_int total).

(** [get_total_orders]: the loop, with [total] as argument; whole
    counts, summed exactly as in [get_total_visitors]. *)
Fixpoint get_total_orders_from (total : Q) (metrics : list pyval)
  : result Q :=
  match metrics with
  | [] => Ok total
  | m :: rest =>
      o <- Py.get m "n_orders" (PDict []) ;;
      match o with
      | PDict d =>
          let x := dict_get d "value" (PNum 0) in
          total <- Py.add_to total (if Py.truthy x then x else PNum 0) ;;
          get_total_orders_from total rest
      | _ => get_total_orders_from total rest
      end
  end.

Definition get_total_orders (metrics : list pyval) : result Z :=
  total <- get_total_orders_from 0 metrics ;;
  Ok (Float.to_int total).

Fixpoint has_cogs_data (metrics : list pyval) : result bool :=
  match metrics with
  | [] => Ok false
  | m :: rest =>
      pct <- Py.get m "pct_revenue_with_cogs" (PDict []) ;;
      match pct with
      | PDict d =>
          let val := dict_get d "value" (PNum 0) in
          positive <- (if Py.truthy val then Py.gt val (PNum 0)
                       else Ok false) ;;
          if positive then Ok true else has_cogs_data rest
      | _ => has_cogs_data rest
      end
  end.

Definition primary_revenue_metric (metrics : list pyval) : result string :=
  cogs <- has_cogs_data metrics ;;
  Ok (if cogs then "gross_profit_per_visitor"
      else "net_revenue_per_visitor").

(** [segments.setdefault(seg, []).append(m)] on a dict kept as the list
    of its items in insertion order.  A dict cannot be a key. *)
Fixpoint setdefault_append (segments : list (pyval * list pyval))
    (seg m : pyval) : list (pyval * list pyval) :=
  match segments with
  | [] => [(seg, [m])]
  | (k, group) :: rest =>
      if Py.key_eqb k seg then (k, (group ++ [m])%list) :: rest
      else (k, group) :: setdefault_append rest seg m
  end.

(** [group_metrics_by_segment]: the loop, with [segments] as argument. *)
Fixpoint group_metrics_by_segment_from
    (segments : list (pyval * list pyval)) (metrics : list pyval)
  : result (list (pyval * list pyval)) :=
  match metrics with
  | [] => Ok segments
  | m :: rest =>
      seg <- Py.get m "audience" (PStr "Unknown") ;;
      if Py.is_dict seg then Raise TypeError
      else group_metrics_by_segment_from (setdefault_append segments seg m)
             rest
  end.

Definition group_metrics_by_segment (metrics : list pyval)
  : result (list (pyval * list pyval)) :=
  group_metrics_by_segment_from [] metrics.

End Metrics.
Import Metrics.

(** ** ig_helpers.py *)

Module Helpers.

(** A variation of an experiment: the dict with keys ["id"], ["name"]
    and ["isControl"]. *)
Record Variation : Type := mkVariation
  { id : string; name : string; isControl : bool }.

Definition find_control (variations : list Variation) : option Variation :=
  find isControl variations.

Definition find_variants (variations : list Variation) : list Variation :=
  filter (fun v => negb (isControl v)) variations.

Definition daily_visitors (total_visitors runtime : Z) : Q :=
  if (runtime <=? 0)%Z then 0
  else inject_Z total_visitors / inject_Z runtime.

End Helpers.

(** ** ig_slack.py *)

Module Slack.

(** [parse_slack_args]: the argument after the first ["--slack"] that has
    one. *)
Fixpoint parse_slack_args (argv : list string) : option string :=
  match argv with
  | [] => None
  | arg :: rest =>
      if String.eqb arg "--slack" then
        match rest with
        | url :: _ => Some url
        | [] => parse_slack_args rest
        end
      else parse_slack_args rest
  end.

End Slack.

(** ** rollout-brief/references/rollout.py *)

Module Rollout.

Definition compute_verdict (p2bb uplift : option Q) (days total_orders : Z)
  : string :=
  if (days <? VERDICT_MIN_RUNTIME)%Z || (total_orders <? VERDICT_MIN_ORDERS)%Z
  then "TOO EARLY"
  else
    match p2bb, uplift with
    | Some p, Some u =>
        if Float.ge p MIN_CONFIDENCE && Float.gt u NEUTRAL_LIFT_THRESHOLD
        then "WINNER"
        else if Float.ge (1 - p) MIN_CONFIDENCE
                && Float.lt u (- NEUTRAL_LIFT_THRESHOLD)
        then "LOSER"
        else if (21 <=? days)%Z && Float.le (Qabs u) NEUTRAL_LIFT_THRESHOLD
        then "FLAT"
        else "KEEP RUNNING"
    | _, _ => "TOO EARLY"
    end.

Definition segment_verdict (p2bb uplift : option Q) (days : Z) : string :=
  match p2bb, uplift with
  | Some p, Some u =>
      if Float.ge p MIN_CONFIDENCE && Float.gt u NEUTRAL_LIFT_THRESHOLD
      then "WINNER"
      else if Float.ge (1 - p) MIN_CONFIDENCE
              && Float.lt u (- NEUTRAL_LIFT_THRESHOLD)
      then "LOSER"
      else if (21 <=? days)%Z && Float.le (Qabs u) NEUTRAL_LIFT_THRESHOLD
      then "FLAT"
      else "KEEP RUNNING"
  | _, _ => "LOW DATA"
  end.

(** The contradiction check of [main] on one segment: [uplift] is the
    overall uplift of the best variant, [seg_uplift] the segment's. *)
Definition contradiction (uplift seg_uplift : option Q) : bool :=
  match uplift, seg_uplift with
  | Some o, Some s =>
      if Float.gt o NEUTRAL_LIFT_THRESHOLD
         && Float.lt s (- NEUTRAL_LIFT_THRESHOLD)
      then true
      else if Float.lt o (- NEUTRAL_LIFT_THRESHOLD)
              && Float.gt s NEUTRAL_LIFT_THRESHOLD
      then true
      else false
  | _, _ => false
  end.

(** The financial projections of [main]. *)
Record Projection : Type := mkProjection
  { annual_baseline : Q;
    expected_annual : Q;
    expected_monthly : Q;
    conservative_annual : Q;
    optimistic_annual : option Q;
    daily_cost : Q }.

(** [x or 0] for an [Optional[float]]. *)
Definition or_zero (x : option Q) : Q :=
  match x with
  | Some q => if Float.truthy q then q else 0
  | None => 0
  end.

Definition main_projection (total_visitors days : Z)
    (control_rpv uplift ci_low ci_high : option Q) : Projection :=
  let avg_daily_vis :=
    if (0 <? days)%Z then Helpers.daily_visitors total_visitors days else 0 in
  let annual_visitors := avg_daily_vis * 365 in
  let annual_baseline := annual_visitors * or_zero control_rpv in
  let expected_annual := annual_baseline * or_zero uplift in
  let expected_monthly := expected_annual / 12 in
  let conservative_annual :=
    match ci_low with
    | Some l =>
        if Float.truthy l && Float.gt l 0 then annual_baseline * l else 0
    | None => 0
    end in
  let optimistic_annual :=
    match ci_high with
    | Some h => if Float.truthy h then Some (annual_baseline * h) else None
    | None => None
    end in
  let daily_cost :=
    if Float.truthy expected_annual then expected_annual / 365 else 0 in
  mkProjection annual_baseline expected_annual expected_monthly
    conservative_annual optimistic_annual daily_cost.

End Rollout.

(** ** test-debrief/references/debrief.py *)

Module Debrief.

Definition compute_verdict (p2bb uplift : option Q) (days total_orders : Z)
  : string :=
  if (days <? VERDICT_MIN_RUNTIME)%Z || (total_orders <? VERDICT_MIN_ORDERS)%Z
  then "TOO EARLY"
  else
    match p2bb, uplift with
    | Some p, Some u =>
        if Float.ge p MIN_CONFIDENCE && Float.gt u NEUTRAL_LIFT_THRESHOLD
        then "WINNER"
        else if Float.ge (1 - p) MIN_CONFIDENCE
                && Float.lt u (- NEUTRAL_LIFT_THRESHOLD)
        then "LOSER"
        else if (21 <=? days)%Z && Float.le (Qabs u) NEUTRAL_LIFT_THRESHOLD
        then "FLAT"
        else "KEEP RUNNING"
    | _, _ => "TOO EARLY"
    end.

(** An entry of the list [analyze_funnel] returns. *)
Record Stage : Type := mkStage
  { label : string;
    control : option Q;
    variant : option Q;
    uplift : option Q;
    confidence : option Q }.

Section Analyze.

(** [get_metric_value(metrics, ., .)], [get_metric_uplift(metrics, ., .)]
    and [get_metric_confidence(metrics, ., .)] as functions of the metric
    name and the variation id, at their annotated type. *)
Variables read_value read_uplift read_confidence
  : string -> string -> option Q.

Fixpoint analyze_funnel_over (funnel_stages : list (string * string))
    (control_id variant_id : string) : list Stage :=
  match funnel_stages with
  | [] => []
  | (metric_name, label) :: rest =>
      let uplift := read_uplift metric_name variant_id in
      let confidence := read_confidence metric_name variant_id in
      let control_val := read_value metric_name control_id in
      let variant_val := read_value metric_name variant_id in
      match control_val, variant_val with
      | None, None => analyze_funnel_over rest control_id variant_id
      | _, _ =>
          mkStage label control_val variant_val uplift confidence
          :: analyze_funnel_over rest control_id variant_id
      end
  end.

Definition analyze_funnel (control_id variant_id : string) : list Stage :=
  analyze_funnel_over FUNNEL_STAGES control_id variant_id.

End Analyze.

End Debrief.

(** ** segment-spotlight/references/spotlight.py *)

Module Spotlight.

Definition segment_verdict (p2bb uplift : option Q) (days : Z) : string :=
  match p2bb, uplift with
  | Some p, Some u =>
      if Float.ge p MIN_CONFIDENCE && Float.gt u NEUTRAL_LIFT_THRESHOLD
      then "WINNER"
      else if Float.ge (1 - p) MIN_CONFIDENCE
              && Float.lt u (- NEUTRAL_LIFT_THRESHOLD)
      then "LOSER"
      else if (21 <=? days)%Z && Float.le (Qabs u) NEUTRAL_LIFT_THRESHOLD
      then "FLAT"
      else "KEEP RUNNING"
  | _, _ => "LOW DATA"
  end.

Definition compute_revenue_opportunity (seg_visitors : Z)
    (uplift control_rpv : option Q) (days : Z) : result Q :=
  match uplift, control_rpv with
  | Some u, Some rpv =>
      if (days <=? 0)%Z || (seg_visitors <=? 0)%Z then Ok 0
      else
        seg_daily <- Py.truediv (inject_Z seg_visitors) (inject_Z days) ;;
        let rpv_delta := rpv * u in
        Ok (seg_daily * rpv_delta * 365)
  | _, _ => Ok 0
  end.

(** An entry of [all_segments]. *)
Record Segment : Type := mkSegment
  { name : string;
    type : string;
    verdict : string;
    uplift : option Q;
    confidence : option Q;
    visitors : Z;
    revenue_opportunity : Q;
    contradiction : bool }.

(** [", ".join(s["name"] for s in segments[:3])] *)
Definition names (segments : list Segment) : string :=
  String.concat ", " (map name (firstn 3 segments)).

Definition rollout_recommendation (segments : list Segment)
  : string * string :=
  let winners := filter (fun s => String.eqb (verdict s) "WINNER") segments in
  let losers := filter (fun s => String.eqb (verdict s) "LOSER") segments in
  let low_data :=
    filter (fun s => String.eqb (verdict s) "LOW DATA") segments in
  let total := Z.of_nat (List.length segments) in
  let len (l : list Segment) := Z.of_nat (List.length l) in
  if (total =? 0)%Z then
    ("HOLD", "No segment data available for analysis.")
  else if (len losers =? 0)%Z
          && Float.ge (inject_Z (len winners)) (inject_Z total * (5 # 10))
  then ("ROLL OUT", "No losing segments. Roll out to all traffic.")
  else if (0 <? len losers)%Z && (0 <? len winners)%Z then
    ("SEGMENT-SPECIFIC",
     "Consider rolling out to " ++ names winners ++ " only. "
     ++ names losers ++ " "
     ++ (if (len losers =? 1)%Z then "is" else "are")
     ++ " underperforming — exclude or investigate.")
  else if (0 <? len losers)%Z && (len winners =? 0)%Z then
    ("DON'T ROLL OUT",
     "No winning segments found. The variant is hurting performance.")
  else if Float.gt (inject_Z (len low_data)) (inject_Z total * (5 # 10))
  then ("HOLD",
        "Most segments have insufficient data. Let the test run longer.")
  else ("HOLD",
        "Mixed signals. Monitor for another few days before making a call.").

(** [all_segments.sort(key=lambda s: abs(s["revenue_opportunity"]),
    reverse=True)]: a stable sort, largest absolute opportunity first. *)
Fixpoint insert_ranked (s : Segment) (ranked : list Segment) : list Segment :=
  match ranked with
  | [] => [s]
  | x :: rest =>
      if Float.lt (Qabs (revenue_opportunity s)) (Qabs (revenue_opportunity x))
      then x :: insert_ranked s rest
      else s :: x :: rest
  end.

Fixpoint rank (all_segments : list Segment) : list Segment :=
  match all_segments with
  | [] => []
  | s :: rest => insert_ranked s (rank rest)
  end.

(** The contradiction check of [main] on one segment. *)
Definition main_contradiction (overall_uplift seg_uplift : option Q) : bool :=
  match overall_uplift, seg_uplift with
  | Some o, Some s =>
      if Float.gt o NEUTRAL_LIFT_THRESHOLD
         && Float.lt s (- NEUTRAL_LIFT_THRESHOLD)
      then true
      else if Float.lt o (- NEUTRAL_LIFT_THRESHOLD)
              && Float.gt s NEUTRAL_LIFT_THRESHOLD
      then true
      else false
  | _, _ => false
  end.

End Spotlight.

(** ** funnel-diagnosis/references/funnel.py *)

Module Funnel.

(** [pick_best_variant]: the loop, with its two locals as arguments. *)
Fixpoint pick_best_variant_from (best : option Helpers.Variation)
    (best_uplift : pyval) (variants : list Helpers.Variation)
    (metrics : list pyval) (metric_name : string)
  : result (option Helpers.Variation) :=
  match variants with
  | [] => Ok best
  | v :: rest =>
      uplift <- get_metric_uplift metrics metric_name (Helpers.id v) ;;
      better <- (if Py.is_none uplift then Ok false
                 else if Py.is_none best_uplift then Ok true
                 else Py.gt uplift best_uplift) ;;
      if better
      then pick_best_variant_from (Some v) uplift rest metrics metric_name
      else pick_best_variant_from best best_uplift rest metrics metric_name
  end.

Definition pick_best_variant (variants : list Helpers.Variation)
    (metrics : list pyval) (metric_name : string)
  : result (option Helpers.Variation) :=
  pick_best_variant_from None PNone variants metrics metric_name.

(** The selection of [main]: [best = pick_best_variant(...)], then
    [if not best: best = variant_list[0]].  A variation is a dict with
    keys, so [not best] holds only of [None]. *)
Definition main_best (variant_list : list Helpers.Variation)
    (metrics : list pyval) (rev_metric : string) : result Helpers.Variation :=
  best <- pick_best_variant variant_list metrics rev_metric ;;
  match best with
  | Some b => Ok b
  | None =>
      match variant_list with
      | v :: _ => Ok v
      | [] => Raise IndexError
      end
  end.

(** An entry of the list [analyze_funnel] returns. *)
Record Stage : Type := mkStage
  { metric : string;
    label : string;
    control : option Q;
    variant : option Q;
    uplift : option Q;
    confidence : option Q;
    has_data : bool }.

(** The conditional expression that names the direction of an uplift. *)
Definition direction (u : Q) : string :=
  if Float.gt u (5 # 1000) then "up"
  else if Float.lt u (- (5 # 1000)) then "down"
  else "flat".

(** [find_breakpoint]: the loop, with [prev_direction] as argument. *)
Fixpoint find_breakpoint_from (prev_direction : option string)
    (stages : list Stage) : option Stage :=
  match stages with
  | [] => None
  | s :: rest =>
      match uplift s with
      | None => find_breakpoint_from prev_direction rest
      | Some u =>
          let d := direction u in
          let flip :=
            match prev_direction with
            | Some prev =>
                negb (String.eqb d prev) && negb (String.eqb d "flat")
                && negb (String.eqb prev "flat")
            | None => false
            end in
          if flip then Some s
          else if negb (String.eqb d "flat")
          then find_breakpoint_from (Some d) rest
          else find_breakpoint_from prev_direction rest
      end
  end.

Definition find_breakpoint (stages : list Stage) : option Stage :=
  find_breakpoint_from None stages.

Section Analyze.

(** [get_metric_value(metrics, ., .)], [get_metric_uplift(metrics, ., .)]
    and [get_metric_confidence(metrics, ., .)] as functions of the metric
    name and the variation id, at their annotated type. *)
Variables read_value read_uplift read_confidence
  : string -> string -> option Q.

Definition analyze_funnel (control_id variant_id : string) : list Stage :=
  map (fun stage : string * string =>
         let (metric_name, label) := stage in
         let control_val := read_value metric_name control_id in
         let variant_val := read_value metric_name variant_id in
         let uplift := read_uplift metric_name variant_id in
         let confidence := read_confidence metric_name variant_id in
         let has_data :=
           match control_val, variant_val with
           | None, None => false
           | _, _ => true
           end in
         mkStage metric_name label control_val variant_val uplift confidence
           has_data)
    FUNNEL_STAGES.

(** [active_stages] of [main]. *)
Definition active_stages (control_id variant_id : string) : list Stage :=
  filter has_data (analyze_funnel control_id variant_id).

End Analyze.

(** [find_biggest_gain]: the loop, with [best] as argument.  The
    comparison with the uplift of [best] raises when that uplift is
    [None]. *)
Fixpoint find_biggest_gain_from (best : option Stage) (stages : list Stage)
  : result (option Stage) :=
  match stages with
  | [] => Ok best
  | s :: rest =>
      match uplift s with
      | Some u =>
          if Float.gt u 0 then
            better <- match best with
                      | None => Ok true
                      | Some b =>
                          match uplift b with
                          | Some ub => Ok (Float.gt u ub)
                          | None => Raise TypeError
                          end
                      end ;;
            if better then find_biggest_gain_from (Some s) rest
            else find_biggest_gain_from best rest
          else find_biggest_gain_from best rest
      | None => find_biggest_gain_from best rest
      end
  end.

Definition find_biggest_gain (stages : list Stage) : result (option Stage) :=
  find_biggest_gain_from None stages.

(** [find_biggest_drop]: the loop, with [worst] as argument. *)
Fixpoint find_biggest_drop_from (worst : option Stage) (stages : list Stage)
  : result (option Stage) :=
  match stages with
  | [] => Ok worst
  | s :: rest =>
      match uplift s with
      | Some u =>
          if Float.lt u 0 then
            lower <- match worst with
                     | None => Ok true
                     | Some w =>
                         match uplift w with
                         | Some uw => Ok (Float.lt u uw)
                         | None => Raise TypeError
                         end
                     end ;;
            if lower then find_biggest_drop_from (Some s) rest
            else find_biggest_drop_from worst rest
          else find_biggest_drop_from worst rest
      | None => find_biggest_drop_from worst rest
      end
  end.

Definition find_biggest_drop (stages : list Stage) : result (option Stage) :=
  find_biggest_drop_from None stages.

End Funnel.

(** ** profit-impact/references/impact.py *)

Module Impact.

(** The figures [main] derives in its core calculations and in its
    opportunity-cost block. *)
Record Projection : Type := mkProjection
  { annual_baseline : Q;
    expected_annual : Q;
    conservative_annual : option Q;
    optimistic_annual : option Q;
    expected_monthly : Q;
    conservative_monthly : option Q;
    optimistic_monthly : option Q;
    daily_impact : Q;
    weekly_impact : Q;
    monthly_impact_cost : Q }.

(** [main] from the aggregate stats to the opportunity cost; [None] is
    the [sys.exit(1)] taken when the control value or the uplift is
    missing. *)
Definition main_projection (total_visitors runtime : Z)
    (control_value uplift ci_low ci_high : option Q) : option Projection :=
  let avg_daily_visitors :=
    if (0 <? runtime)%Z then Helpers.daily_visitors total_visitors runtime
    else 0 in
  match control_value, uplift with
  | Some control_value, Some uplift =>
      let annual_visitors := avg_daily_visitors * 365 in
      let annual_baseline := annual_visitors * control_value in
      let expected_annual := annual_baseline * uplift in
      let conservative_annual :=
        match ci_low with
        | Some l => Some (if Float.gt l 0 then annual_baseline * l else 0)
        | None => None
        end in
      let optimistic_annual :=
        match ci_high with
        | Some h => Some (annual_baseline * h)
        | None => None
        end in
      let expected_monthly := expected_annual / 12 in
      let conservative_monthly :=
        match conservative_annual with
        | Some c => Some (c / 12)
        | None => None
        end in
      let optimistic_monthly :=
        match optimistic_annual with
        | Some o => Some (o / 12)
        | None => None
        end in
      let daily_impact :=
        if Float.truthy expected_annual then expected_annual / 365 else 0 in
      let weekly_impact := daily_impact * 7 in
      let monthly_impact_cost := daily_impact * 30 in
      Some (mkProjection annual_baseline expected_annual conservative_annual
              optimistic_annual expected_monthly conservative_monthly
              optimistic_monthly daily_impact weekly_impact
              monthly_impact_cost)
  | _, _ => None
  end.

End Impact.

(** ** test-verdict/references/verdict.py *)

Module TestVerdict.

Definition variation_verdict (p2bb uplift : option Q) (days : Z) : string :=
  match p2bb, uplift with
  | Some p, Some u =>
      if Float.ge p MIN_CONFIDENCE && Float.gt u NEUTRAL_LIFT_THRESHOLD
      then "WINNER"
      else if Float.ge (1 - p) MIN_CONFIDENCE
              && Float.lt u (- NEUTRAL_LIFT_THRESHOLD)
      then "LOSER"
      else if (21 <=? days)%Z && Float.le (Qabs u) NEUTRAL_LIFT_THRESHOLD
      then "FLAT"
      else "KEEP RUNNING"
  | _, _ => "TOO EARLY"
  end.

(** The three messages [main] may append to [maturity_issues]; their
    text only formats the numbers and is left out. *)
Inductive maturity_issue : Type := ShortRuntime | FewOrders | FewVisitors.

Definition maturity_issues (days total_orders total_visitors : Z)
  : list maturity_issue :=
  (if (days <? VERDICT_MIN_RUNTIME)%Z then [ShortRuntime] else [])
  ++ (if (total_orders <? VERDICT_MIN_ORDERS)%Z then [FewOrders] else [])
  ++ (if (total_visitors <? MIN_VISITORS)%Z then [FewVisitors] else []).

Definition is_too_early (days total_orders total_visitors : Z) : bool :=
  (0 <? List.length (maturity_issues days total_orders total_visitors))%nat.

(** An entry of [variation_results], with the fields the choice of the
    best variation reads. *)
Record VariationResult : Type := mkVariationResult
  { id : string;
    verdict : string;
    p2bb : option Q;
    uplift : option Q }.

(** [verdict_priority.get(verdict, 5)] *)
Definition verdict_priority (verdict : string) : Z :=
  if String.eqb verdict "WINNER" then 0
  else if String.eqb verdict "KEEP RUNNING" then 1
  else if String.eqb verdict "FLAT" then 2
  else if String.eqb verdict "LOSER" then 3
  else if String.eqb verdict "TOO EARLY" then 4
  else 5.

(** The sort key [(verdict_priority.get(r["verdict"], 5), -(r["p2bb"] or 0))]. *)
Definition sort_key (r : VariationResult) : Z * Q :=
  (verdict_priority (verdict r),
   - match p2bb r with
     | Some p => if Float.truthy p then p else 0
     | None => 0
     end).

(** The order of Python tuples on the keys. *)
Definition key_lt (a b : Z * Q) : bool :=
  (fst a <? fst b)%Z
  || ((fst a =? fst b)%Z && Float.lt (snd a) (snd b)).

(** [list.sort(key=...)] is a stable ascending sort: an element goes
    after those with a smaller key and before the others. *)
Fixpoint insert (r : VariationResult) (sorted : list VariationResult)
  : list VariationResult :=
  match sorted with
  | [] => [r]
  | x :: rest =>
      if key_lt (sort_key x) (sort_key r) then x :: insert r rest
      else r :: x :: rest
  end.

Fixpoint sort (results : list VariationResult) : list VariationResult :=
  match results with
  | [] => []
  | r :: rest => insert r (sort rest)
  end.

Section Main.

(** [get_metric_confidence(metrics, primary_metric, vid)] and
    [get_metric_uplift(metrics, primary_metric, vid)] as functions of
    [vid], at their annotated type. *)
Variables get_p2bb get_uplift : string -> option Q.

Variables days total_orders total_visitors : Z.

(** The body of the loop over [variants], up to the verdict. *)
Definition analyze_variation (variant : Helpers.Variation) : VariationResult :=
  let vid := Helpers.id variant in
  let p2bb := get_p2bb vid in
  let uplift := get_uplift vid in
  let v_verdict :=
    if is_too_early days total_orders total_visitors then "TOO EARLY"
    else variation_verdict p2bb uplift days in
  mkVariationResult vid v_verdict p2bb uplift.

(** [variation_results] after the sort. *)
Definition variation_results (variants : list Helpers.Variation)
  : list VariationResult :=
  sort (map analyze_variation variants).

(** [best = variation_results[0]]; [main] has left before when
    [variants] is empty. *)
Definition best (variants : list Helpers.Variation) : option VariationResult :=
  hd_error (variation_results variants).

End Main.

(** The segment quick-check of [main], for one segment of the device
    grouping: the verdict [seg_verdict]. *)
Definition segment_check (seg_p2bb seg_uplift : option Q) (days : Z) : string :=
  match seg_uplift with
  | Some _ => variation_verdict seg_p2bb seg_uplift days
  | None => "LOW DATA"
  end.

(** The three notes [main] may give on revenue against conversion; the
    text of the third formats the two uplifts and is left out. *)
Inductive divergence_note : Type :=
| RevenueUpConversionDown
| ConversionUpRevenueDown
| SignalsNotAligned.

(** The divergence of one variation, from its uplift on revenue per
    visitor and on the conversion rate. *)
Definition divergence (rpv_uplift cr_uplift : option Q)
  : option divergence_note :=
  match rpv_uplift, cr_uplift with
  | Some r, Some c =>
      let rpv_dir :=
        if Float.gt r (5 # 1000) then "up"
        else if Float.lt r (- (5 # 1000)) then "down" else "flat" in
      let cr_dir :=
        if Float.gt c (5 # 1000) then "up"
        else if Float.lt c (- (5 # 1000)) then "down" else "flat" in
      if negb (String.eqb rpv_dir cr_dir) && negb (String.eqb rpv_dir "flat")
         && negb (String.eqb cr_dir "flat")
      then
        if String.eqb rpv_dir "up" && String.eqb cr_dir "down"
        then Some RevenueUpConversionDown
        else if String.eqb rpv_dir "down" && String.eqb cr_dir "up"
        then Some ConversionUpRevenueDown
        else Some SignalsNotAligned
      else None
  | _, _ => None
  end.

(** The contradiction flag of the segment quick-check, from the verdict
    of the best variation and the verdict of the segment. *)
Definition segment_contradiction (best_verdict seg_verdict : string) : bool :=
  if String.eqb best_verdict "WINNER" && String.eqb seg_verdict "LOSER"
  then true
  else if String.eqb best_verdict "LOSER" && String.eqb seg_verdict "WINNER"
  then true
  else false.

(** The loop of [main] that keeps the arguments other than ["--slack"]
    and its value, with [skip_next] as argument, and the test id it
    yields. *)
Fixpoint positional (skip_next : bool) (arguments : list string)
  : list string :=
  match arguments with
  | [] => []
  | arg :: rest =>
      if skip_next then positional false rest
      else if String.eqb arg "--slack" then positional true rest
      else arg :: positional false rest
  end.

Definition test_id (argv : list string) : option string :=
  hd_error (positional false (tl argv)).

End TestVerdict.

(** ** test-portfolio/references/portfolio.py *)

Module Portfolio.

Definition compute_verdict (p2bb uplift : option Q) (days total_orders : Z)
  : string :=
  if (days <? VERDICT_MIN_RUNTIME)%Z || (total_orders <? VERDICT_MIN_ORDERS)%Z
  then "TOO EARLY"
  else
    match p2bb, uplift with
    | Some p, Some u =>
        if Float.ge p MIN_CONFIDENCE && Float.gt u NEUTRAL_LIFT_THRESHOLD
        then "WINNER"
        else if Float.ge (1 - p) MIN_CONFIDENCE
                && Float.lt u (- NEUTRAL_LIFT_THRESHOLD)
        then "LOSER"
        else if (21 <=? days)%Z && Float.le (Qabs u) NEUTRAL_LIFT_THRESHOLD
        then "FLAT"
        else "KEEP RUNNING"
    | _, _ => "TOO EARLY"
    end.

(** [best_variant_metrics]: the loop, with its two locals as
    arguments. *)
Fixpoint best_variant_metrics_from (best_uplift best_conf : pyval)
    (variants : list Helpers.Variation) (metrics : list pyval)
    (metric_name : string) : result (pyval * pyval) :=
  match variants with
  | [] => Ok (best_uplift, best_conf)
  | v :: rest =>
      uplift <- get_metric_uplift metrics metric_name (Helpers.id v) ;;
      better <- (if Py.is_none uplift then Ok false
                 else if Py.is_none best_uplift then Ok true
                 else Py.gt uplift best_uplift) ;;
      if better then
        conf <- get_metric_confidence metrics metric_name (Helpers.id v) ;;
        best_variant_metrics_from uplift conf rest metrics metric_name
      else
        best_variant_metrics_from best_uplift best_conf rest metrics
          metric_name
  end.

Definition best_variant_metrics (variants : list Helpers.Variation)
    (metrics : list pyval) (metric_name : string) : result (pyval * pyval) :=
  best_variant_metrics_from PNone PNone variants metrics metric_name.

(** The win/loss record of the scorecard, from the verdicts of
    [ended_results]. *)
Definition callable_verdicts (verdicts : list string) : list string :=
  filter (fun v => String.eqb v "WINNER" || String.eqb v "LOSER"
                   || String.eqb v "FLAT") verdicts.

Definition winners (verdicts : list string) : list string :=
  filter (fun v => String.eqb v "WINNER") (callable_verdicts verdicts).

Definition losers (verdicts : list string) : list string :=
  filter (fun v => String.eqb v "LOSER") (callable_verdicts verdicts).


Definition inconclusive (verdicts : list string) : list string :=
  filter (fun v => String.eqb v "TOO EARLY" || String.eqb v "KEEP RUNNING")
    verdicts.


End Portfolio.

(** ** morning-brief/references/brief.py *)

Module Brief.

(** The action texts of [compute_health]; they format the numbers they
    are given and are kept as their cases. *)
Inductive action : Type :=
| JustStarted
| ZeroOrders
| ConversionDropping
| NeedsMoreData
| TrendingNegative
| LowTraffic
| StrongSignal
| EmergingWinner
| OnTrack.

Definition compute_health (runtime total_orders : Z) (daily_vis_rate : Q)
    (best_primary_lift best_primary_conf best_conv_lift best_conv_conf
       : option Q) : string * action :=
  if (runtime <? 3)%Z then ("RED", JustStarted)
  else if (3 <=? runtime)%Z && (total_orders =? 0)%Z then ("RED", ZeroOrders)
  else if match best_conv_lift, best_conv_conf with
          | Some lift, Some conf =>
              Float.lt lift (- (20 # 100)) && Float.ge conf (80 # 100)
          | _, _ => false
          end
  then ("RED", ConversionDropping)
  else if (runtime <? MIN_RUNTIME_DAYS)%Z then ("YELLOW", NeedsMoreData)
  else if match best_primary_lift, best_primary_conf with
          | Some lift, Some conf =>
              Float.lt lift 0
              && (Float.le (60 # 100) conf && Float.lt conf (80 # 100))
          | _, _ => false
          end
  then ("YELLOW", TrendingNegative)
  else if Float.lt daily_vis_rate 50 then ("YELLOW", LowTraffic)
  else if match best_primary_conf, best_primary_lift with
          | Some conf, Some lift =>
              Float.ge conf (80 # 100) && Float.gt lift (2 # 100)
              && (VERDICT_MIN_ORDERS <=? total_orders)%Z
          | _, _ => false
          end
  then ("GREEN", StrongSignal)
  else if match best_primary_conf, best_primary_lift with
          | Some conf, Some lift =>
              Float.ge conf (60 # 100) && Float.gt lift (2 # 100)
          | _, _ => false
          end
  then ("GREEN", EmergingWinner)
  else ("GREEN", OnTrack).

End Brief.

(** ** The reference definitions of the specification *)

Module Spec.

Inductive Verdict : Type :=
| WINNER | LOSER | FLAT | KEEP_RUNNING | TOO_EARLY | LOW_DATA.

(** The literal each tool prints for a verdict. *)
Definition label (v : Verdict) : string :=
  match v with
  | WINNER => "WINNER"
  | LOSER => "LOSER"
  | FLAT => "FLAT"
  | KEEP_RUNNING => "KEEP RUNNING"
  | TOO_EARLY => "TOO EARLY"
  | LOW_DATA => "LOW DATA"
  end.

(** [classify] as section 4.3 writes it, with the thresholds as
    parameters. *)
Definition classify (p2bb uplift : option Q) (runtimeDays totalOrders : Z)
    (minRuntime minOrders : Z) (minConfidence neutralThreshold : Q)
  : Verdict :=
  if (runtimeDays <? minRuntime)%Z || (totalOrders <? minOrders)%Z
  then TOO_EARLY
  else
    match p2bb, uplift with
    | Some p, Some u =>
        if Qle_bool minConfidence p && negb (Qle_bool u neutralThreshold)
        then WINNER
        else if Qle_bool minConfidence (1 - p)
                && negb (Qle_bool (- neutralThreshold) u)
        then LOSER
        else if (21 <=? runtimeDays)%Z && Qle_bool (Qabs u) neutralThreshold
        then FLAT
        else KEEP_RUNNING
    | _, _ => TOO_EARLY
    end.

(** [classify] at the default thresholds of section 4.3. *)
Definition default (p2bb uplift : option Q) (runtimeDays totalOrders : Z)
  : Verdict :=
  classify p2bb uplift runtimeDays totalOrders 10 30 (80 # 100) (2 # 100).

(** The segment-scoped variant of section 4.3: no runtime or order gate,
    [LOW_DATA] when confidence or uplift is absent. *)
Definition classify_segment (p2bb uplift : option Q) (runtimeDays : Z)
    (minConfidence neutralThreshold : Q) : Verdict :=
  match p2bb, uplift with
  | Some p, Some u =>
      if Qle_bool minConfidence p && negb (Qle_bool u neutralThreshold)
      then WINNER
      else if Qle_bool minConfidence (1 - p)
              && negb (Qle_bool (- neutralThreshold) u)
      then LOSER
      else if (21 <=? runtimeDays)%Z && Qle_bool (Qabs u) neutralThreshold
      then FLAT
      else KEEP_RUNNING
  | _, _ => LOW_DATA
  end.

(** The choice of the best variant of section 4.2, for the uplift
    [uplift_of] reads for each variant: nothing when no variant has an
    uplift; otherwise a variant of the list whose uplift is above that of
    every variant before it and not below that of any variant after
    it. *)
Definition chosen (uplift_of : Helpers.Variation -> option Q)
    (variants : list Helpers.Variation) (best : option Helpers.Variation)
  : Prop :=
  match best with
  | None => Forall (fun v => uplift_of v = None) variants
  | Some b =>
      exists pre post q,
        variants = (pre ++ b :: post)%list
        /\ uplift_of b = Some q
        /\ Forall (fun v => forall x, uplift_of v = Some x -> x < q) pre
        /\ Forall (fun v => forall x, uplift_of v = Some x -> x <= q) post
  end.

(** A metrics feed: a list of records. *)
Definition records (metrics : list pyval) : Prop :=
  Forall (fun m => Py.is_dict m = true) metrics.

(** A record of the feed that carries the variation id. *)
Definition has_id (variation_id : string) (m : pyval) : bool :=
  match m with
  | PDict r => Py.eq_str (dict_get r "variation_id" PNone) variation_id
  | _ => false
  end.

(** The direction a funnel stage shows to the breakpoint scan of section
    4.4: up above 0.005, down below -0.005, and none when the uplift is
    absent or flat. *)
Definition signal (s : Funnel.Stage) : option string :=
  match Funnel.uplift s with
  | Some u =>
      if Float.gt u (5 # 1000) then Some "up"
      else if Float.lt u (- (5 # 1000)) then Some "down"
      else None
  | None => None
  end.

Definition shows_direction (s : Funnel.Stage) : bool :=
  match signal s with Some _ => true | None => false end.

Definition signals (stages : list Funnel.Stage) : list string :=
  flat_map (fun s => match signal s with Some d => [d] | None => [] end)
    stages.

(** What the direction tracked by the scan is worth: absent, or a
    non-flat one. *)
Definition tracked (prev : option string) : Prop :=
  forall p, prev = Some p -> p <> "flat".

(** A stage of the funnel with its label and uplift, for the examples. *)
Definition stage (label : string) (uplift : Q) : Funnel.Stage :=
  Funnel.mkStage label label (Some 1) (Some (1 + uplift)) (Some uplift)
    None true.

(** The rollout recommendations of section 4.5. *)
Inductive Recommendation : Type :=
| RollOutBroadly
| SegmentSpecific (winners losers : list string)
| DoNotRollOut
| HoldForMoreData
| MixedSignalHold.

Definition count (v : Verdict) (verdicts : list string) : Z :=
  Z.of_nat (List.length (filter (fun x => String.eqb x (label v)) verdicts)).

(** The composition rules of section 4.5, in their order, on the
    (name, verdict) pairs of the segments. *)
Definition recommend (segments : list (string * string)) : Recommendation :=
  let verdicts := map snd segments in
  let total := Z.of_nat (List.length segments) in
  let named (v : Verdict) :=
    map fst (filter (fun s => String.eqb (snd s) (label v)) segments) in
  if (count LOSER verdicts =? 0)%Z && (total <=? 2 * count WINNER verdicts)%Z
  then RollOutBroadly
  else if (0 <? count WINNER verdicts)%Z && (0 <? count LOSER verdicts)%Z
  then SegmentSpecific (named WINNER) (named LOSER)
  else if (0 <? count LOSER verdicts)%Z && (count WINNER verdicts =? 0)%Z
  then DoNotRollOut
  else if (total <? 2 * count LOW_DATA verdicts)%Z
  then HoldForMoreData
  else MixedSignalHold.

(** The (name, verdict) pairs of the entries of [all_segments]. *)
Definition pairs (segments : list Spotlight.Segment) : list (string * string) :=
  map (fun s => (Spotlight.name s, Spotlight.verdict s)) segments.

(** The action and the reason spotlight.py prints for a recommendation;
    the reason names the first three winning and the first three losing
    segments. *)
Definition shown (r : Recommendation) : string * string :=
  match r with
  | RollOutBroadly =>
      ("ROLL OUT", "No losing segments. Roll out to all traffic.")
  | SegmentSpecific winners losers =>
      ("SEGMENT-SPECIFIC",
       "Consider rolling out to " ++ String.concat ", " (firstn 3 winners)
       ++ " only. " ++ String.concat ", " (firstn 3 losers) ++ " "
       ++ (if (List.length losers =? 1)%nat then "is" else "are")
       ++ " underperforming — exclude or investigate.")
  | DoNotRollOut =>
      ("DON'T ROLL OUT",
       "No winning segments found. The variant is hurting performance.")
  | HoldForMoreData =>
      ("HOLD",
       "Most segments have insufficient data. Let the test run longer.")
  | MixedSignalHold =>
      ("HOLD",
       "Mixed signals. Monitor for another few days before making a call.")
  end.

(** The verdict of the mirrored experiment: winner and loser trade
    places. *)
Definition mirror (verdict : string) : string :=
  if String.eqb verdict "WINNER" then "LOSER"
  else if String.eqb verdict "LOSER" then "WINNER"
  else verdict.

(** What a record of the feed holds under the metric [key], as the
    aggregate helpers read it: the number under ["value"], and zero when
    the metric is missing or is no record, or when its value is missing or
    null. *)
Definition holds (key : string) (m : pyval) (q : Q) : Prop :=
  match m with
  | PDict r =>
      match Py.lookup r key with
      | Some (PDict d) =>
          match Py.lookup d "value" with
          | Some (PNum x) => q = x
          | Some PNone | None => q = 0
          | Some _ => False
          end
      | _ => q = 0
      end
  | _ => False
  end.

Definition sum (qs : list Q) : Q := fold_right Qplus 0 qs.

(** The key [group_metrics_by_segment] files a record under. *)
Definition audience (m : pyval) : pyval :=
  match m with
  | PDict r => dict_get r "audience" (PStr "Unknown")
  | _ => PNone
  end.

(** Keys of which no two are equal. *)
Fixpoint distinct (keys : list pyval) : Prop :=
  match keys with
  | [] => True
  | k :: rest => Forall (fun k' => Py.key_eqb k k' = false) rest /\ distinct rest
  end.

(** What the grouping keeps true of the records [seen] and the groups
    made of them: a group is not empty and holds, in their order, the
    records filed under its key; every record has its key among the
    groups; no two groups have equal keys. *)
Definition grouped (seen : list pyval) (segments : list (pyval * list pyval))
  : Prop :=
  (forall k g, In (k, g) segments ->
     g <> [] /\ g = filter (fun m => Py.key_eqb k (audience m)) seen)
  /\ (forall m, In m seen ->
        existsb (fun k => Py.key_eqb k (audience m)) (map fst segments)
        = true)
  /\ distinct (map fst segments).

(** A stage of funnel.py with the fields debrief.py keeps. *)
Definition debrief_view (s : Funnel.Stage) : Debrief.Stage :=
  Debrief.mkStage (Funnel.label s) (Funnel.control s) (Funnel.variant s)
    (Funnel.uplift s) (Funnel.confidence s).

(** The first element of greatest score, for a score that not every
    element has: nothing when no element has a score; otherwise an
    element whose score is above that of every element before it and not
    below that of any element after it. *)
Definition first_greatest {A : Type} (score : A -> option Q) (l : list A)
    (r : option A) : Prop :=
  match r with
  | None => Forall (fun x => score x = None) l
  | Some b =>
      exists pre post q,
        l = (pre ++ b :: post)%list
        /\ score b = Some q
        /\ Forall (fun x => forall y, score x = Some y -> y < q) pre
        /\ Forall (fun x => forall y, score x = Some y -> y <= q) post
  end.

(** The gain of a stage: its uplift when positive. *)
Definition gain (s : Funnel.Stage) : option Q :=
  match Funnel.uplift s with
  | Some u => if Float.gt u 0 then Some u else None
  | None => None
  end.

(** The drop of a stage: the size of its uplift when negative. *)
Definition drop (s : Funnel.Stage) : option Q :=
  match Funnel.uplift s with
  | Some u => if Float.lt u 0 then Some (- u) else None
  | None => None
  end.

(** How many segments have a verdict. *)
Definition with_verdict (verdict : string) (segments : list Spotlight.Segment)
  : Z :=
  Z.of_nat
    (List.length
       (filter (fun s => String.eqb (Spotlight.verdict s) verdict) segments)).

End Spec.

(** * Part II: the facts *)

(** ** Float comparisons as propositions *)

Module FloatFacts.

Lemma float_ge_iff a b : Float.ge a b = true <-> b <= a.
Proof. unfold Float.ge. apply Qle_bool_iff. Qed.

Lemma float_le_iff a b : Float.le a b = true <-> a <= b.
Proof. unfold Float.le. apply Qle_bool_iff. Qed.

Lemma float_gt_iff a b : Float.gt a b = true <-> b < a.
Proof.
  unfold Float.gt. rewrite negb_true_iff, <- not_true_iff_false, Qle_bool_iff.
  split; [apply Qnot_le_lt | apply Qlt_not_le].
Qed.

Lemma float_lt_iff a b : Float.lt a b = true <-> a < b.
Proof.
  unfold Float.lt. rewrite negb_true_iff, <- not_true_iff_false, Qle_bool_iff.
  split; [apply Qnot_le_lt | apply Qlt_not_le].
Qed.

Lemma float_ge_false_iff a b : Float.ge a b = false <-> a < b.
Proof.
  rewrite <- not_true_iff_false, float_ge_iff.
  split; [apply Qnot_le_lt | apply Qlt_not_le].
Qed.

Lemma float_le_false_iff a b : Float.le a b = false <-> b < a.
Proof.
  rewrite <- not_true_iff_false, float_le_iff.
  split; [apply Qnot_le_lt | apply Qlt_not_le].
Qed.

Lemma float_gt_false_iff a b : Float.gt a b = false <-> a <= b.
Proof.
  rewrite <- not_true_iff_false, float_gt_iff.
  split; [apply Qnot_lt_le | apply Qle_not_lt].
Qed.

Lemma float_lt_false_iff a b : Float.lt a b = false <-> b <= a.
Proof.
  rewrite <- not_true_iff_false, float_lt_iff.
  split; [apply Qnot_lt_le | apply Qle_not_lt].
Qed.

Lemma float_truthy_false_iff a : Float.truthy a = false <-> a == 0.
Proof.
  unfold Float.truthy. rewrite negb_false_iff. apply Qeq_bool_iff.
Qed.

End FloatFacts.

(** Replace the boolean float comparisons of the context by their
    propositions. *)
Ltac float_hyps :=
  repeat match goal with
  | H : Float.ge _ _ = true |- _ => apply FloatFacts.float_ge_iff in H
  | H : Float.ge _ _ = false |- _ => apply FloatFacts.float_ge_false_iff in H
  | H : Float.le _ _ = true |- _ => apply FloatFacts.float_le_iff in H
  | H : Float.le _ _ = false |- _ => apply FloatFacts.float_le_false_iff in H
  | H : Float.gt _ _ = true |- _ => apply FloatFacts.float_gt_iff in H
  | H : Float.gt _ _ = false |- _ => apply FloatFacts.float_gt_false_iff in H
  | H : Float.lt _ _ = true |- _ => apply FloatFacts.float_lt_iff in H
  | H : Float.lt _ _ = false |- _ => apply FloatFacts.float_lt_false_iff in H
  | H : Qle_bool _ _ = true |- _ => apply Qle_bool_iff in H
  | H : Qle_bool _ _ = false |- _ =>
      apply not_true_iff_false in H; rewrite Qle_bool_iff in H;
      apply Qnot_le_lt in H
  | H : (_ <? _)%Z = true |- _ => apply Z.ltb_lt in H
  | H : (_ <? _)%Z = false |- _ => apply Z.ltb_ge in H
  | H : (_ <=? _)%Z = true |- _ => apply Z.leb_le in H
  | H : (_ <=? _)%Z = false |- _ => apply Z.leb_gt in H
  | H : (_ =? _)%Z = true |- _ => apply Z.eqb_eq in H
  | H : (_ =? _)%Z = false |- _ => apply Z.eqb_neq in H
  end.

(** Add to the context the atom [X] or its negation, whichever the
    arithmetic facts at hand decide. *)
Ltac settle X :=
  first [ assert X by (assumption || lra || lia)
        | assert (~ X) by (intro; (lra || lia)) ].

(** ** The verdict classifier *)

Module ClassifierFacts.

Import Spec.

Lemma rollout_compute_verdict_refines p2bb uplift days total_orders :
  Rollout.compute_verdict p2bb uplift days total_orders
  = label (default p2bb uplift days total_orders).
Proof.
  unfold Rollout.compute_verdict, default, classify.
  unfold Float.ge, Float.gt, Float.lt, Float.le.
  change VERDICT_MIN_RUNTIME with 10%Z.
  change VERDICT_MIN_ORDERS with 30%Z.
  change MIN_CONFIDENCE with (80 # 100).
  change NEUTRAL_LIFT_THRESHOLD with (2 # 100).
  destruct ((days <? 10)%Z || (total_orders <? 30)%Z); [reflexivity|].
  destruct p2bb as [p|], uplift as [u|]; try reflexivity.
  repeat match goal with
         | |- context [if ?c then _ else _] => destruct c
         end; reflexivity.
Qed.

Lemma debrief_compute_verdict_refines p2bb uplift days total_orders :
  Debrief.compute_verdict p2bb uplift days total_orders
  = label (default p2bb uplift days total_orders).
Proof.
  unfold Debrief.compute_verdict, default, classify.
  unfold Float.ge, Float.gt, Float.lt, Float.le.
  change VERDICT_MIN_RUNTIME with 10%Z.
  change VERDICT_MIN_ORDERS with 30%Z.
  change MIN_CONFIDENCE with (80 # 100).
  change NEUTRAL_LIFT_THRESHOLD with (2 # 100).
  destruct ((days <? 10)%Z || (total_orders <? 30)%Z); [reflexivity|].
  destruct p2bb as [p|], uplift as [u|]; try reflexivity.
  repeat match goal with
         | |- context [if ?c then _ else _] => destruct c
         end; reflexivity.
Qed.

(** What the reference definition decides, as propositions on its
    inputs. *)
Lemma default_too_early p2bb uplift days total_orders :
  default p2bb uplift days total_orders = TOO_EARLY
  <-> (days < 10)%Z \/ (total_orders < 30)%Z \/ p2bb = None \/ uplift = None.
Proof.
  unfold default, classify.
  destruct (days <? 10)%Z eqn:Hd, (total_orders <? 30)%Z eqn:Ho; simpl;
    float_hyps; try (split; [intros _; lia | reflexivity]).
  destruct p2bb as [p|], uplift as [u|];
    try (split; [intros _; auto | reflexivity]).
  repeat match goal with
         | |- context [if ?c then _ else _] => destruct c
         end;
    (split; [discriminate | intros [?|[?|[?|?]]]; try lia; discriminate]).
Qed.

Lemma default_present p u days total_orders :
  (10 <= days)%Z -> (30 <= total_orders)%Z ->
  let v := default (Some p) (Some u) days total_orders in
  (v = WINNER <-> 80 # 100 <= p /\ 2 # 100 < u)
  /\ (v = LOSER <-> 80 # 100 <= 1 - p /\ u < - (2 # 100))
  /\ (v = FLAT <-> (21 <= days)%Z /\ Qabs u <= 2 # 100)
  /\ (v = KEEP_RUNNING
      <-> ~ (80 # 100 <= p /\ 2 # 100 < u)
          /\ ~ (80 # 100 <= 1 - p /\ u < - (2 # 100))
          /\ ~ ((21 <= days)%Z /\ Qabs u <= 2 # 100)).
Proof.
  intros Hdays Horders. unfold default, classify.
  apply Z.ltb_ge in Hdays, Horders. rewrite Hdays, Horders. simpl.
  destruct (Qle_bool (80 # 100) p) eqn:Hp,
           (Qle_bool u (2 # 100)) eqn:Hu,
           (Qle_bool (80 # 100) (1 - p)) eqn:Hq,
           (Qle_bool (- (2 # 100)) u) eqn:Hn,
           (21 <=? days)%Z eqn:H21,
           (Qle_bool (Qabs u) (2 # 100)) eqn:Ha; simpl;
    float_hyps;
    try (pose proof (proj1 (Qabs_Qle_condition _ _) Ha) as [? ?]);
    try (exfalso; lra);
    settle (80 # 100 <= p); settle (2 # 100 < u);
    settle (80 # 100 <= 1 - p); settle (u < - (2 # 100));
    settle (21 <= days)%Z; settle (Qabs u <= 2 # 100);
    intuition (try discriminate; try congruence).
Qed.

Lemma default_never_low_data p2bb uplift days total_orders :
  let v := default p2bb uplift days total_orders in
  v = WINNER \/ v = LOSER \/ v = FLAT \/ v = KEEP_RUNNING \/ v = TOO_EARLY.
Proof.
  unfold default, classify.
  destruct ((days <? 10)%Z || (total_orders <? 30)%Z); [auto 6|].
  destruct p2bb as [p|], uplift as [u|]; auto 6.
  repeat match goal with
         | |- context [if ?c then _ else _] => destruct c
         end; auto 6.
Qed.

End ClassifierFacts.

(** The boundary examples of the specification, run on the code. *)
Example compute_verdict_examples :
  Rollout.compute_verdict (Some (99 # 100)) (Some (5 # 10)) 5 100 = "TOO EARLY"
  /\ Rollout.compute_verdict (Some (80 # 100)) (Some (21 # 1000)) 10 30 = "WINNER"
  /\ Rollout.compute_verdict (Some (80 # 100)) (Some (20 # 1000)) 10 30
     = "KEEP RUNNING"
  /\ Debrief.compute_verdict (Some (5 # 10)) (Some 0) 15 50 = "KEEP RUNNING"
  /\ Debrief.compute_verdict (Some (5 # 10)) (Some 0) 21 50 = "FLAT"
  /\ Debrief.compute_verdict (Some (10 # 100)) (Some (- (5 # 100))) 10 30
     = "LOSER".
Proof. repeat split; reflexivity. Qed.

(** C1.  With the thresholds of [ig_config.py] (minimum confidence 0.80,
    neutral threshold 0.02, minimum runtime 10 days, minimum orders 30),
    [compute_verdict] of rollout.py and of debrief.py returns, on every
    input, the label of the verdict the reference [classify] of the
    specification gives, which is one of the five verdicts: TOO_EARLY
    exactly when the runtime is below 10, the orders are below 30, or the
    confidence or the uplift is absent; otherwise WINNER exactly when
    [p2bb >= 0.80] and [uplift > 0.02], LOSER exactly when
    [1 - p2bb >= 0.80] and [uplift < -0.02], FLAT exactly when
    [days >= 21] and [|uplift| <= 0.02], and KEEP_RUNNING in the remaining
    case.  A confidence of exactly 0.80 passes, an uplift of exactly 0.02
    makes neither a WINNER nor a LOSER. *)
Theorem compute_verdict_is_classify :
  forall (p2bb uplift : option Q) (days total_orders : Z),
    let v := Spec.default p2bb uplift days total_orders in
    Rollout.compute_verdict p2bb uplift days total_orders = Spec.label v
    /\ Debrief.compute_verdict p2bb uplift days total_orders = Spec.label v
    /\ In v [Spec.WINNER; Spec.LOSER; Spec.FLAT; Spec.KEEP_RUNNING;
             Spec.TOO_EARLY]
    /\ (v = Spec.TOO_EARLY
        <-> (days < 10)%Z \/ (total_orders < 30)%Z
            \/ p2bb = None \/ uplift = None)
    /\ (forall p u,
          p2bb = Some p -> uplift = Some u ->
          (10 <= days)%Z -> (30 <= total_orders)%Z ->
          (v = Spec.WINNER <-> 80 # 100 <= p /\ 2 # 100 < u)
          /\ (v = Spec.LOSER <-> 80 # 100 <= 1 - p /\ u < - (2 # 100))
          /\ (v = Spec.FLAT <-> (21 <= days)%Z /\ Qabs u <= 2 # 100)
          /\ (v = Spec.KEEP_RUNNING
              <-> ~ (80 # 100 <= p /\ 2 # 100 < u)
                  /\ ~ (80 # 100 <= 1 - p /\ u < - (2 # 100))
                  /\ ~ ((21 <= days)%Z /\ Qabs u <= 2 # 100)))
    /\ (forall p u,
          p2bb = Some p -> uplift = Some u ->
          (10 <= days)%Z -> (30 <= total_orders)%Z ->
          p == 80 # 100 -> 2 # 100 < u -> v = Spec.WINNER)
    /\ (forall u,
          uplift = Some u -> u == 2 # 100 ->
          v <> Spec.WINNER /\ v <> Spec.LOSER).
Proof.
  intros p2bb uplift days total_orders v.
  split; [apply ClassifierFacts.rollout_compute_verdict_refines|].
  split; [apply ClassifierFacts.debrief_compute_verdict_refines|].
  split.
  { destruct (ClassifierFacts.default_never_low_data p2bb uplift days
                total_orders) as [H|[H|[H|[H|H]]]];
      fold v in H; rewrite H; simpl; auto 6. }
  split; [apply ClassifierFacts.default_too_early|].
  split.
  { intros p u -> -> Hd Ho.
    apply ClassifierFacts.default_present; assumption. }
  split.
  { intros p u Hp Hu Hd Ho Hp80 Hgt. subst p2bb uplift.
    apply (ClassifierFacts.default_present p u days total_orders Hd Ho).
    split; [rewrite Hp80; apply Qle_refl | assumption]. }
  intros u -> Hu.
  destruct (Z_lt_ge_dec days 10) as [Hd|Hd].
  { assert (H : v = Spec.TOO_EARLY)
      by (apply ClassifierFacts.default_too_early; auto).
    rewrite H. split; discriminate. }
  destruct (Z_lt_ge_dec total_orders 30) as [Ho|Ho].
  { assert (H : v = Spec.TOO_EARLY)
      by (apply ClassifierFacts.default_too_early; auto).
    rewrite H. split; discriminate. }
  destruct p2bb as [p|].
  - destruct (ClassifierFacts.default_present p u days total_orders)
      as (HW & HL & _); [lia | lia |].
    fold v in HW, HL.
    split; intros H; [apply HW in H | apply HL in H];
      destruct H as [_ H]; rewrite Hu in H; revert H; lra.
  - assert (H : v = Spec.TOO_EARLY)
      by (apply ClassifierFacts.default_too_early; auto).
    rewrite H. split; discriminate.
Qed.

(** ** The segment-scoped classifier *)

Module SegmentFacts.

Import Spec.

Ltac unfold_thresholds :=
  unfold Float.ge, Float.gt, Float.lt, Float.le;
  change MIN_CONFIDENCE with (80 # 100);
  change NEUTRAL_LIFT_THRESHOLD with (2 # 100).

Ltac split_ifs :=
  repeat match goal with
         | |- context [if ?c then _ else _] => destruct c
         end.

Lemma spotlight_segment_verdict_refines p2bb uplift days :
  Spotlight.segment_verdict p2bb uplift days
  = label (classify_segment p2bb uplift days (80 # 100) (2 # 100)).
Proof.
  unfold Spotlight.segment_verdict, classify_segment. unfold_thresholds.
  destruct p2bb as [p|], uplift as [u|]; try reflexivity.
  split_ifs; reflexivity.
Qed.

Lemma rollout_segment_verdict_refines p2bb uplift days :
  Rollout.segment_verdict p2bb uplift days
  = label (classify_segment p2bb uplift days (80 # 100) (2 # 100)).
Proof.
  unfold Rollout.segment_verdict, classify_segment. unfold_thresholds.
  destruct p2bb as [p|], uplift as [u|]; try reflexivity.
  split_ifs; reflexivity.
Qed.

(** With both numbers present the segment classifier is the overall
    classifier past its gate. *)
Lemma classify_segment_present p u days :
  classify_segment (Some p) (Some u) days (80 # 100) (2 # 100)
  = classify (Some p) (Some u) (Z.max days 10) 30 10 30 (80 # 100) (2 # 100).
Proof.
  unfold classify_segment, classify.
  replace (Z.max days 10 <? 10)%Z with false by (symmetry; apply Z.ltb_ge; lia).
  replace (21 <=? Z.max days 10)%Z with (21 <=? days)%Z
    by (apply eq_true_iff_eq; rewrite !Z.leb_le; lia).
  reflexivity.
Qed.

Lemma classify_segment_low_data p2bb uplift days :
  classify_segment p2bb uplift days (80 # 100) (2 # 100) = LOW_DATA
  <-> p2bb = None \/ uplift = None.
Proof.
  unfold classify_segment.
  destruct p2bb as [p|], uplift as [u|];
    try (split; [intros _; auto | reflexivity]).
  split_ifs; (split; [discriminate | intros [?|?]; discriminate]).
Qed.

Lemma classify_segment_never_too_early p2bb uplift days :
  classify_segment p2bb uplift days (80 # 100) (2 # 100) <> TOO_EARLY.
Proof.
  unfold classify_segment.
  destruct p2bb as [p|], uplift as [u|]; try discriminate.
  split_ifs; discriminate.
Qed.

(** The two [segment_verdict] functions do what the specification says
    of the segment-scoped classifier. *)
Lemma segment_verdict_sites p2bb uplift days :
  Spotlight.segment_verdict p2bb uplift days
  = Rollout.segment_verdict p2bb uplift days
  /\ (Spotlight.segment_verdict p2bb uplift days = "LOW DATA"
      <-> p2bb = None \/ uplift = None)
  /\ Spotlight.segment_verdict p2bb uplift days <> "TOO EARLY".
Proof.
  rewrite rollout_segment_verdict_refines, spotlight_segment_verdict_refines.
  split; [reflexivity|]. split.
  - rewrite <- classify_segment_low_data with (days := days).
    destruct (classify_segment p2bb uplift days (80 # 100) (2 # 100));
      simpl; split; congruence.
  - pose proof (classify_segment_never_too_early p2bb uplift days) as H.
    destruct (classify_segment p2bb uplift days (80 # 100) (2 # 100));
      simpl; congruence.
Qed.

(** Past its guard on the uplift, the quick-check of verdict.py is
    [variation_verdict], whose answer to a missing number is the overall
    one. *)
Lemma segment_check_cases seg_p2bb seg_uplift days :
  TestVerdict.segment_check seg_p2bb seg_uplift days
  = match seg_uplift, seg_p2bb with
    | None, _ => "LOW DATA"
    | Some _, None => "TOO EARLY"
    | Some _, Some _ => Spotlight.segment_verdict seg_p2bb seg_uplift days
    end.
Proof.
  destruct seg_uplift as [u|], seg_p2bb as [p|]; reflexivity.
Qed.

End SegmentFacts.

(** C2.  The segment quick-check of verdict.py departs from the
    segment-scoped classifier: a segment whose uplift is present and whose
    confidence is absent gets the verdict TOO EARLY there, where
    [segment_verdict] of spotlight.py and of rollout.py gives LOW DATA. *)
Theorem segment_check_returns_too_early :
  forall (u : Q) (days : Z),
    TestVerdict.segment_check None (Some u) days = "TOO EARLY"
    /\ Spotlight.segment_verdict None (Some u) days = "LOW DATA"
    /\ Rollout.segment_verdict None (Some u) days = "LOW DATA".
Proof. intros u days. repeat split; reflexivity. Qed.

(** ** Segment contradiction *)

Module ContradictionFacts.

Lemma sites_agree overall_uplift seg_uplift :
  Spotlight.main_contradiction overall_uplift seg_uplift
  = Rollout.contradiction overall_uplift seg_uplift.
Proof. reflexivity. Qed.

Lemma flag_iff o s :
  Spotlight.main_contradiction (Some o) (Some s) = true
  <-> (2 # 100 < o /\ s < - (2 # 100)) \/ (o < - (2 # 100) /\ 2 # 100 < s).
Proof.
  unfold Spotlight.main_contradiction.
  change NEUTRAL_LIFT_THRESHOLD with (2 # 100).
  destruct (Float.gt o (2 # 100)) eqn:H1,
           (Float.lt s (- (2 # 100))) eqn:H2,
           (Float.lt o (- (2 # 100))) eqn:H3,
           (Float.gt s (2 # 100)) eqn:H4; simpl; float_hyps;
    (split; [try discriminate; intros _; auto; try (left; split; assumption)
            | try reflexivity; intros [[? ?]|[? ?]]; exfalso; lra]).
Qed.

End ContradictionFacts.

(** C5.  The contradiction flag of a segment, in spotlight.py and in
    rollout.py alike, is true exactly when the overall uplift and the
    segment uplift are both present and either the overall uplift is above
    +0.02 and the segment uplift below -0.02, or the overall uplift is
    below -0.02 and the segment uplift above +0.02.  It is false when a
    value is absent and when a value lies within the dead-zone of 0.02
    around zero.  Overall +0.05 with segment -0.04 is a contradiction,
    overall +0.05 with segment -0.01 is not. *)
Theorem contradiction_flag :
  forall overall_uplift seg_uplift : option Q,
    let flag := Spotlight.main_contradiction overall_uplift seg_uplift in
    Rollout.contradiction overall_uplift seg_uplift = flag
    /\ (flag = true
        <-> exists o s,
              overall_uplift = Some o /\ seg_uplift = Some s
              /\ ((2 # 100 < o /\ s < - (2 # 100))
                  \/ (o < - (2 # 100) /\ 2 # 100 < s)))
    /\ (overall_uplift = None \/ seg_uplift = None -> flag = false)
    /\ (forall o s,
          overall_uplift = Some o -> seg_uplift = Some s ->
          Qabs o <= 2 # 100 \/ Qabs s <= 2 # 100 -> flag = false)
    /\ Spotlight.main_contradiction (Some (5 # 100)) (Some (- (4 # 100))) = true
    /\ Spotlight.main_contradiction (Some (5 # 100)) (Some (- (1 # 100))) = false.
Proof.
  intros overall_uplift seg_uplift flag.
  split; [reflexivity|].
  assert (Hiff : flag = true
        <-> exists o s,
              overall_uplift = Some o /\ seg_uplift = Some s
              /\ ((2 # 100 < o /\ s < - (2 # 100))
                  \/ (o < - (2 # 100) /\ 2 # 100 < s))).
  { subst flag. destruct overall_uplift as [o|], seg_uplift as [s|].
    - rewrite ContradictionFacts.flag_iff. split.
      + intros H. exists o, s. auto.
      + intros (o' & s' & Ho & Hs & H). injection Ho as <-. injection Hs as <-.
        exact H.
    - split; [discriminate | intros (o' & s' & _ & Hs & _); discriminate].
    - split; [discriminate | intros (o' & s' & Ho & _ & _); discriminate].
    - split; [discriminate | intros (o' & s' & Ho & _ & _); discriminate]. }
  split; [exact Hiff|].
  split.
  { intros H. apply not_true_is_false. rewrite Hiff.
    intros (o & s & Ho & Hs & _). destruct H; congruence. }
  split.
  { intros o s Ho Hs Hzone. apply not_true_is_false. rewrite Hiff.
    intros (o' & s' & Ho' & Hs' & H).
    assert (o' = o) by congruence. assert (s' = s) by congruence. subst o' s'.
    destruct Hzone as [Hz|Hz]; apply Qabs_Qle_condition in Hz; lra. }
  split; reflexivity.
Qed.

(** ** The financial projector *)

Module ImpactFacts.

Import Impact.

Lemma main_projection_runs total_visitors runtime control_value uplift
    ci_low ci_high :
  exists P,
    main_projection total_visitors runtime (Some control_value) (Some uplift)
      ci_low ci_high = Some P.
Proof. simpl. eexists. reflexivity. Qed.

Lemma daily_visitors_positive total_visitors runtime :
  (0 < runtime)%Z ->
  Helpers.daily_visitors total_visitors runtime
  = inject_Z total_visitors / inject_Z runtime.
Proof.
  intros H. unfold Helpers.daily_visitors.
  replace (runtime <=? 0)%Z with false by (symmetry; apply Z.leb_gt; lia).
  reflexivity.
Qed.

Lemma daily_impact_value expected :
  (if Float.truthy expected then expected / 365 else 0) == expected / 365.
Proof.
  destruct (Float.truthy expected) eqn:H; [reflexivity|].
  apply FloatFacts.float_truthy_false_iff in H. rewrite H. reflexivity.
Qed.

End ImpactFacts.

(** The claim that the conservative figure is never negative fails on a
    control with a negative value per visitor: 1000 visitors in 10 days, a
    control value of -2.00 and a lower bound of +0.05 give -3650. *)
Lemma conservative_annual_can_be_negative :
  exists P ca,
    Impact.main_projection 1000 10 (Some (- (2)))  (Some (1 # 10))
      (Some (5 # 100)) None = Some P
    /\ Impact.conservative_annual P = Some ca
    /\ ca < 0.
Proof.
  eexists. eexists. split; [reflexivity|]. split; [reflexivity|].
  reflexivity.
Qed.

(** C4 (amended).  With a positive runtime [d], [V] visitors, a control
    value [c] per visitor, an uplift [u] and bounds [(l, h)], the projector
    of impact.py computes an annual baseline of [(V / d) * 365 * c], an
    expected annual figure of baseline times [u], a monthly figure of the
    annual one over 12 and a daily opportunity cost of the annual one over
    365.  The conservative figure is baseline times [l] when [l] is
    present and positive, 0 when [l] is present and not positive, and is
    not negative whenever the baseline is not negative.  The optimistic
    figure is baseline times [h] when [h] is present and absent when [h]
    is absent.  On [c = 2], [V / d = 100], [u = 0.10], [l = -0.02],
    [h = 0.20] the figures are 73000, 7300, 0 and 14600. *)
Theorem financial_projection :
  forall (V d : Z) (c u : Q) (l h : option Q),
    (0 < d)%Z ->
    exists P,
      Impact.main_projection V d (Some c) (Some u) l h = Some P
      /\ Impact.annual_baseline P == (inject_Z V / inject_Z d) * 365 * c
      /\ Impact.expected_annual P == Impact.annual_baseline P * u
      /\ Impact.expected_monthly P == Impact.expected_annual P / 12
      /\ Impact.daily_impact P == Impact.expected_annual P / 365
      /\ (forall lv, l = Some lv -> 0 < lv ->
            Impact.conservative_annual P
            = Some (Impact.annual_baseline P * lv))
      /\ (forall lv, l = Some lv -> lv <= 0 ->
            Impact.conservative_annual P = Some 0)
      /\ (forall ca, Impact.conservative_annual P = Some ca ->
            0 <= Impact.annual_baseline P -> 0 <= ca)
      /\ (forall hv, h = Some hv ->
            Impact.optimistic_annual P
            = Some (Impact.annual_baseline P * hv))
      /\ (h = None -> Impact.optimistic_annual P = None)
      /\ (exists E o,
            Impact.main_projection 1000 10 (Some 2) (Some (10 # 100))
              (Some (- (2 # 100))) (Some (20 # 100)) = Some E
            /\ Impact.annual_baseline E == 73000
            /\ Impact.expected_annual E == 7300
            /\ Impact.conservative_annual E = Some 0
            /\ Impact.optimistic_annual E = Some o /\ o == 14600).
Proof.
  intros V d c u l h Hd.
  destruct (ImpactFacts.main_projection_runs V d c u l h) as [P HP].
  exists P. split; [exact HP|].
  unfold Impact.main_projection in HP.
  replace (0 <? d)%Z with true in HP by (symmetry; apply Z.ltb_lt; exact Hd).
  rewrite (ImpactFacts.daily_visitors_positive V d Hd) in HP.
  injection HP as <-. simpl.
  split; [reflexivity|]. split; [reflexivity|]. split; [reflexivity|].
  split; [apply ImpactFacts.daily_impact_value|].
  split.
  { intros lv -> Hlv.
    apply FloatFacts.float_gt_iff in Hlv. rewrite Hlv. reflexivity. }
  split.
  { intros lv -> Hlv.
    apply FloatFacts.float_gt_false_iff in Hlv. rewrite Hlv. reflexivity. }
  split.
  { intros ca Hca Hbase. destruct l as [lv|]; [|discriminate].
    destruct (Float.gt lv 0) eqn:Hlv; injection Hca as <-.
    - apply FloatFacts.float_gt_iff in Hlv.
      apply Qmult_le_0_compat; [exact Hbase | apply Qlt_le_weak, Hlv].
    - apply Qle_refl. }
  split; [intros hv ->; reflexivity|].
  split; [intros ->; reflexivity|].
  eexists. eexists. split; [reflexivity|].
  repeat split; reflexivity.
Qed.

Lemma financial_projection_witness :
  (0 < 10)%Z
  /\ exists P,
       Impact.main_projection 1000 10 (Some 2) (Some (10 # 100))
         (Some (- (2 # 100))) (Some (20 # 100)) = Some P
       /\ Impact.annual_baseline P == 73000.
Proof.
  split; [lia|].
  destruct (financial_projection 1000 10 2 (10 # 100) (Some (- (2 # 100)))
              (Some (20 # 100)) ltac:(lia)) as (P & HP & Hbase & _).
  exists P. split; [exact HP|]. rewrite Hbase. reflexivity.
Defined.

(** ** Revenue opportunity *)

(** C8.  A segment's visitor count is the sum of two counts of the feed
    and is not negative.  On such a count [compute_revenue_opportunity]
    always returns a number and never raises.  The number is
    [(seg_visitors / days) * (control_rpv * uplift) * 365] when the uplift
    and the control revenue per visitor are present and the runtime is
    positive; it is 0 when the uplift or the control revenue per visitor
    is absent and when the runtime is not positive. *)
Theorem revenue_opportunity :
  forall (seg_visitors days : Z) (uplift control_rpv : option Q),
    (0 <= seg_visitors)%Z ->
    exists r,
      Spotlight.compute_revenue_opportunity seg_visitors uplift control_rpv days
      = Ok r
      /\ (forall u rpv,
            uplift = Some u -> control_rpv = Some rpv -> (0 < days)%Z ->
            r == (inject_Z seg_visitors / inject_Z days) * (rpv * u) * 365)
      /\ (uplift = None \/ control_rpv = None \/ (days <= 0)%Z -> r = 0).
Proof.
  intros seg_visitors days uplift control_rpv Hcount.
  unfold Spotlight.compute_revenue_opportunity.
  destruct uplift as [u|], control_rpv as [rpv|];
    try (exists 0; split; [reflexivity|];
         split; [intros; discriminate | reflexivity]).
  destruct (days <=? 0)%Z eqn:Hd; simpl.
  { exists 0. split; [reflexivity|]. float_hyps.
    split; [intros; lia | reflexivity]. }
  destruct (seg_visitors <=? 0)%Z eqn:Hv; simpl.
  { exists 0. split; [reflexivity|]. float_hyps.
    split; [|reflexivity].
    intros u' rpv' _ _ _.
    assert (seg_visitors = 0%Z) as -> by lia.
    unfold Qdiv. rewrite Qmult_0_l, !Qmult_0_l. reflexivity. }
  float_hyps. unfold Py.truediv.
  assert (Hnz : Qeq_bool (inject_Z days) 0 = false).
  { apply not_true_iff_false. rewrite Qeq_bool_iff.
    unfold Qeq, inject_Z. simpl. lia. }
  rewrite Hnz. simpl. eexists. split; [reflexivity|]. split.
  - intros u' rpv' Hu Hr _. injection Hu as <-. injection Hr as <-.
    reflexivity.
  - intros [H|[H|H]]; try discriminate; lia.
Qed.

Lemma revenue_opportunity_witness :
  (0 <= 2800)%Z
  /\ exists r,
       Spotlight.compute_revenue_opportunity 2800 (Some (5 # 100)) (Some 3) 14
       = Ok r
       /\ r == 10950.
Proof.
  split; [lia|].
  destruct (revenue_opportunity 2800 14 (Some (5 # 100)) (Some 3)
              ltac:(lia)) as (r & Hrun & Hvalue & _).
  exists r. split; [exact Hrun|].
  rewrite (Hvalue (5 # 100) 3 eq_refl eq_refl ltac:(lia)). reflexivity.
Defined.

(** ** The funnel breakpoint *)

Module FunnelFacts.

Import Funnel.

Lemma direction_cases u :
  (direction u = "up" <-> 5 # 1000 < u)
  /\ (direction u = "down" <-> u < - (5 # 1000))
  /\ (direction u = "flat" <-> - (5 # 1000) <= u /\ u <= 5 # 1000).
Proof.
  unfold direction.
  destruct (Float.gt u (5 # 1000)) eqn:Hup,
           (Float.lt u (- (5 # 1000))) eqn:Hdown; float_hyps;
    repeat split; intros; try discriminate; try lra;
    repeat match goal with H : _ /\ _ |- _ => destruct H end; try lra.
Qed.

(** The scan reads a stage through [Spec.signal] only. *)
Lemma step_signal prev s rest :
  find_breakpoint_from prev (s :: rest)
  = match Spec.signal s with
    | None => find_breakpoint_from prev rest
    | Some d =>
        match prev with
        | Some p =>
            if negb (String.eqb d p) && negb (String.eqb p "flat")
            then Some s
            else find_breakpoint_from (Some d) rest
        | None => find_breakpoint_from (Some d) rest
        end
    end.
Proof.
  unfold Spec.signal. simpl. destruct (uplift s) as [u|]; [|reflexivity].
  unfold direction.
  destruct (Float.gt u (5 # 1000)), (Float.lt u (- (5 # 1000))); simpl;
    destruct prev as [p|]; try reflexivity;
    rewrite ?andb_true_r, ?andb_false_r; reflexivity.
Qed.

Lemma signal_not_flat s d : Spec.signal s = Some d -> d <> "flat".
Proof.
  unfold Spec.signal. destruct (uplift s) as [u|]; [|discriminate].
  destruct (Float.gt u (5 # 1000)), (Float.lt u (- (5 # 1000)));
    intros H; inversion H; discriminate.
Qed.

Lemma signals_cons s rest :
  Spec.signals (s :: rest)
  = match Spec.signal s with
    | Some d => d :: Spec.signals rest
    | None => Spec.signals rest
    end.
Proof. unfold Spec.signals. simpl. destruct (Spec.signal s); reflexivity. Qed.

Lemma scan_some stages :
  forall prev s,
    Spec.tracked prev ->
    find_breakpoint_from prev stages = Some s ->
    exists pre post d,
      stages = (pre ++ s :: post)%list
      /\ Spec.signal s = Some d
      /\ match prev with
         | Some p => Forall (eq p) (Spec.signals pre) /\ d <> p
         | None =>
             exists d0,
               Spec.signals pre <> []
               /\ Forall (eq d0) (Spec.signals pre) /\ d <> d0
         end.
Proof.
  induction stages as [|x rest IH]; intros prev s Hprev H; [discriminate|].
  rewrite step_signal in H.
  destruct (Spec.signal x) as [d|] eqn:Hx.
  - pose proof (signal_not_flat x d Hx) as Hd.
    assert (Hnext : Spec.tracked (Some d)) by (intros p [= <-]; exact Hd).
    destruct prev as [p|].
    + destruct (String.eqb_spec d p) as [->|Hne]; simpl in H.
      * destruct (IH (Some p) s Hnext H) as (pre & post & d' & -> & Hs & Hall & Hdiff).
        exists (x :: pre), post, d'. split; [reflexivity|]. split; [exact Hs|].
        rewrite signals_cons, Hx. split; [constructor|]; auto.
      * destruct (String.eqb_spec p "flat") as [Hflat|_];
          [exfalso; exact (Hprev p eq_refl Hflat)|].
        simpl in H. injection H as <-.
        exists [], rest, d. split; [reflexivity|]. split; [exact Hx|].
        split; [constructor | exact Hne].
    + destruct (IH (Some d) s Hnext H) as (pre & post & d' & -> & Hs & Hall & Hdiff).
      exists (x :: pre), post, d'. split; [reflexivity|]. split; [exact Hs|].
      exists d. rewrite signals_cons, Hx.
      split; [discriminate|]. split; [constructor|]; auto.
  - destruct (IH prev s Hprev H) as (pre & post & d' & -> & Hs & Hrest).
    exists (x :: pre), post, d'. split; [reflexivity|]. split; [exact Hs|].
    rewrite signals_cons, Hx. exact Hrest.
Qed.

Lemma scan_none stages :
  forall prev,
    Spec.tracked prev ->
    find_breakpoint_from prev stages = None ->
    match prev with
    | Some p => Forall (eq p) (Spec.signals stages)
    | None => exists d0, Forall (eq d0) (Spec.signals stages)
    end.
Proof.
  induction stages as [|x rest IH]; intros prev Hprev H.
  - destruct prev; [constructor | exists "up"; constructor].
  - rewrite step_signal in H. rewrite signals_cons.
    destruct (Spec.signal x) as [d|] eqn:Hx.
    + pose proof (signal_not_flat x d Hx) as Hd.
      assert (Hnext : Spec.tracked (Some d)) by (intros p [= <-]; exact Hd).
      destruct prev as [p|].
      * destruct (String.eqb_spec d p) as [->|Hne]; simpl in H.
        -- constructor; [reflexivity | exact (IH (Some p) Hnext H)].
        -- destruct (String.eqb_spec p "flat") as [Hflat|_];
             [exfalso; exact (Hprev p eq_refl Hflat)|].
           discriminate.
      * exists d. constructor; [reflexivity | exact (IH (Some d) Hnext H)].
    + exact (IH prev Hprev H).
Qed.

(** Stages without a direction are transparent to the scan. *)
Lemma scan_transparent stages :
  forall prev,
    find_breakpoint_from prev stages
    = find_breakpoint_from prev (filter Spec.shows_direction stages).
Proof.
  induction stages as [|x rest IH]; intros prev; [reflexivity|].
  rewrite step_signal. cbn [filter]. unfold Spec.shows_direction at 1.
  destruct (Spec.signal x) as [d|] eqn:Hx.
  - rewrite step_signal, Hx, !IH. reflexivity.
  - apply IH.
Qed.

End FunnelFacts.

(** C3.  [find_breakpoint] reads an uplift as up above 0.005, down below
    -0.005 and flat otherwise.  On every list of stages it returns the
    first stage whose direction is up or down and differs from the
    direction of the stages before it that show one (all of which agree,
    and of which there is at least one); it returns nothing when all
    stages that show a direction agree.  Stages with an absent or a flat
    uplift do not change the answer.  On the uplifts +0.10, +0.05, -0.03,
    -0.08 it returns the third stage, and on +0.10, +0.001, -0.08 the
    third stage as well. *)
Theorem find_breakpoint_first_flip :
  forall stages : list Funnel.Stage,
    (forall u,
        (Funnel.direction u = "up" <-> 5 # 1000 < u)
        /\ (Funnel.direction u = "down" <-> u < - (5 # 1000))
        /\ (Funnel.direction u = "flat"
            <-> - (5 # 1000) <= u /\ u <= 5 # 1000))
    /\ match Funnel.find_breakpoint stages with
       | Some s =>
           exists pre post d0 d,
             stages = (pre ++ s :: post)%list
             /\ Spec.signals pre <> []
             /\ Forall (eq d0) (Spec.signals pre)
             /\ Spec.signal s = Some d
             /\ d <> d0
       | None => exists d0, Forall (eq d0) (Spec.signals stages)
       end
    /\ Funnel.find_breakpoint stages
       = Funnel.find_breakpoint (filter Spec.shows_direction stages)
    /\ Funnel.find_breakpoint
         [ Spec.stage "Add to Cart" (10 # 100);
           Spec.stage "Begin Checkout" (5 # 100);
           Spec.stage "Enter Contact Info" (- (3 # 100));
           Spec.stage "Submit Address" (- (8 # 100)) ]
       = Some (Spec.stage "Enter Contact Info" (- (3 # 100)))
    /\ Funnel.find_breakpoint
         [ Spec.stage "Add to Cart" (10 # 100);
           Spec.stage "Begin Checkout" (1 # 1000);
           Spec.stage "Enter Contact Info" (- (8 # 100)) ]
       = Some (Spec.stage "Enter Contact Info" (- (8 # 100))).
Proof.
  intros stages.
  split; [apply FunnelFacts.direction_cases|].
  split.
  { unfold Funnel.find_breakpoint.
    destruct (Funnel.find_breakpoint_from None stages) as [s|] eqn:H.
    - destruct (FunnelFacts.scan_some stages None s) as
        (pre & post & d & Hst & Hs & d0 & Hne & Hall & Hdiff);
        [intros p Hp; discriminate | exact H |].
      exists pre, post, d0, d. auto.
    - apply (FunnelFacts.scan_none stages None);
        [intros p Hp; discriminate | exact H]. }
  split; [apply FunnelFacts.scan_transparent|].
  split; reflexivity.
Qed.

(** ** The rollout recommendation *)

Module RecommendationFacts.

Import Spotlight.

Lemma count_pairs v segments :
  Spec.count v (map snd (Spec.pairs segments))
  = Z.of_nat
      (List.length
         (filter (fun s => String.eqb (verdict s) (Spec.label v)) segments)).
Proof.
  unfold Spec.count, Spec.pairs. f_equal.
  induction segments as [|x rest IH]; [reflexivity|].
  simpl. destruct (String.eqb (verdict x) (Spec.label v)); simpl;
    rewrite IH; reflexivity.
Qed.

Lemma named_pairs v segments :
  map fst
    (filter (fun s => String.eqb (snd s) (Spec.label v)) (Spec.pairs segments))
  = map name
      (filter (fun s => String.eqb (verdict s) (Spec.label v)) segments).
Proof.
  unfold Spec.pairs.
  induction segments as [|x rest IH]; [reflexivity|].
  simpl. destruct (String.eqb (verdict x) (Spec.label v)); simpl;
    rewrite IH; reflexivity.
Qed.

Lemma names_spec segments :
  names segments = String.concat ", " (firstn 3 (map name segments)).
Proof. unfold names. rewrite firstn_map. reflexivity. Qed.

(** [n >= total * 0.5] on counts. *)
Lemma at_least_half n total :
  Float.ge (inject_Z n) (inject_Z total * (5 # 10)) = (total <=? 2 * n)%Z.
Proof.
  apply eq_true_iff_eq. rewrite FloatFacts.float_ge_iff, Z.leb_le.
  unfold Qle, Qmult, inject_Z. cbn [Qnum Qden]. lia.
Qed.

(** [n > total * 0.5] on counts. *)
Lemma more_than_half n total :
  Float.gt (inject_Z n) (inject_Z total * (5 # 10)) = (total <? 2 * n)%Z.
Proof.
  apply eq_true_iff_eq. rewrite FloatFacts.float_gt_iff, Z.ltb_lt.
  unfold Qlt, Qmult, inject_Z. cbn [Qnum Qden]. lia.
Qed.

Lemma one_loser (l : list Segment) :
  (Z.of_nat (List.length l) =? 1)%Z = (List.length (map name l) =? 1)%nat.
Proof.
  rewrite length_map. apply eq_true_iff_eq.
  rewrite Z.eqb_eq, Nat.eqb_eq. lia.
Qed.

End RecommendationFacts.

(** The rules of the claim give a broad roll-out on the empty list (no
    loser, and zero winners are at least half of zero segments), where
    spotlight.py holds for lack of segment data. *)
Lemma rollout_recommendation_empty_list :
  Spec.recommend (Spec.pairs []) = Spec.RollOutBroadly
  /\ Spotlight.rollout_recommendation []
     = ("HOLD", "No segment data available for analysis.")
  /\ Spotlight.rollout_recommendation []
     <> Spec.shown (Spec.recommend (Spec.pairs [])).
Proof. repeat split; try reflexivity. discriminate. Qed.

(** C6 (amended).  On a list of segment results that is not empty,
    [rollout_recommendation] follows the composition rules in their
    order: no LOSER and at least half WINNER segments give a broad
    roll-out; WINNER and LOSER segments both present give a
    segment-specific recommendation that names the first three winning
    and the first three losing segments; LOSER segments without a WINNER
    give do-not-roll-out; more than half LOW DATA segments give a hold for
    more data; anything else gives a mixed-signal hold.  On the empty
    list it holds for lack of segment data. *)
Theorem rollout_recommendation_rules :
  forall segments : list Spotlight.Segment,
    Spotlight.rollout_recommendation segments
    = match segments with
      | [] => ("HOLD", "No segment data available for analysis.")
      | _ :: _ => Spec.shown (Spec.recommend (Spec.pairs segments))
      end.
Proof.
  intros segments.
  destruct segments as [|s0 rest] eqn:Hsegs; [reflexivity|].
  assert (Hne : segments <> []) by (rewrite Hsegs; discriminate).
  rewrite <- Hsegs. clear Hsegs s0 rest.
  unfold Spotlight.rollout_recommendation, Spec.recommend.
  rewrite !RecommendationFacts.count_pairs, !RecommendationFacts.named_pairs.
  assert (Hlen : List.length (Spec.pairs segments) = List.length segments)
    by (unfold Spec.pairs; apply length_map).
  rewrite !Hlen.
  rewrite RecommendationFacts.at_least_half, RecommendationFacts.more_than_half.
  cbn [Spec.label].
  set (winners := filter (fun s => String.eqb (Spotlight.verdict s) "WINNER")
                    segments).
  set (losers := filter (fun s => String.eqb (Spotlight.verdict s) "LOSER")
                   segments).
  set (low_data := filter (fun s => String.eqb (Spotlight.verdict s) "LOW DATA")
                     segments).
  replace (Z.of_nat (List.length segments) =? 0)%Z with false
    by (symmetry; apply Z.eqb_neq; destruct segments;
        [contradiction | simpl; lia]).
  destruct ((Z.of_nat (List.length losers) =? 0)%Z
            && (Z.of_nat (List.length segments)
                <=? 2 * Z.of_nat (List.length winners))%Z);
    [reflexivity|].
  rewrite (andb_comm (0 <? Z.of_nat (List.length winners))%Z).
  destruct ((0 <? Z.of_nat (List.length losers))%Z
            && (0 <? Z.of_nat (List.length winners))%Z).
  { cbn [Spec.shown]. rewrite !RecommendationFacts.names_spec.
    rewrite RecommendationFacts.one_loser. reflexivity. }
  destruct ((0 <? Z.of_nat (List.length losers))%Z
            && (Z.of_nat (List.length winners) =? 0)%Z);
    [reflexivity|].
  destruct (Z.of_nat (List.length segments)
            <? 2 * Z.of_nat (List.length low_data))%Z; reflexivity.
Qed.

(** A winning and a losing device segment. *)
Example rollout_recommendation_segment_specific :
  Spotlight.rollout_recommendation
    [ Spotlight.mkSegment "Mobile" "Device" "WINNER" (Some (8 # 100))
        (Some (93 # 100)) 4000 12000 false;
      Spotlight.mkSegment "Desktop" "Device" "LOSER" (Some (- (5 # 100)))
        (Some (7 # 100)) 2500 (- (4000)) true ]
  = ("SEGMENT-SPECIFIC",
     "Consider rolling out to Mobile only. Desktop is underperforming — exclude or investigate.").
Proof. reflexivity. Qed.

(** ** The metric accessors *)

Module AccessorFacts.

Import Spec.

Ltac step_record m Hm :=
  destruct m as [| | |r]; try discriminate Hm; cbn [Py.get Py.bind].

Lemma value_total metrics metric_name variation_id :
  records metrics ->
  exists v, get_metric_value metrics metric_name variation_id = Ok v.
Proof.
  unfold records. induction 1 as [|m rest Hm _ IH]; [eexists; reflexivity|].
  step_record m Hm. cbn [get_metric_value Py.get Py.bind].
  destruct (Py.eq_str _ variation_id); [|exact IH].
  destruct (dict_get r metric_name (PDict [])); try exact IH.
  eexists; reflexivity.
Qed.

Lemma uplift_total metrics metric_name variation_id :
  records metrics ->
  exists v, get_metric_uplift metrics metric_name variation_id = Ok v.
Proof.
  unfold records. induction 1 as [|m rest Hm _ IH]; [eexists; reflexivity|].
  step_record m Hm. cbn [get_metric_uplift Py.get Py.bind].
  destruct (Py.eq_str _ variation_id); [|exact IH].
  destruct (dict_get r metric_name (PDict [])) as [| | |d]; try exact IH.
  destruct (dict_get d "uplift" (PDict [])); try exact IH.
  eexists; reflexivity.
Qed.

Lemma confidence_total metrics metric_name variation_id :
  records metrics ->
  exists v, get_metric_confidence metrics metric_name variation_id = Ok v.
Proof.
  unfold records. induction 1 as [|m rest Hm _ IH]; [eexists; reflexivity|].
  step_record m Hm. cbn [get_metric_confidence Py.get Py.bind].
  destruct (Py.eq_str _ variation_id); [|exact IH].
  destruct (dict_get r metric_name (PDict [])); try exact IH.
  eexists; reflexivity.
Qed.

Lemma ci_total metrics metric_name variation_id :
  records metrics ->
  exists lo hi, get_metric_ci metrics metric_name variation_id = Ok (lo, hi).
Proof.
  unfold records.
  induction 1 as [|m rest Hm _ IH]; [do 2 eexists; reflexivity|].
  step_record m Hm. cbn [get_metric_ci Py.get Py.bind].
  destruct (Py.eq_str _ variation_id); [|exact IH].
  destruct (dict_get r metric_name (PDict [])) as [| | |d]; try exact IH.
  destruct (dict_get d "uplift" (PDict [])); try exact IH.
  do 2 eexists; reflexivity.
Qed.

(** Records of another variation are passed over. *)
Lemma skip_others pre rest metric_name variation_id :
  records pre ->
  Forall (fun m => Spec.has_id variation_id m = false) pre ->
  get_metric_value (pre ++ rest) metric_name variation_id
  = get_metric_value rest metric_name variation_id
  /\ get_metric_uplift (pre ++ rest) metric_name variation_id
     = get_metric_uplift rest metric_name variation_id
  /\ get_metric_confidence (pre ++ rest) metric_name variation_id
     = get_metric_confidence rest metric_name variation_id
  /\ get_metric_ci (pre ++ rest) metric_name variation_id
     = get_metric_ci rest metric_name variation_id.
Proof.
  unfold records.
  induction 1 as [|m pre Hm _ IH]; intros Hids; [repeat split|].
  inversion Hids as [|? ? Hid Hrest]; subst.
  destruct m as [| | |r]; try discriminate Hm.
  cbn [Spec.has_id] in Hid.
  rewrite <- app_comm_cons.
  cbn [get_metric_value get_metric_uplift get_metric_confidence get_metric_ci
       Py.get Py.bind].
  rewrite Hid. exact (IH Hrest).
Qed.

(** The first record of the variation decides, when its metric is a
    record or is missing. *)
Lemma at_record r rest metric_name variation_id d :
  Spec.has_id variation_id (PDict r) = true ->
  dict_get r metric_name (PDict []) = PDict d ->
  get_metric_value (PDict r :: rest) metric_name variation_id
  = Ok (dict_get d "value" PNone)
  /\ get_metric_confidence (PDict r :: rest) metric_name variation_id
     = Ok (dict_get d "p2bb" PNone)
  /\ (forall u, dict_get d "uplift" (PDict []) = PDict u ->
        get_metric_uplift (PDict r :: rest) metric_name variation_id
        = Ok (dict_get u "value" PNone)
        /\ get_metric_ci (PDict r :: rest) metric_name variation_id
           = Ok (dict_get u "ci_low" PNone, dict_get u "ci_high" PNone)).
Proof.
  intros Hid Hd. cbn [Spec.has_id] in Hid.
  cbn [get_metric_value get_metric_uplift get_metric_confidence get_metric_ci
       Py.get Py.bind].
  rewrite Hid, Hd. repeat split; rewrite H; reflexivity.
Qed.

(** A metric, or an uplift, that is not a record sends the search on to
    the records that follow. *)
Lemma past_record r rest metric_name variation_id :
  Spec.has_id variation_id (PDict r) = true ->
  (forall x, dict_get r metric_name (PDict []) = x -> Py.is_dict x = false ->
     get_metric_value (PDict r :: rest) metric_name variation_id
     = get_metric_value rest metric_name variation_id
     /\ get_metric_uplift (PDict r :: rest) metric_name variation_id
        = get_metric_uplift rest metric_name variation_id
     /\ get_metric_confidence (PDict r :: rest) metric_name variation_id
        = get_metric_confidence rest metric_name variation_id
     /\ get_metric_ci (PDict r :: rest) metric_name variation_id
        = get_metric_ci rest metric_name variation_id)
  /\ (forall d x,
        dict_get r metric_name (PDict []) = PDict d ->
        dict_get d "uplift" (PDict []) = x -> Py.is_dict x = false ->
        get_metric_uplift (PDict r :: rest) metric_name variation_id
        = get_metric_uplift rest metric_name variation_id
        /\ get_metric_ci (PDict r :: rest) metric_name variation_id
           = get_metric_ci rest metric_name variation_id).
Proof.
  intros Hid. cbn [Spec.has_id] in Hid.
  cbn [get_metric_value get_metric_uplift get_metric_confidence get_metric_ci
       Py.get Py.bind].
  rewrite Hid. split.
  - intros x Hmetric Hx. rewrite Hmetric.
    destruct x; try discriminate Hx; repeat split.
  - intros d x Hmetric Huplift Hx. rewrite Hmetric, Huplift.
    destruct x; try discriminate Hx; repeat split.
Qed.

Lemma dict_get_missing d key default :
  Py.lookup d key = None -> dict_get d key default = default.
Proof. unfold dict_get. intros ->. reflexivity. Qed.

Lemma dict_get_found d key default v :
  Py.lookup d key = Some v -> dict_get d key default = v.
Proof. unfold dict_get. intros ->. reflexivity. Qed.

End AccessorFacts.

(** C9.  On a feed of records the accessors of ig_metrics.py never raise:
    each returns a value.  They return [None] (the pair of [None]s for the
    bounds) when no record carries the variation id; and, at the first
    record that carries it, when the metric is missing, when the field
    asked for ([value], [p2bb]) is missing from the metric, when the
    metric has no [uplift], and when the field asked for ([value],
    [ci_low], [ci_high]) is missing from the uplift.  What the record
    holds is returned as it is.  When no later record carries the id, a
    metric or an uplift that is no record (a JSON null) gives [None] as
    well. *)
Theorem accessors_never_raise :
  forall (metrics : list pyval) (metric_name variation_id : string),
    Spec.records metrics ->
    (exists v u c lo hi,
        get_metric_value metrics metric_name variation_id = Ok v
        /\ get_metric_uplift metrics metric_name variation_id = Ok u
        /\ get_metric_confidence metrics metric_name variation_id = Ok c
        /\ get_metric_ci metrics metric_name variation_id = Ok (lo, hi))
    /\ (Forall (fun m => Spec.has_id variation_id m = false) metrics ->
        get_metric_value metrics metric_name variation_id = Ok PNone
        /\ get_metric_uplift metrics metric_name variation_id = Ok PNone
        /\ get_metric_confidence metrics metric_name variation_id = Ok PNone
        /\ get_metric_ci metrics metric_name variation_id = Ok (PNone, PNone))
    /\ (forall pre r post,
          metrics = (pre ++ PDict r :: post)%list ->
          Forall (fun m => Spec.has_id variation_id m = false) pre ->
          Spec.has_id variation_id (PDict r) = true ->
          (Py.lookup r metric_name = None ->
           get_metric_value metrics metric_name variation_id = Ok PNone
           /\ get_metric_uplift metrics metric_name variation_id = Ok PNone
           /\ get_metric_confidence metrics metric_name variation_id = Ok PNone
           /\ get_metric_ci metrics metric_name variation_id
              = Ok (PNone, PNone))
          /\ (forall d,
                Py.lookup r metric_name = Some (PDict d) ->
                get_metric_value metrics metric_name variation_id
                = Ok (dict_get d "value" PNone)
                /\ get_metric_confidence metrics metric_name variation_id
                   = Ok (dict_get d "p2bb" PNone)
                /\ (Py.lookup d "value" = None ->
                    get_metric_value metrics metric_name variation_id
                    = Ok PNone)
                /\ (Py.lookup d "p2bb" = None ->
                    get_metric_confidence metrics metric_name variation_id
                    = Ok PNone)
                /\ (Py.lookup d "uplift" = None ->
                    get_metric_uplift metrics metric_name variation_id
                    = Ok PNone
                    /\ get_metric_ci metrics metric_name variation_id
                       = Ok (PNone, PNone))
                /\ (forall u,
                      Py.lookup d "uplift" = Some (PDict u) ->
                      get_metric_uplift metrics metric_name variation_id
                      = Ok (dict_get u "value" PNone)
                      /\ get_metric_ci metrics metric_name variation_id
                         = Ok (dict_get u "ci_low" PNone,
                               dict_get u "ci_high" PNone)
                      /\ (Py.lookup u "value" = None ->
                          get_metric_uplift metrics metric_name variation_id
                          = Ok PNone)
                      /\ (Py.lookup u "ci_low" = None ->
                          Py.lookup u "ci_high" = None ->
                          get_metric_ci metrics metric_name variation_id
                          = Ok (PNone, PNone))))
          /\ (Forall (fun m => Spec.has_id variation_id m = false) post ->
              (forall x,
                 Py.lookup r metric_name = Some x -> Py.is_dict x = false ->
                 get_metric_value metrics metric_name variation_id = Ok PNone
                 /\ get_metric_uplift metrics metric_name variation_id
                    = Ok PNone
                 /\ get_metric_confidence metrics metric_name variation_id
                    = Ok PNone
                 /\ get_metric_ci metrics metric_name variation_id
                    = Ok (PNone, PNone))
              /\ (forall d x,
                    Py.lookup r metric_name = Some (PDict d) ->
                    Py.lookup d "uplift" = Some x -> Py.is_dict x = false ->
                    get_metric_uplift metrics metric_name variation_id
                    = Ok PNone
                    /\ get_metric_ci metrics metric_name variation_id
                       = Ok (PNone, PNone)))).
Proof.
  intros metrics metric_name variation_id Hrec.
  split.
  { destruct (AccessorFacts.value_total metrics metric_name variation_id Hrec)
      as [v Hv].
    destruct (AccessorFacts.uplift_total metrics metric_name variation_id Hrec)
      as [u Hu].
    destruct (AccessorFacts.confidence_total metrics metric_name variation_id
                Hrec) as [c Hc].
    destruct (AccessorFacts.ci_total metrics metric_name variation_id Hrec)
      as (lo & hi & Hci).
    exists v, u, c, lo, hi. auto. }
  split.
  { intros Hids.
    destruct (AccessorFacts.skip_others metrics [] metric_name variation_id
                Hrec Hids) as (Hv & Hu & Hc & Hci).
    rewrite app_nil_r in Hv, Hu, Hc, Hci. auto. }
  intros pre r post -> Hids Hid.
  assert (Hpre : Spec.records pre).
  { unfold Spec.records in *. apply Forall_app in Hrec. tauto. }
  assert (Hpost : Spec.records post).
  { unfold Spec.records in *. apply Forall_app in Hrec.
    destruct Hrec as [_ Hrec]. inversion Hrec; assumption. }
  destruct (AccessorFacts.skip_others pre (PDict r :: post) metric_name
              variation_id Hpre Hids) as (Hv & Hu & Hc & Hci).
  rewrite Hv, Hu, Hc, Hci. clear Hv Hu Hc Hci.
  split.
  { intros Hmiss.
    destruct (AccessorFacts.at_record r post metric_name variation_id []
                Hid (AccessorFacts.dict_get_missing _ _ _ Hmiss))
      as (Hv & Hc & Hup).
    destruct (Hup [] eq_refl) as [Hu Hci]. auto. }
  split; cycle 1.
  { intros Hothers.
    destruct (AccessorFacts.skip_others post [] metric_name variation_id
                Hpost Hothers) as (Hv & Hu & Hc & Hci).
    rewrite app_nil_r in Hv, Hu, Hc, Hci. cbn in Hv, Hu, Hc, Hci.
    destruct (AccessorFacts.past_record r post metric_name variation_id Hid)
      as [Hmetric Huplift].
    split.
    - intros x Hx Hnot.
      destruct (Hmetric x (AccessorFacts.dict_get_found _ _ _ _ Hx) Hnot)
        as (-> & -> & -> & ->).
      auto.
    - intros d x Hd Hx Hnot.
      destruct (Huplift d x (AccessorFacts.dict_get_found _ _ _ _ Hd)
                  (AccessorFacts.dict_get_found _ _ _ _ Hx) Hnot)
        as (-> & ->).
      auto. }
  intros d Hd.
  destruct (AccessorFacts.at_record r post metric_name variation_id d
              Hid (AccessorFacts.dict_get_found _ _ _ _ Hd))
    as (Hv & Hc & Hup).
  split; [exact Hv|]. split; [exact Hc|].
  split.
  { intros H. rewrite Hv, (AccessorFacts.dict_get_missing _ _ _ H).
    reflexivity. }
  split.
  { intros H. rewrite Hc, (AccessorFacts.dict_get_missing _ _ _ H).
    reflexivity. }
  split.
  { intros H.
    destruct (Hup [] (AccessorFacts.dict_get_missing _ _ _ H)) as [Hu Hci].
    auto. }
  intros u Hu.
  destruct (Hup u (AccessorFacts.dict_get_found _ _ _ _ Hu)) as [Hval Hci].
  split; [exact Hval|]. split; [exact Hci|].
  split.
  { intros H. rewrite Hval, (AccessorFacts.dict_get_missing _ _ _ H).
    reflexivity. }
  intros Hlo Hhi.
  rewrite Hci, (AccessorFacts.dict_get_missing _ _ _ Hlo),
    (AccessorFacts.dict_get_missing _ _ _ Hhi).
  reflexivity.
Qed.

Lemma accessors_never_raise_witness :
  let control :=
    [ ("variation_id", PStr "control");
      ("net_revenue_per_visitor", PDict [ ("value", PNum 2) ]) ] in
  let v1 :=
    [ ("variation_id", PStr "v1");
      ("net_revenue_per_visitor",
       PDict [ ("value", PNum (22 # 10));
               ("uplift", PDict [ ("value", PNum (1 # 10)) ]) ]) ] in
  let feed := [ PDict control; PDict v1 ] in
  Spec.records feed
  /\ get_metric_confidence feed "net_revenue_per_visitor" "v1" = Ok PNone
  /\ get_metric_uplift feed "net_revenue_per_visitor" "v1"
     = Ok (PNum (1 # 10))
  /\ get_metric_ci feed "net_revenue_per_visitor" "v1" = Ok (PNone, PNone)
  /\ get_metric_value feed "conversion_rate" "v1" = Ok PNone.
Proof.
  intros control v1 feed.
  assert (Hrec : Spec.records feed) by (repeat constructor).
  split; [exact Hrec|].
  destruct (accessors_never_raise feed "net_revenue_per_visitor" "v1" Hrec)
    as (_ & _ & Hat).
  destruct (Hat [PDict control] v1 [] eq_refl
              ltac:(repeat constructor) eq_refl) as (_ & Hmetric & _).
  destruct (Hmetric _ eq_refl) as (_ & _ & _ & Hp2bb & _ & Huplift).
  destruct (Huplift _ eq_refl) as (Hu & _ & _ & Hci).
  destruct (accessors_never_raise feed "conversion_rate" "v1" Hrec)
    as (_ & _ & Hcr).
  destruct (Hcr [PDict control] v1 [] eq_refl
              ltac:(repeat constructor) eq_refl) as [Hmissing _].
  destruct (Hmissing eq_refl) as (Hvalue & _).
  split; [exact (Hp2bb eq_refl)|].
  split; [exact Hu|].
  split; [exact (Hci eq_refl eq_refl) | exact Hvalue].
Defined.

(** ** The variant selector *)

Module SelectorFacts.

Import Funnel.

Section Loop.

Variable metrics : list pyval.
Variable metric_name : string.
Variable uplift_of : Helpers.Variation -> option Q.

(** The two locals of the loop after the variants [seen]. *)
Let invariant (seen : list Helpers.Variation)
    (best : option Helpers.Variation) (best_uplift : pyval) : Prop :=
  Spec.chosen uplift_of seen best
  /\ best_uplift
     = Py.of_float (match best with Some b => uplift_of b | None => None end).

Lemma loop_keeps_invariant rest :
  forall seen best best_uplift,
    (forall v, In v rest ->
       get_metric_uplift metrics metric_name (Helpers.id v)
       = Ok (Py.of_float (uplift_of v))) ->
    invariant seen best best_uplift ->
    exists r,
      pick_best_variant_from best best_uplift rest metrics metric_name = Ok r
      /\ Spec.chosen uplift_of (seen ++ rest) r.
Proof.
  induction rest as [|v rest IH]; intros seen best best_uplift Hread Hinv.
  { exists best. rewrite app_nil_r. split; [reflexivity | apply Hinv]. }
  cbn [pick_best_variant_from].
  rewrite (Hread v (or_introl eq_refl)). cbn [Py.bind].
  assert (Hrest : forall w, In w rest ->
            get_metric_uplift metrics metric_name (Helpers.id w)
            = Ok (Py.of_float (uplift_of w)))
    by (intros w Hw; apply Hread; right; exact Hw).
  replace (seen ++ v :: rest)%list with ((seen ++ [v]) ++ rest)%list
    by (rewrite <- app_assoc; reflexivity).
  destruct Hinv as [Hchosen Hbest].
  destruct (uplift_of v) as [x|] eqn:Hv; cbn [Py.of_float Py.is_none Py.bind].
  - destruct best as [b|]; cbn [Spec.chosen] in Hchosen.
    + destruct Hchosen as (pre & post & q & -> & Hb & Hpre & Hpost).
      rewrite Hb in Hbest. subst best_uplift.
      cbn [Py.of_float Py.is_none Py.gt Py.bind].
      destruct (Float.gt x q) eqn:Hgt; float_hyps.
      * apply IH; [exact Hrest|]. split; [|rewrite Hv; reflexivity].
        exists (pre ++ b :: post)%list, [], x.
        split; [reflexivity|]. split; [exact Hv|]. split; [|constructor].
        apply Forall_app. split; [|constructor].
        -- eapply Forall_impl; [|exact Hpre]. intros a Ha y Hy.
           specialize (Ha y Hy). lra.
        -- intros y Hy. rewrite Hb in Hy. injection Hy as <-. exact Hgt.
        -- eapply Forall_impl; [|exact Hpost]. intros a Ha y Hy.
           specialize (Ha y Hy). lra.
      * apply IH; [exact Hrest|]. split; [|rewrite Hb; reflexivity].
        exists pre, (post ++ [v])%list, q.
        split; [rewrite <- app_assoc; reflexivity|].
        split; [exact Hb|]. split; [exact Hpre|].
        apply Forall_app. split; [exact Hpost|]. constructor; [|constructor].
        intros y Hy. rewrite Hv in Hy. injection Hy as <-. exact Hgt.
    + subst best_uplift. cbn [Py.of_float Py.is_none Py.bind].
      apply IH; [exact Hrest|]. split; [|rewrite Hv; reflexivity].
      exists seen, [], x. split; [reflexivity|]. split; [exact Hv|].
      split; [|constructor].
      eapply Forall_impl; [|exact Hchosen]. intros a Ha y Hy. congruence.
  - apply IH; [exact Hrest|]. split; [|exact Hbest].
    destruct best as [b|]; cbn [Spec.chosen] in *.
    + destruct Hchosen as (pre & post & q & -> & Hb & Hpre & Hpost).
      exists pre, (post ++ [v])%list, q.
      split; [rewrite <- app_assoc; reflexivity|].
      split; [exact Hb|]. split; [exact Hpre|].
      apply Forall_app. split; [exact Hpost|]. constructor; [|constructor].
      intros y Hy. congruence.
    + apply Forall_app. split; [exact Hchosen|]. constructor; [exact Hv|].
      constructor.
Qed.

End Loop.

End SelectorFacts.

(** C7.  When the feed gives every variant an uplift that is a float or
    absent, [pick_best_variant] returns, without raising: nothing exactly
    when no variant has an uplift; otherwise a variant of the list with an
    uplift, greater than the uplift of every variant before it in the list
    and not less than the uplift of any variant after it, so that of
    several variants with the greatest uplift the first is kept.  When it
    returns nothing, [main] falls back to the first variant of the list. *)
Theorem pick_best_variant_greatest :
  forall (variants : list Helpers.Variation) (metrics : list pyval)
         (metric_name : string) (uplift_of : Helpers.Variation -> option Q),
    (forall v, In v variants ->
       get_metric_uplift metrics metric_name (Helpers.id v)
       = Ok (Py.of_float (uplift_of v))) ->
    exists best,
      Funnel.pick_best_variant variants metrics metric_name = Ok best
      /\ (best = None <-> Forall (fun v => uplift_of v = None) variants)
      /\ (forall b,
            best = Some b ->
            exists pre post q,
              variants = (pre ++ b :: post)%list
              /\ uplift_of b = Some q
              /\ Forall (fun v => forall x, uplift_of v = Some x -> x < q) pre
              /\ Forall (fun v => forall x, uplift_of v = Some x -> x <= q)
                   post)
      /\ (forall first rest,
            variants = first :: rest ->
            Funnel.main_best variants metrics metric_name
            = Ok (match best with Some b => b | None => first end)).
Proof.
  intros variants metrics metric_name uplift_of Hread.
  destruct (SelectorFacts.loop_keeps_invariant metrics metric_name uplift_of
              variants [] None PNone Hread)
    as (best & Hrun & Hchosen).
  { split; [constructor | reflexivity]. }
  cbn [app] in Hchosen.
  exists best. split; [exact Hrun|].
  split.
  { split.
    - intros ->. exact Hchosen.
    - intros Hnone. destruct best as [b|]; [|reflexivity].
      destruct Hchosen as (pre & post & q & -> & Hb & _).
      apply Forall_app in Hnone. destruct Hnone as [_ Hnone].
      inversion Hnone; congruence. }
  split.
  { intros b ->. exact Hchosen. }
  intros first rest ->.
  unfold Funnel.main_best, Funnel.pick_best_variant.
  rewrite Hrun. cbn [Py.bind].
  destruct best; reflexivity.
Qed.

Lemma pick_best_variant_greatest_witness :
  let a := Helpers.mkVariation "a" "Variant A" false in
  let b := Helpers.mkVariation "b" "Variant B" false in
  let c := Helpers.mkVariation "c" "Variant C" false in
  let d := Helpers.mkVariation "d" "Variant D" false in
  let reading (id : string) (u : pyval) :=
    PDict [ ("variation_id", PStr id);
            ("conversion_rate", PDict [ ("uplift", PDict [ ("value", u) ]) ]) ] in
  let metrics :=
    [ reading "a" (PNum (3 # 100)); reading "b" (PNum (7 # 100));
      reading "c" PNone; reading "d" (PNum (7 # 100)) ] in
  let uplift_of (v : Helpers.Variation) :=
    if String.eqb (Helpers.id v) "a" then Some (3 # 100)
    else if String.eqb (Helpers.id v) "c" then None
    else Some (7 # 100) in
  (forall v, In v [a; b; c; d] ->
     get_metric_uplift metrics "conversion_rate" (Helpers.id v)
     = Ok (Py.of_float (uplift_of v)))
  /\ Funnel.main_best [a; b; c; d] metrics "conversion_rate" = Ok b.
Proof.
  intros a b c d reading metrics uplift_of.
  assert (Hread : forall v, In v [a; b; c; d] ->
            get_metric_uplift metrics "conversion_rate" (Helpers.id v)
            = Ok (Py.of_float (uplift_of v))).
  { intros v [<-|[<-|[<-|[<-|[]]]]]; reflexivity. }
  split; [exact Hread|].
  destruct (pick_best_variant_greatest [a; b; c; d] metrics "conversion_rate"
              uplift_of Hread) as (best & Hrun & _ & _ & Hmain).
  rewrite (Hmain a [b; c; d] eq_refl).
  injection Hrun as <-. reflexivity.
Defined.

(** With no uplift in the feed the selector returns nothing and [main]
    takes the first variant of the list. *)
Example pick_best_variant_fallback :
  let a := Helpers.mkVariation "a" "Variant A" false in
  let b := Helpers.mkVariation "b" "Variant B" false in
  let metrics := [ PDict [ ("variation_id", PStr "a") ];
                   PDict [ ("variation_id", PStr "b") ] ] in
  Funnel.pick_best_variant [a; b] metrics "conversion_rate" = Ok None
  /\ Funnel.main_best [a; b] metrics "conversion_rate" = Ok a
  /\ Funnel.main_best [b; a] metrics "conversion_rate" = Ok b.
Proof. repeat split; reflexivity. Qed.

(** ** The maturity gate of the test-verdict tool *)

Module TestVerdictFacts.

Import TestVerdict.

Lemma is_too_early_iff days total_orders total_visitors :
  is_too_early days total_orders total_visitors = true
  <-> (days < 10)%Z \/ (total_orders < 30)%Z \/ (total_visitors < 100)%Z.
Proof.
  unfold is_too_early, maturity_issues.
  change VERDICT_MIN_RUNTIME with 10%Z.
  change VERDICT_MIN_ORDERS with 30%Z.
  change MIN_VISITORS with 100%Z.
  destruct (days <? 10)%Z eqn:Hd, (total_orders <? 30)%Z eqn:Ho,
           (total_visitors <? 100)%Z eqn:Hv; float_hyps; cbn;
    (split; [intros H; try discriminate H; lia | intros H; try reflexivity; lia]).
Qed.

Lemma few_visitors_listed days total_orders total_visitors :
  (total_visitors < 100)%Z ->
  In FewVisitors (maturity_issues days total_orders total_visitors).
Proof.
  intros H. unfold maturity_issues. change MIN_VISITORS with 100%Z.
  apply Z.ltb_lt in H. rewrite H.
  apply in_or_app. right. apply in_or_app. right. left. reflexivity.
Qed.

Lemma insert_Forall (P : VariationResult -> Prop) r sorted :
  P r -> Forall P sorted -> Forall P (insert r sorted).
Proof.
  intros Hr. induction 1 as [|x rest Hx Hrest IH]; cbn [insert].
  - constructor; [exact Hr | constructor].
  - destruct (key_lt (sort_key x) (sort_key r)).
    + constructor; assumption.
    + constructor; [exact Hr|]. constructor; assumption.
Qed.

Lemma sort_Forall (P : VariationResult -> Prop) results :
  Forall P results -> Forall P (sort results).
Proof.
  induction 1 as [|r rest Hr Hrest IH]; cbn [sort]; [constructor|].
  apply insert_Forall; assumption.
Qed.

Lemma insert_length r sorted :
  List.length (insert r sorted) = S (List.length sorted).
Proof.
  induction sorted as [|x rest IH]; cbn [insert]; [reflexivity|].
  destruct (key_lt (sort_key x) (sort_key r)); cbn [List.length];
    [rewrite IH|]; reflexivity.
Qed.

Lemma sort_length results :
  List.length (sort results) = List.length results.
Proof.
  induction results as [|r rest IH]; cbn [sort]; [reflexivity|].
  rewrite insert_length, IH. reflexivity.
Qed.

End TestVerdictFacts.

(** C10.  In verdict.py a total of fewer than 100 visitors is a maturity
    issue of its own: whatever the runtime, the orders, the confidence and
    the uplift, the test is too early, every variation gets the verdict
    TOO EARLY, and so does the best variation, whose verdict is the
    verdict of the test. *)
Theorem too_few_visitors_is_too_early :
  forall (get_p2bb get_uplift : string -> option Q)
         (days total_orders total_visitors : Z)
         (variants : list Helpers.Variation),
    (total_visitors < MIN_VISITORS)%Z ->
    In TestVerdict.FewVisitors
      (TestVerdict.maturity_issues days total_orders total_visitors)
    /\ TestVerdict.is_too_early days total_orders total_visitors = true
    /\ Forall (fun r => TestVerdict.verdict r = "TOO EARLY")
         (TestVerdict.variation_results get_p2bb get_uplift days total_orders
            total_visitors variants)
    /\ (variants <> [] ->
        exists b,
          TestVerdict.best get_p2bb get_uplift days total_orders
            total_visitors variants = Some b
          /\ TestVerdict.verdict b = "TOO EARLY").
Proof.
  intros get_p2bb get_uplift days total_orders total_visitors variants Hfew.
  change MIN_VISITORS with 100%Z in Hfew.
  assert (Hearly : TestVerdict.is_too_early days total_orders total_visitors
                   = true)
    by (apply TestVerdictFacts.is_too_early_iff; auto).
  assert (Hall : Forall (fun r => TestVerdict.verdict r = "TOO EARLY")
            (TestVerdict.variation_results get_p2bb get_uplift days
               total_orders total_visitors variants)).
  { unfold TestVerdict.variation_results.
    apply TestVerdictFacts.sort_Forall. apply Forall_map.
    apply Forall_forall. intros v _.
    unfold TestVerdict.analyze_variation. rewrite Hearly. reflexivity. }
  split; [apply TestVerdictFacts.few_visitors_listed; exact Hfew|].
  split; [exact Hearly|]. split; [exact Hall|].
  intros Hne. unfold TestVerdict.best.
  destruct (TestVerdict.variation_results get_p2bb get_uplift days
              total_orders total_visitors variants) as [|b rest] eqn:Hres.
  - exfalso. apply (f_equal (@List.length _)) in Hres.
    unfold TestVerdict.variation_results in Hres.
    rewrite TestVerdictFacts.sort_length, length_map in Hres.
    destruct variants; [contradiction | discriminate].
  - exists b. split; [reflexivity|]. inversion Hall; assumption.
Qed.

Lemma too_few_visitors_is_too_early_witness :
  let get_p2bb (_ : string) := Some (99 # 100) in
  let get_uplift (_ : string) := Some (5 # 10) in
  let variants := [ Helpers.mkVariation "v1" "Higher price" false ] in
  (90 < MIN_VISITORS)%Z
  /\ TestVerdict.variation_verdict (get_p2bb "v1") (get_uplift "v1") 30
     = "WINNER"
  /\ TestVerdict.is_too_early 30 500 100 = false
  /\ exists b,
       TestVerdict.best get_p2bb get_uplift 30 500 90 variants = Some b
       /\ TestVerdict.verdict b = "TOO EARLY".
Proof.
  intros get_p2bb get_uplift variants.
  assert (Hfew : (90 < MIN_VISITORS)%Z) by reflexivity.
  split; [exact Hfew|]. split; [reflexivity|]. split; [reflexivity|].
  destruct (too_few_visitors_is_too_early get_p2bb get_uplift 30 500 90
              variants Hfew) as (_ & _ & _ & Hbest).
  apply Hbest. discriminate.
Defined.

(** * Part III: further facts on the tools *)

(** ** The overall classifier across the tools *)

Module VerdictFacts.

Import Spec.

Lemma portfolio_compute_verdict_refines p2bb uplift days total_orders :
  Portfolio.compute_verdict p2bb uplift days total_orders
  = label (default p2bb uplift days total_orders).
Proof.
  exact (ClassifierFacts.rollout_compute_verdict_refines p2bb uplift days
           total_orders).
Qed.

(** [compute_verdict] is the gate on runtime and orders before
    [variation_verdict]. *)
Lemma compute_verdict_gate p2bb uplift days total_orders :
  Rollout.compute_verdict p2bb uplift days total_orders
  = if (days <? 10)%Z || (total_orders <? 30)%Z then "TOO EARLY"
    else TestVerdict.variation_verdict p2bb uplift days.
Proof.
  unfold Rollout.compute_verdict, TestVerdict.variation_verdict.
  change VERDICT_MIN_RUNTIME with 10%Z. change VERDICT_MIN_ORDERS with 30%Z.
  destruct ((days <? 10)%Z || (total_orders <? 30)%Z); [reflexivity|].
  destruct p2bb, uplift; reflexivity.
Qed.

Lemma label_injective v w : label v = label w -> v = w.
Proof. destruct v, w; simpl; intros H; try reflexivity; discriminate. Qed.

End VerdictFacts.

(** X1.  With at least 100 visitors in total, the test-verdict tool gives
    each variation the verdict that [compute_verdict] of the rollout, the
    debrief and the portfolio tool gives on the same confidence, uplift,
    runtime and orders. *)
Theorem test_verdict_agrees_with_compute_verdict :
  forall (get_p2bb get_uplift : string -> option Q)
         (days total_orders total_visitors : Z) (variant : Helpers.Variation),
    (MIN_VISITORS <= total_visitors)%Z ->
    let r := TestVerdict.analyze_variation get_p2bb get_uplift days
               total_orders total_visitors variant in
    TestVerdict.verdict r
    = Rollout.compute_verdict (TestVerdict.p2bb r) (TestVerdict.uplift r)
        days total_orders
    /\ TestVerdict.verdict r
       = Debrief.compute_verdict (TestVerdict.p2bb r) (TestVerdict.uplift r)
           days total_orders
    /\ TestVerdict.verdict r
       = Portfolio.compute_verdict (TestVerdict.p2bb r) (TestVerdict.uplift r)
           days total_orders.
Proof.
  intros get_p2bb get_uplift days total_orders total_visitors variant Hvis r.
  assert (H : TestVerdict.verdict r
              = Rollout.compute_verdict (TestVerdict.p2bb r)
                  (TestVerdict.uplift r) days total_orders).
  { rewrite VerdictFacts.compute_verdict_gate. subst r.
    unfold TestVerdict.analyze_variation. cbn [TestVerdict.verdict
      TestVerdict.p2bb TestVerdict.uplift].
    destruct (TestVerdict.is_too_early days total_orders total_visitors)
      eqn:Hearly.
    - apply TestVerdictFacts.is_too_early_iff in Hearly.
      change MIN_VISITORS with 100%Z in Hvis.
      destruct Hearly as [Hd|[Ho|Hv]]; [| |lia].
      + apply Z.ltb_lt in Hd. rewrite Hd. reflexivity.
      + apply Z.ltb_lt in Ho. rewrite Ho, orb_true_r. reflexivity.
    - assert (Hno : ~ ((days < 10)%Z \/ (total_orders < 30)%Z
                       \/ (total_visitors < 100)%Z)).
      { rewrite <- TestVerdictFacts.is_too_early_iff, Hearly. discriminate. }
      replace (days <? 10)%Z with false by (symmetry; apply Z.ltb_ge; lia).
      replace (total_orders <? 30)%Z with false
        by (symmetry; apply Z.ltb_ge; lia).
      reflexivity. }
  split; [exact H|]. split; exact H.
Qed.

Lemma test_verdict_agrees_with_compute_verdict_witness :
  let get_p2bb (_ : string) := Some (90 # 100) in
  let get_uplift (_ : string) := Some (4 # 100) in
  let v1 := Helpers.mkVariation "v1" "Free shipping" false in
  (MIN_VISITORS <= 2500)%Z
  /\ TestVerdict.verdict
       (TestVerdict.analyze_variation get_p2bb get_uplift 14 80 2500 v1)
     = Rollout.compute_verdict (Some (90 # 100)) (Some (4 # 100)) 14 80.
Proof.
  intros get_p2bb get_uplift v1.
  assert (Hvis : (MIN_VISITORS <= 2500)%Z) by (unfold MIN_VISITORS; lia).
  split; [exact Hvis|].
  destruct (test_verdict_agrees_with_compute_verdict get_p2bb get_uplift
              14 80 2500 v1 Hvis) as [H _].
  exact H.
Defined.

(** X2.  More runtime, on the same numbers, never takes a verdict back:
    a WINNER stays a WINNER, a LOSER a LOSER and a FLAT a FLAT; KEEP
    RUNNING stays or becomes FLAT. *)
Theorem compute_verdict_stable_under_runtime :
  forall (p2bb uplift : option Q) (total_orders days later : Z),
    (days <= later)%Z ->
    let now := Rollout.compute_verdict p2bb uplift days total_orders in
    let then_ := Rollout.compute_verdict p2bb uplift later total_orders in
    (now = "WINNER" -> then_ = "WINNER")
    /\ (now = "LOSER" -> then_ = "LOSER")
    /\ (now = "FLAT" -> then_ = "FLAT")
    /\ (now = "KEEP RUNNING" -> then_ = "KEEP RUNNING" \/ then_ = "FLAT").
Proof.
  intros p2bb uplift total_orders days later Hle now then_.
  subst now then_. rewrite !VerdictFacts.compute_verdict_gate.
  destruct (days <? 10)%Z eqn:Hd; cbn [orb];
    [repeat split; discriminate|].
  destruct (total_orders <? 30)%Z eqn:Ho; cbn [orb];
    [repeat split; discriminate|].
  float_hyps.
  replace (later <? 10)%Z with false by (symmetry; apply Z.ltb_ge; lia).
  cbn [orb].
  unfold TestVerdict.variation_verdict.
  destruct p2bb as [p|], uplift as [u|];
    try (repeat split; discriminate).
  destruct (Float.ge p MIN_CONFIDENCE && Float.gt u NEUTRAL_LIFT_THRESHOLD);
    [repeat split; try discriminate; reflexivity|].
  destruct (Float.ge (1 - p) MIN_CONFIDENCE
            && Float.lt u (- NEUTRAL_LIFT_THRESHOLD));
    [repeat split; try discriminate; reflexivity|].
  destruct (Float.le (Qabs u) NEUTRAL_LIFT_THRESHOLD);
    rewrite ?andb_true_r, ?andb_false_r.
  - destruct (21 <=? days)%Z eqn:H21; float_hyps.
    + replace (21 <=? later)%Z with true by (symmetry; apply Z.leb_le; lia).
      repeat split; try discriminate; auto.
    + destruct (21 <=? later)%Z; repeat split; try discriminate; auto.
  - repeat split; try discriminate; auto.
Qed.

Lemma compute_verdict_stable_under_runtime_witness :
  (15 <= 25)%Z
  /\ Rollout.compute_verdict (Some (5 # 10)) (Some (1 # 100)) 15 200
     = "KEEP RUNNING"
  /\ Rollout.compute_verdict (Some (5 # 10)) (Some (1 # 100)) 25 200 = "FLAT".
Proof.
  assert (Hle : (15 <= 25)%Z) by lia.
  split; [exact Hle|]. split; [reflexivity|].
  destruct (compute_verdict_stable_under_runtime (Some (5 # 10))
              (Some (1 # 100)) 200 15 25 Hle) as (_ & _ & _ & Hkeep).
  destruct (Hkeep eq_refl) as [H|H]; [discriminate H | exact H].
Defined.

(** X3.  Mirroring an experiment (the confidence [p] becomes [1 - p], the
    uplift changes sign) trades WINNER for LOSER and leaves the other
    verdicts as they are. *)
Theorem compute_verdict_mirror :
  forall (p u : Q) (days total_orders : Z),
    Rollout.compute_verdict (Some (1 - p)) (Some (- u)) days total_orders
    = Spec.mirror (Rollout.compute_verdict (Some p) (Some u) days total_orders).
Proof.
  intros p u days total_orders.
  unfold Rollout.compute_verdict.
  destruct ((days <? VERDICT_MIN_RUNTIME)%Z
            || (total_orders <? VERDICT_MIN_ORDERS)%Z); [reflexivity|].
  change MIN_CONFIDENCE with (80 # 100).
  change NEUTRAL_LIFT_THRESHOLD with (2 # 100).
  replace (Float.le (Qabs (- u)) (2 # 100)) with (Float.le (Qabs u) (2 # 100))
    by (unfold Float.le; rewrite Qabs_opp; reflexivity).
  destruct (Float.ge p (80 # 100)) eqn:Hp,
           (Float.gt u (2 # 100)) eqn:Hu,
           (Float.ge (1 - p) (80 # 100)) eqn:Hq,
           (Float.lt u (- (2 # 100))) eqn:Hn,
           (Float.ge (1 - (1 - p)) (80 # 100)) eqn:Hp',
           (Float.gt (- u) (2 # 100)) eqn:Hu',
           (Float.lt (- u) (- (2 # 100))) eqn:Hn';
    float_hyps; try (exfalso; lra); cbn [andb];
    destruct ((21 <=? days)%Z && Float.le (Qabs u) (2 # 100)); reflexivity.
Qed.

(** ** The aggregate helpers of ig_metrics.py *)

Module TotalsFacts.

Lemma to_int_Qeq a b : a == b -> Float.to_int a = Float.to_int b.
Proof.
  destruct a as [n d], b as [m e]. unfold Qeq, Float.to_int. cbn [Qnum Qden].
  intros H.
  rewrite <- (Z.quot_mul_cancel_r n (Zpos d) (Zpos e)) by lia.
  rewrite <- (Z.quot_mul_cancel_r m (Zpos e) (Zpos d)) by lia.
  rewrite H. f_equal. lia.
Qed.

Lemma to_int_inject_Z z : Float.to_int (inject_Z z) = z.
Proof. unfold Float.to_int, inject_Z. cbn [Qnum Qden]. apply Z.quot_1_r. Qed.

(** One turn of either loop: the number the record holds is added. *)
Lemma visitors_step total m q rest :
  Spec.holds "n_visitors" m q ->
  exists total',
    total' == total + q
    /\ get_total_visitors_from total (m :: rest)
       = get_total_visitors_from total' rest.
Proof.
  unfold Spec.holds. destruct m as [| | |r]; try contradiction.
  cbn [get_total_visitors_from Py.get Py.bind]. unfold dict_get.
  destruct (Py.lookup r "n_visitors") as [[| | |d]|]; intros H; subst;
    try (exists total; split; [rewrite Qplus_0_r|]; reflexivity).
  - destruct (Py.lookup d "value") as [[|x| |]|]; try contradiction; subst;
      cbn [Py.truthy Py.add_to Py.bind].
    + exists (total + 0). split; reflexivity.
    + destruct (Float.truthy x) eqn:Hx; cbn [Py.add_to Py.bind].
      * exists (total + x). split; reflexivity.
      * apply FloatFacts.float_truthy_false_iff in Hx.
        exists (total + 0). split; [rewrite Hx|]; reflexivity.
    + exists (total + 0). split; [|reflexivity].
      unfold Float.truthy. cbn. reflexivity.
  - exists (total + 0). split; reflexivity.
Qed.

Lemma orders_step total m q rest :
  Spec.holds "n_orders" m q ->
  exists total',
    total' == total + q
    /\ get_total_orders_from total (m :: rest)
       = get_total_orders_from total' rest.
Proof.
  unfold Spec.holds. destruct m as [| | |r]; try contradiction.
  cbn [get_total_orders_from Py.get Py.bind]. unfold dict_get.
  destruct (Py.lookup r "n_orders") as [[| | |d]|]; intros H; subst;
    try (exists total; split; [rewrite Qplus_0_r|]; reflexivity).
  - destruct (Py.lookup d "value") as [[|x| |]|]; try contradiction; subst;
      cbn [Py.truthy Py.add_to Py.bind].
    + exists (total + 0). split; reflexivity.
    + destruct (Float.truthy x) eqn:Hx; cbn [Py.add_to Py.bind].
      * exists (total + x). split; reflexivity.
      * apply FloatFacts.float_truthy_false_iff in Hx.
        exists (total + 0). split; [rewrite Hx|]; reflexivity.
    + exists (total + 0). split; [|reflexivity].
      unfold Float.truthy. cbn. reflexivity.
  - exists (total + 0). split; reflexivity.
Qed.

Lemma visitors_loop metrics qs :
  Forall2 (Spec.holds "n_visitors") metrics qs ->
  forall total,
    exists t,
      get_total_visitors_from total metrics = Ok t
      /\ t == total + Spec.sum qs.
Proof.
  induction 1 as [|m q metrics qs Hm _ IH]; intros total.
  - exists total. split; [reflexivity|]. cbn. rewrite Qplus_0_r. reflexivity.
  - destruct (visitors_step total m q metrics Hm) as (total' & Heq & ->).
    destruct (IH total') as (t & Hrun & Ht).
    exists t. split; [exact Hrun|].
    rewrite Ht, Heq. cbn [Spec.sum fold_right]. fold (Spec.sum qs).
    rewrite Qplus_assoc. reflexivity.
Qed.

Lemma orders_loop metrics qs :
  Forall2 (Spec.holds "n_orders") metrics qs ->
  forall total,
    exists t,
      get_total_orders_from total metrics = Ok t
      /\ t == total + Spec.sum qs.
Proof.
  induction 1 as [|m q metrics qs Hm _ IH]; intros total.
  - exists total. split; [reflexivity|]. cbn. rewrite Qplus_0_r. reflexivity.
  - destruct (orders_step total m q metrics Hm) as (total' & Heq & ->).
    destruct (IH total') as (t & Hrun & Ht).
    exists t. split; [exact Hrun|].
    rewrite Ht, Heq. cbn [Spec.sum fold_right]. fold (Spec.sum qs).
    rewrite Qplus_assoc. reflexivity.
Qed.

Lemma sum_inject_Z zs :
  Spec.sum (map inject_Z zs) == inject_Z (fold_right Z.add 0%Z zs).
Proof.
  induction zs as [|z zs IH]; [reflexivity|].
  cbn [map Spec.sum fold_right]. fold (Spec.sum (map inject_Z zs)).
  rewrite IH, <- inject_Z_plus. reflexivity.
Qed.

End TotalsFacts.

(** X4.  On a feed whose records hold whole visitor counts, none
    negative and with a sum of at most 2^53 (a missing metric, a metric
    that is no record and a missing or null value count as zero),
    [get_total_visitors] does not raise and returns the sum of the counts.
    Within these bounds every addition of the loop is exact, whether the
    feed was decoded to [int]s or to [float]s. *)
Theorem get_total_visitors_sums :
  forall (metrics : list pyval) (counts : list Z),
    Forall2 (Spec.holds "n_visitors") metrics (map inject_Z counts) ->
    Forall (fun z => (0 <= z)%Z) counts ->
    (fold_right Z.add 0%Z counts <= 2 ^ 53)%Z ->
    get_total_visitors metrics = Ok (fold_right Z.add 0%Z counts).
Proof.
  intros metrics counts Hholds _ _.
  destruct (TotalsFacts.visitors_loop metrics _ Hholds 0) as (t & Hrun & Ht).
  rewrite Qplus_0_l in Ht.
  unfold get_total_visitors. rewrite Hrun. cbn [Py.bind].
  rewrite (TotalsFacts.to_int_Qeq _ _ Ht).
  rewrite (TotalsFacts.to_int_Qeq _ _ (TotalsFacts.sum_inject_Z counts)).
  rewrite TotalsFacts.to_int_inject_Z. reflexivity.
Qed.

Lemma get_total_visitors_sums_witness :
  let feed :=
    [ PDict [ ("variation_id", PStr "control");
              ("n_visitors", PDict [ ("value", PNum 1200) ]) ];
      PDict [ ("variation_id", PStr "v1");
              ("n_visitors", PDict [ ("value", PNone) ]) ];
      PDict [ ("variation_id", PStr "v2") ];
      PDict [ ("variation_id", PStr "v3");
              ("n_visitors", PDict [ ("value", PNum 1150) ]) ] ] in
  Forall2 (Spec.holds "n_visitors") feed (map inject_Z [1200; 0; 0; 1150]%Z)
  /\ Forall (fun z => (0 <= z)%Z) [1200; 0; 0; 1150]%Z
  /\ (fold_right Z.add 0%Z [1200; 0; 0; 1150]%Z <= 2 ^ 53)%Z
  /\ get_total_visitors feed = Ok 2350%Z.
Proof.
  intros feed.
  assert (H : Forall2 (Spec.holds "n_visitors") feed
                (map inject_Z [1200; 0; 0; 1150]%Z))
    by (repeat constructor).
  assert (Hpos : Forall (fun z => (0 <= z)%Z) [1200; 0; 0; 1150]%Z)
    by (repeat constructor; lia).
  assert (Hsum : (fold_right Z.add 0%Z [1200; 0; 0; 1150]%Z <= 2 ^ 53)%Z)
    by (vm_compute; discriminate).
  split; [exact H|]. split; [exact Hpos|]. split; [exact Hsum|].
  exact (get_total_visitors_sums feed [1200; 0; 0; 1150]%Z H Hpos Hsum).
Defined.

(** X5.  On a feed whose records hold whole order counts, none negative
    and with a sum of at most 2^53, [get_total_orders] does not raise and
    returns the sum of the counts; a missing metric, a metric that is no
    record and a missing or null value count as zero. *)
Theorem get_total_orders_sums :
  forall (metrics : list pyval) (counts : list Z),
    Forall2 (Spec.holds "n_orders") metrics (map inject_Z counts) ->
    Forall (fun z => (0 <= z)%Z) counts ->
    (fold_right Z.add 0%Z counts <= 2 ^ 53)%Z ->
    get_total_orders metrics = Ok (fold_right Z.add 0%Z counts).
Proof.
  intros metrics counts Hholds _ _.
  destruct (TotalsFacts.orders_loop metrics _ Hholds 0) as (t & Hrun & Ht).
  rewrite Qplus_0_l in Ht.
  unfold get_total_orders. rewrite Hrun. cbn [Py.bind].
  rewrite (TotalsFacts.to_int_Qeq _ _ Ht).
  rewrite (TotalsFacts.to_int_Qeq _ _ (TotalsFacts.sum_inject_Z counts)).
  rewrite TotalsFacts.to_int_inject_Z. reflexivity.
Qed.

Lemma get_total_orders_sums_witness :
  let feed :=
    [ PDict [ ("variation_id", PStr "control");
              ("n_orders", PDict [ ("value", PNum 31) ]) ];
      PDict [ ("variation_id", PStr "v1");
              ("n_orders", PNone) ] ] in
  Forall2 (Spec.holds "n_orders") feed (map inject_Z [31; 0]%Z)
  /\ Forall (fun z => (0 <= z)%Z) [31; 0]%Z
  /\ (fold_right Z.add 0%Z [31; 0]%Z <= 2 ^ 53)%Z
  /\ get_total_orders feed = Ok 31%Z.
Proof.
  intros feed.
  assert (H : Forall2 (Spec.holds "n_orders") feed (map inject_Z [31; 0]%Z))
    by (repeat constructor).
  assert (Hpos : Forall (fun z => (0 <= z)%Z) [31; 0]%Z)
    by (repeat constructor; lia).
  assert (Hsum : (fold_right Z.add 0%Z [31; 0]%Z <= 2 ^ 53)%Z)
    by (vm_compute; discriminate).
  split; [exact H|]. split; [exact Hpos|]. split; [exact Hsum|].
  exact (get_total_orders_sums feed [31; 0]%Z H Hpos Hsum).
Defined.

(** ** COGS detection *)

Module CogsFacts.

Lemma has_cogs_step m q rest :
  Spec.holds "pct_revenue_with_cogs" m q ->
  has_cogs_data (m :: rest)
  = if Float.gt q 0 then Ok true else has_cogs_data rest.
Proof.
  unfold Spec.holds. destruct m as [| | |r]; try contradiction.
  cbn [has_cogs_data Py.get Py.bind]. unfold dict_get.
  destruct (Py.lookup r "pct_revenue_with_cogs") as [[| | |d]|];
    intros H; subst; try reflexivity.
  destruct (Py.lookup d "value") as [[|x| |]|]; try contradiction; subst;
    try reflexivity.
  cbn [Py.truthy]. destruct (Float.truthy x) eqn:Hx; cbn [Py.gt Py.bind].
  - destruct (Float.gt x 0); reflexivity.
  - apply FloatFacts.float_truthy_false_iff in Hx.
    replace (Float.gt x 0) with false; [reflexivity|].
    symmetry. apply FloatFacts.float_gt_false_iff. rewrite Hx. apply Qle_refl.
Qed.

Lemma has_cogs_data_exists metrics qs :
  Forall2 (Spec.holds "pct_revenue_with_cogs") metrics qs ->
  has_cogs_data metrics = Ok (existsb (fun q => Float.gt q 0) qs).
Proof.
  induction 1 as [|m q metrics qs Hm _ IH]; [reflexivity|].
  rewrite (has_cogs_step m q metrics Hm). cbn [existsb].
  destruct (Float.gt q 0); [reflexivity | exact IH].
Qed.

End CogsFacts.

(** X6.  On a feed whose records hold their share of revenue with COGS
    as numbers (missing and null count as zero), the primary revenue
    metric is the gross profit per visitor exactly when some record holds
    a positive share, and the net revenue per visitor otherwise; it is
    never anything else. *)
Theorem primary_revenue_metric_choice :
  forall (metrics : list pyval) (qs : list Q),
    Forall2 (Spec.holds "pct_revenue_with_cogs") metrics qs ->
    (Exists (fun q => 0 < q) qs ->
     has_cogs_data metrics = Ok true
     /\ primary_revenue_metric metrics = Ok "gross_profit_per_visitor")
    /\ (Forall (fun q => q <= 0) qs ->
        has_cogs_data metrics = Ok false
        /\ primary_revenue_metric metrics = Ok "net_revenue_per_visitor").
Proof.
  intros metrics qs Hholds.
  pose proof (CogsFacts.has_cogs_data_exists metrics qs Hholds) as Hrun.
  unfold primary_revenue_metric. rewrite Hrun. cbn [Py.bind].
  split.
  - intros Hpos.
    assert (H : existsb (fun q => Float.gt q 0) qs = true).
    { apply existsb_exists. apply Exists_exists in Hpos.
      destruct Hpos as (q & Hin & Hq). exists q. split; [exact Hin|].
      apply FloatFacts.float_gt_iff. exact Hq. }
    rewrite H. split; reflexivity.
  - intros Hnone.
    assert (H : existsb (fun q => Float.gt q 0) qs = false).
    { apply not_true_iff_false. rewrite existsb_exists.
      intros (q & Hin & Hq). apply FloatFacts.float_gt_iff in Hq.
      rewrite Forall_forall in Hnone. specialize (Hnone q Hin). lra. }
    rewrite H. split; reflexivity.
Qed.

Lemma primary_revenue_metric_choice_witness :
  let feed :=
    [ PDict [ ("variation_id", PStr "control");
              ("pct_revenue_with_cogs", PDict [ ("value", PNum 0) ]) ];
      PDict [ ("variation_id", PStr "v1");
              ("pct_revenue_with_cogs", PDict [ ("value", PNum (35 # 100)) ]) ] ]
  in
  Forall2 (Spec.holds "pct_revenue_with_cogs") feed [0; 35 # 100]
  /\ primary_revenue_metric feed = Ok "gross_profit_per_visitor".
Proof.
  intros feed.
  assert (H : Forall2 (Spec.holds "pct_revenue_with_cogs") feed [0; 35 # 100])
    by (repeat constructor).
  split; [exact H|].
  destruct (primary_revenue_metric_choice feed _ H) as [Hpos _].
  apply Hpos. right. left. reflexivity.
Defined.

(** ** Grouping by segment *)

Module GroupingFacts.

Lemma key_refl a : Py.is_dict a = false -> Py.key_eqb a a = true.
Proof.
  destruct a; cbn; intros H; try reflexivity; try discriminate;
    [apply Qeq_bool_refl | apply String.eqb_refl].
Qed.

Lemma key_sym a b : Py.key_eqb a b = Py.key_eqb b a.
Proof.
  destruct a, b; cbn; try reflexivity;
    [apply Qeq_bool_comm | apply String.eqb_sym].
Qed.

Lemma key_trans a b c :
  Py.key_eqb a b = true -> Py.key_eqb b c = true -> Py.key_eqb a c = true.
Proof.
  destruct a, b, c; cbn; try discriminate; try reflexivity.
  - apply Qeq_bool_trans.
  - rewrite !String.eqb_eq. congruence.
Qed.

(** Equal keys match the same keys. *)
Lemma key_eqb_same a b c :
  Py.key_eqb a b = true -> Py.key_eqb a c = Py.key_eqb b c.
Proof.
  intros Hab. destruct (Py.key_eqb b c) eqn:Hbc.
  - exact (key_trans a b c Hab Hbc).
  - apply not_true_iff_false. intros Hac.
    rewrite key_sym in Hab.
    rewrite (key_trans b a c Hab Hac) in Hbc. discriminate.
Qed.

Lemma distinct_snoc keys a :
  Spec.distinct keys ->
  Forall (fun k => Py.key_eqb k a = false) keys ->
  Spec.distinct (keys ++ [a]).
Proof.
  induction keys as [|k keys IH]; intros Hd Hall; cbn.
  - split; [constructor | exact I].
  - destruct Hd as [Hk Hd]. inversion Hall; subst. split.
    + apply Forall_app. split; [exact Hk | repeat constructor; assumption].
    + apply IH; assumption.
Qed.

(** The keys after one record: a new key goes last. *)
Lemma setdefault_append_keys segments a m :
  map fst (setdefault_append segments a m)
  = (map fst segments
     ++ (if existsb (fun k => Py.key_eqb k a) (map fst segments) then []
         else [a]))%list.
Proof.
  induction segments as [|[k g] rest IH]; [reflexivity|].
  cbn [setdefault_append map fst existsb].
  destruct (Py.key_eqb k a); cbn [orb map fst app].
  - rewrite app_nil_r. reflexivity.
  - rewrite IH. reflexivity.
Qed.

(** The groups after one record. *)
Lemma setdefault_append_groups segments a m :
  Spec.distinct (map fst segments) ->
  forall k g,
    In (k, g) (setdefault_append segments a m) ->
    (exists g0,
        In (k, g0) segments
        /\ g = if Py.key_eqb k a then (g0 ++ [m])%list else g0)
    \/ (k = a /\ g = [m]
        /\ Forall (fun k' => Py.key_eqb k' a = false) (map fst segments)).
Proof.
  induction segments as [|[k0 g0] rest IH]; intros Hd k g Hin.
  - destruct Hin as [[= <- <-]|[]]. right. repeat split. constructor.
  - cbn [setdefault_append] in Hin. destruct Hd as [Hk0 Hd].
    destruct (Py.key_eqb k0 a) eqn:Hk0a.
    + destruct Hin as [[= <- <-]|Hin].
      * left. exists g0. rewrite Hk0a. split; [left|]; reflexivity.
      * left. exists g. split; [right; exact Hin|].
        assert (Hkk : Py.key_eqb k0 k = false).
        { rewrite Forall_forall in Hk0. apply Hk0.
          apply in_map_iff. exists (k, g). split; [reflexivity | exact Hin]. }
        rewrite (key_eqb_same k0 a k Hk0a) in Hkk.
        rewrite key_sym, Hkk. reflexivity.
    + destruct Hin as [[= <- <-]|Hin].
      * left. exists g0. rewrite Hk0a. split; [left|]; reflexivity.
      * destruct (IH Hd k g Hin) as [(g1 & Hin1 & Hg)|(Hk & Hg & Hall)].
        -- left. exists g1. split; [right; exact Hin1 | exact Hg].
        -- right. repeat split; try assumption.
           constructor; assumption.
Qed.

Lemma filter_nothing (f : pyval -> bool) l :
  (forall x, In x l -> f x = false) -> filter f l = [].
Proof.
  induction l as [|x l IH]; intros H; [reflexivity|].
  cbn. rewrite (H x (or_introl eq_refl)). apply IH.
  intros y Hy. apply H. right. exact Hy.
Qed.

Lemma grouped_step seen segments m :
  Py.is_dict (Spec.audience m) = false ->
  Spec.grouped seen segments ->
  Spec.grouped (seen ++ [m]) (setdefault_append segments (Spec.audience m) m).
Proof.
  intros Hkey (Hgroups & Hcover & Hdistinct).
  set (a := Spec.audience m) in *.
  split; [|split].
  - intros k g Hin. rewrite filter_app. cbn [filter]. fold a.
    destruct (setdefault_append_groups segments a m Hdistinct k g Hin)
      as [(g0 & Hin0 & Hg)|(Hk & Hg & Hall)].
    + destruct (Hgroups k g0 Hin0) as [Hne Hfilter]. subst g.
      destruct (Py.key_eqb k a).
      * split; [destruct g0; discriminate | rewrite <- Hfilter; reflexivity].
      * rewrite app_nil_r. split; assumption.
    + subst k g. rewrite (key_refl a Hkey).
      split; [discriminate|].
      replace (filter (fun m0 => Py.key_eqb a (Spec.audience m0)) seen)
        with (@nil pyval); [reflexivity|].
      symmetry. apply filter_nothing. intros m' Hm'.
      specialize (Hcover m' Hm'). apply existsb_exists in Hcover.
      destruct Hcover as (k' & Hk' & Hmatch).
      rewrite Forall_forall in Hall. specialize (Hall k' Hk').
      rewrite (key_eqb_same k' (Spec.audience m') a Hmatch) in Hall.
      rewrite key_sym. exact Hall.
  - intros m' Hm'. rewrite setdefault_append_keys.
    rewrite existsb_app. apply in_app_or in Hm'. destruct Hm' as [Hm'|Hm'].
    + rewrite (Hcover m' Hm'). reflexivity.
    + destruct Hm' as [<-|[]]. fold a.
      destruct (existsb (fun k => Py.key_eqb k a) (map fst segments)) eqn:He;
        [reflexivity|].
      cbn. rewrite (key_refl a Hkey). reflexivity.
  - rewrite setdefault_append_keys.
    destruct (existsb (fun k => Py.key_eqb k a) (map fst segments)) eqn:He.
    + rewrite app_nil_r. exact Hdistinct.
    + apply distinct_snoc; [exact Hdistinct|].
      apply Forall_forall. intros k Hk. apply not_true_iff_false. intros Hka.
      assert (existsb (fun k => Py.key_eqb k a) (map fst segments) = true)
        by (apply existsb_exists; exists k; auto).
      congruence.
Qed.

Lemma grouped_loop metrics :
  forall seen segments,
    Spec.records metrics ->
    Forall (fun m => Py.is_dict (Spec.audience m) = false) metrics ->
    Spec.grouped seen segments ->
    exists final,
      group_metrics_by_segment_from segments metrics = Ok final
      /\ Spec.grouped (seen ++ metrics) final.
Proof.
  induction metrics as [|m rest IH]; intros seen segments Hrec Hkeys Hinv.
  - exists segments. rewrite app_nil_r. split; [reflexivity | exact Hinv].
  - unfold Spec.records in Hrec.
    inversion Hrec as [|? ? Hm Hrest]; subst.
    inversion Hkeys as [|? ? Hkey Hkeys']; subst.
    destruct m as [| | |r]; try discriminate Hm.
    cbn [group_metrics_by_segment_from Py.get Py.bind].
    cbn [Spec.audience] in Hkey. rewrite Hkey.
    replace (seen ++ PDict r :: rest)%list
      with ((seen ++ [PDict r]) ++ rest)%list
      by (rewrite <- app_assoc; reflexivity).
    apply IH; [exact Hrest | exact Hkeys'|].
    apply (grouped_step seen segments (PDict r) Hkey Hinv).
Qed.

End GroupingFacts.

(** X7.  On a feed of records none of which has a record for audience,
    [group_metrics_by_segment] returns groups such that: every group is
    not empty and holds exactly the records of the feed filed under its
    key, in the order of the feed; every record of the feed is in a group;
    and no two groups have equal keys. *)
Theorem group_metrics_by_segment_partitions :
  forall metrics : list pyval,
    Spec.records metrics ->
    Forall (fun m => Py.is_dict (Spec.audience m) = false) metrics ->
    exists segments,
      group_metrics_by_segment metrics = Ok segments
      /\ (forall k g, In (k, g) segments ->
            g <> []
            /\ g = filter (fun m => Py.key_eqb k (Spec.audience m)) metrics)
      /\ (forall m, In m metrics -> exists k g, In (k, g) segments /\ In m g)
      /\ Spec.distinct (map fst segments).
Proof.
  intros metrics Hrec Hkeys.
  destruct (GroupingFacts.grouped_loop metrics [] [] Hrec Hkeys)
    as (segments & Hrun & Hgroups & Hcover & Hdistinct).
  { split; [intros k g []|]. split; [intros m []| exact I]. }
  cbn [app] in Hgroups, Hcover.
  exists segments. split; [exact Hrun|]. split; [exact Hgroups|].
  split; [|exact Hdistinct].
  intros m Hm. specialize (Hcover m Hm). apply existsb_exists in Hcover.
  destruct Hcover as (k & Hk & Hmatch). apply in_map_iff in Hk.
  destruct Hk as ([k' g] & Hfst & Hin). cbn in Hfst. subst k'.
  exists k, g. split; [exact Hin|].
  destruct (Hgroups k g Hin) as [_ ->]. apply filter_In. split; assumption.
Qed.

Lemma group_metrics_by_segment_partitions_witness :
  let row (audience id : string) :=
    PDict [ ("audience", PStr audience); ("variation_id", PStr id) ] in
  let feed :=
    [ row "Mobile" "control"; row "Desktop" "control";
      row "Mobile" "v1"; PDict [ ("variation_id", PStr "v1") ] ] in
  Spec.records feed
  /\ Forall (fun m => Py.is_dict (Spec.audience m) = false) feed
  /\ exists segments,
       group_metrics_by_segment feed = Ok segments
       /\ map fst segments = [ PStr "Mobile"; PStr "Desktop"; PStr "Unknown" ]
       /\ Spec.distinct (map fst segments).
Proof.
  intros row feed.
  assert (Hrec : Spec.records feed) by (repeat constructor).
  assert (Hkeys : Forall (fun m => Py.is_dict (Spec.audience m) = false) feed)
    by (repeat constructor).
  split; [exact Hrec|]. split; [exact Hkeys|].
  destruct (group_metrics_by_segment_partitions feed Hrec Hkeys)
    as (segments & Hrun & _ & _ & Hdistinct).
  exists segments. split; [exact Hrun|]. split; [|exact Hdistinct].
  injection Hrun as <-. reflexivity.
Defined.

(** ** Control and variants *)

Module VariantFacts.

(** The selector returns what it was given or a variant of the list. *)
Lemma pick_from_member variants metrics metric_name :
  forall best best_uplift r,
    Funnel.pick_best_variant_from best best_uplift variants metrics
      metric_name = Ok r ->
    r = best \/ exists b, r = Some b /\ In b variants.
Proof.
  induction variants as [|v rest IH]; intros best best_uplift r Hrun.
  - injection Hrun as <-. left. reflexivity.
  - cbn [Funnel.pick_best_variant_from] in Hrun.
    destruct (get_metric_uplift metrics metric_name (Helpers.id v))
      as [uplift|]; [|discriminate]. cbn [Py.bind] in Hrun.
    destruct (if Py.is_none uplift then Ok false
              else if Py.is_none best_uplift then Ok true
              else Py.gt uplift best_uplift) as [[|]|]; [| |discriminate];
      cbn [Py.bind] in Hrun; apply IH in Hrun;
      destruct Hrun as [->|(b & -> & Hb)].
    + right. exists v. split; [reflexivity | left; reflexivity].
    + right. exists b. split; [reflexivity | right; exact Hb].
    + left. reflexivity.
    + right. exists b. split; [reflexivity | right; exact Hb].
Qed.

Lemma find_variants_spec variations v :
  In v (Helpers.find_variants variations)
  <-> In v variations /\ Helpers.isControl v = false.
Proof.
  unfold Helpers.find_variants. rewrite filter_In, negb_true_iff. tauto.
Qed.

End VariantFacts.

(** X8.  The variant [main] of funnel.py selects among
    [find_variants(variations)] is a variation of the experiment and is
    never a control; so it is never the variation [find_control]
    returns, which is the first control of the list. *)
Theorem best_variant_is_never_control :
  forall (variations : list Helpers.Variation) (metrics : list pyval)
         (rev_metric : string) (best : Helpers.Variation),
    Funnel.main_best (Helpers.find_variants variations) metrics rev_metric
    = Ok best ->
    In best variations
    /\ Helpers.isControl best = false
    /\ (forall control,
          Helpers.find_control variations = Some control ->
          Helpers.isControl control = true
          /\ In control variations
          /\ best <> control).
Proof.
  intros variations metrics rev_metric best Hrun.
  assert (Hin : In best (Helpers.find_variants variations)).
  { unfold Funnel.main_best, Funnel.pick_best_variant in Hrun.
    destruct (Funnel.pick_best_variant_from None PNone
                (Helpers.find_variants variations) metrics rev_metric)
      as [r|] eqn:Hpick; [|discriminate].
    cbn [Py.bind] in Hrun.
    destruct (VariantFacts.pick_from_member _ _ _ _ _ _ Hpick)
      as [->|(b & -> & Hb)].
    - destruct (Helpers.find_variants variations) as [|v rest];
        [discriminate|]. injection Hrun as <-. left. reflexivity.
    - injection Hrun as <-. exact Hb. }
  apply VariantFacts.find_variants_spec in Hin. destruct Hin as [Hin Hvar].
  split; [exact Hin|]. split; [exact Hvar|].
  intros control Hcontrol. unfold Helpers.find_control in Hcontrol.
  apply find_some in Hcontrol. destruct Hcontrol as [Hc Hctl].
  split; [exact Hctl|]. split; [exact Hc|]. congruence.
Qed.

Lemma best_variant_is_never_control_witness :
  let control := Helpers.mkVariation "c" "Original" true in
  let v1 := Helpers.mkVariation "v1" "Higher price" false in
  let metrics := [ PDict [ ("variation_id", PStr "c") ];
                   PDict [ ("variation_id", PStr "v1") ] ] in
  Funnel.main_best (Helpers.find_variants [control; v1]) metrics
    "net_revenue_per_visitor" = Ok v1
  /\ Helpers.isControl v1 = false.
Proof.
  intros control v1 metrics.
  assert (Hrun : Funnel.main_best (Helpers.find_variants [control; v1])
                   metrics "net_revenue_per_visitor" = Ok v1) by reflexivity.
  split; [exact Hrun|].
  destruct (best_variant_is_never_control [control; v1] metrics
              "net_revenue_per_visitor" v1 Hrun) as (_ & H & _).
  exact H.
Defined.

(** ** The stages of the funnel *)

Module StageFacts.

Section Readers.

Variables read_value read_uplift read_confidence
  : string -> string -> option Q.
Variables control_id variant_id : string.

(** The stage [analyze_funnel] of funnel.py makes of an entry of
    [FUNNEL_STAGES]. *)
Let stage_of (entry : string * string) : Funnel.Stage :=
  let (metric_name, label) := entry in
  Funnel.mkStage metric_name label
    (read_value metric_name control_id) (read_value metric_name variant_id)
    (read_uplift metric_name variant_id)
    (read_confidence metric_name variant_id)
    match read_value metric_name control_id,
          read_value metric_name variant_id with
    | None, None => false
    | _, _ => true
    end.

Lemma debrief_keeps_active funnel_stages :
  Debrief.analyze_funnel_over read_value read_uplift read_confidence
    funnel_stages control_id variant_id
  = map Spec.debrief_view (filter Funnel.has_data (map stage_of funnel_stages)).
Proof.
  induction funnel_stages as [|[metric_name label] rest IH]; [reflexivity|].
  cbn [Debrief.analyze_funnel_over map stage_of filter Funnel.has_data].
  destruct (read_value metric_name control_id),
           (read_value metric_name variant_id);
    cbn [map]; rewrite IH; reflexivity.
Qed.

End Readers.

End StageFacts.

(** X11.  [analyze_funnel] of funnel.py returns the five stages of the
    funnel in their order, a stage having data exactly when the control
    or the variant has a value for it; and [analyze_funnel] of debrief.py
    returns, with the fields it keeps, the stages of funnel.py that have
    data, in the same order. *)
Theorem analyze_funnel_stages :
  forall (read_value read_uplift read_confidence
            : string -> string -> option Q) (control_id variant_id : string),
    let stages := Funnel.analyze_funnel read_value read_uplift read_confidence
                    control_id variant_id in
    map Funnel.label stages
    = [ "Add to Cart"; "Begin Checkout"; "Enter Contact Info";
        "Submit Address"; "Purchase" ]
    /\ Forall (fun s =>
                 Funnel.has_data s = true
                 <-> (read_value (Funnel.metric s) control_id <> None
                      \/ read_value (Funnel.metric s) variant_id <> None))
         stages
    /\ Debrief.analyze_funnel read_value read_uplift read_confidence
         control_id variant_id
       = map Spec.debrief_view
           (Funnel.active_stages read_value read_uplift read_confidence
              control_id variant_id).
Proof.
  intros read_value read_uplift read_confidence control_id variant_id stages.
  split; [reflexivity|]. split.
  - subst stages. unfold Funnel.analyze_funnel. apply Forall_map.
    apply Forall_forall. intros [metric_name label] _.
    cbn [Funnel.has_data Funnel.metric].
    destruct (read_value metric_name control_id),
             (read_value metric_name variant_id);
      split; intros H; try reflexivity; try discriminate;
      try (left; discriminate); try (right; discriminate).
    destruct H as [H|H]; contradiction.
  - unfold Debrief.analyze_funnel, Funnel.active_stages,
      Funnel.analyze_funnel.
    apply StageFacts.debrief_keeps_active.
Qed.

(** ** The biggest gain and the biggest drop *)

Module ExtremumFacts.

Section Score.

Context {A : Type}.
Variable score : A -> option Q.

Lemma first_greatest_skip seen best x :
  Spec.first_greatest score seen best ->
  score x = None ->
  Spec.first_greatest score (seen ++ [x]) best.
Proof.
  intros Hinv Hx. destruct best as [b|]; cbn [Spec.first_greatest] in *.
  - destruct Hinv as (pre & post & q & -> & Hb & Hpre & Hpost).
    exists pre, (post ++ [x])%list, q.
    split; [rewrite <- app_assoc; reflexivity|].
    split; [exact Hb|]. split; [exact Hpre|].
    apply Forall_app. split; [exact Hpost|].
    constructor; [|constructor]. intros y Hy. congruence.
  - apply Forall_app. split; [exact Hinv|]. constructor; [exact Hx|].
    constructor.
Qed.

Lemma first_greatest_first seen x q :
  Spec.first_greatest score seen None ->
  score x = Some q ->
  Spec.first_greatest score (seen ++ [x]) (Some x).
Proof.
  intros Hinv Hx. cbn [Spec.first_greatest] in *.
  exists seen, [], q. split; [reflexivity|]. split; [exact Hx|].
  split; [|constructor].
  eapply Forall_impl; [|exact Hinv]. intros a Ha y Hy. congruence.
Qed.

Lemma first_greatest_better seen b qb x q :
  Spec.first_greatest score seen (Some b) ->
  score b = Some qb -> score x = Some q -> qb < q ->
  Spec.first_greatest score (seen ++ [x]) (Some x).
Proof.
  intros (pre & post & q' & -> & Hb & Hpre & Hpost) Hqb Hx Hlt.
  assert (q' = qb) by congruence. subst q'.
  exists (pre ++ b :: post)%list, [], q.
  split; [reflexivity|]. split; [exact Hx|]. split; [|constructor].
  apply Forall_app. split; [|constructor].
  - eapply Forall_impl; [|exact Hpre]. intros a Ha y Hy.
    specialize (Ha y Hy). lra.
  - intros y Hy. assert (y = qb) by congruence. subst y. exact Hlt.
  - eapply Forall_impl; [|exact Hpost]. intros a Ha y Hy.
    specialize (Ha y Hy). lra.
Qed.

Lemma first_greatest_keep seen b qb x q :
  Spec.first_greatest score seen (Some b) ->
  score b = Some qb -> score x = Some q -> q <= qb ->
  Spec.first_greatest score (seen ++ [x]) (Some b).
Proof.
  intros (pre & post & q' & -> & Hb & Hpre & Hpost) Hqb Hx Hle.
  assert (q' = qb) by congruence. subst q'.
  exists pre, (post ++ [x])%list, qb.
  split; [rewrite <- app_assoc; reflexivity|].
  split; [exact Hb|]. split; [exact Hpre|].
  apply Forall_app. split; [exact Hpost|]. constructor; [|constructor].
  intros y Hy. assert (y = q) by congruence. subst y. exact Hle.
Qed.

(** An element with a score rules out the empty answer. *)
Lemma first_greatest_some l r x q :
  Spec.first_greatest score l r -> In x l -> score x = Some q ->
  exists b, r = Some b.
Proof.
  intros Hr Hin Hx. destruct r as [b|]; [exists b; reflexivity|].
  cbn in Hr. rewrite Forall_forall in Hr. specialize (Hr x Hin). congruence.
Qed.

End Score.

Lemma gain_uplift s q :
  Spec.gain s = Some q -> Funnel.uplift s = Some q /\ 0 < q.
Proof.
  unfold Spec.gain. destruct (Funnel.uplift s) as [u|]; [|discriminate].
  destruct (Float.gt u 0) eqn:Hu; [|discriminate].
  intros [= <-]. float_hyps. auto.
Qed.

Lemma drop_uplift s q :
  Spec.drop s = Some q -> Funnel.uplift s = Some (- q) /\ 0 < q.
Proof.
  unfold Spec.drop. destruct (Funnel.uplift s) as [u|]; [|discriminate].
  destruct (Float.lt u 0) eqn:Hu; [|discriminate].
  intros [= <-]. float_hyps. split; [|lra].
  f_equal. destruct u as [n d]. unfold Qopp. cbn. rewrite Z.opp_involutive.
  reflexivity.
Qed.

Lemma gain_loop rest :
  forall seen best,
    Spec.first_greatest Spec.gain seen best ->
    exists r,
      Funnel.find_biggest_gain_from best rest = Ok r
      /\ Spec.first_greatest Spec.gain (seen ++ rest) r.
Proof.
  induction rest as [|s rest IH]; intros seen best Hinv.
  { exists best. rewrite app_nil_r. split; [reflexivity | exact Hinv]. }
  replace (seen ++ s :: rest)%list with ((seen ++ [s]) ++ rest)%list
    by (rewrite <- app_assoc; reflexivity).
  cbn [Funnel.find_biggest_gain_from].
  destruct (Funnel.uplift s) as [u|] eqn:Hs.
  - destruct (Float.gt u 0) eqn:Hu.
    + assert (Hgain : Spec.gain s = Some u)
        by (unfold Spec.gain; rewrite Hs, Hu; reflexivity).
      destruct best as [b|].
      * destruct Hinv as (pre & post & q & Hl & Hb & Hrest).
        destruct (gain_uplift b q Hb) as [Hub _]. rewrite Hub.
        cbn [Py.bind].
        assert (Hinv : Spec.first_greatest Spec.gain seen (Some b))
          by (exists pre, post, q; auto).
        destruct (Float.gt u q) eqn:Hbetter; float_hyps; apply IH.
        -- exact (first_greatest_better _ _ _ _ _ _ Hinv Hb Hgain Hbetter).
        -- exact (first_greatest_keep _ _ _ _ _ _ Hinv Hb Hgain Hbetter).
      * cbn [Py.bind]. apply IH.
        exact (first_greatest_first _ _ _ _ Hinv Hgain).
    + apply IH. apply first_greatest_skip; [exact Hinv|].
      unfold Spec.gain. rewrite Hs, Hu. reflexivity.
  - apply IH. apply first_greatest_skip; [exact Hinv|].
    unfold Spec.gain. rewrite Hs. reflexivity.
Qed.

Lemma drop_loop rest :
  forall seen worst,
    Spec.first_greatest Spec.drop seen worst ->
    exists r,
      Funnel.find_biggest_drop_from worst rest = Ok r
      /\ Spec.first_greatest Spec.drop (seen ++ rest) r.
Proof.
  induction rest as [|s rest IH]; intros seen worst Hinv.
  { exists worst. rewrite app_nil_r. split; [reflexivity | exact Hinv]. }
  replace (seen ++ s :: rest)%list with ((seen ++ [s]) ++ rest)%list
    by (rewrite <- app_assoc; reflexivity).
  cbn [Funnel.find_biggest_drop_from].
  destruct (Funnel.uplift s) as [u|] eqn:Hs.
  - destruct (Float.lt u 0) eqn:Hu.
    + assert (Hdrop : Spec.drop s = Some (- u))
        by (unfold Spec.drop; rewrite Hs, Hu; reflexivity).
      destruct worst as [w|].
      * destruct Hinv as (pre & post & q & Hl & Hw & Hrest).
        destruct (drop_uplift w q Hw) as [Huw _]. rewrite Huw.
        cbn [Py.bind].
        assert (Hinv : Spec.first_greatest Spec.drop seen (Some w))
          by (exists pre, post, q; auto).
        destruct (Float.lt u (- q)) eqn:Hlower; float_hyps; apply IH.
        -- apply (first_greatest_better _ _ _ _ _ _ Hinv Hw Hdrop). lra.
        -- apply (first_greatest_keep _ _ _ _ _ _ Hinv Hw Hdrop). lra.
      * cbn [Py.bind]. apply IH.
        exact (first_greatest_first _ _ _ _ Hinv Hdrop).
    + apply IH. apply first_greatest_skip; [exact Hinv|].
      unfold Spec.drop. rewrite Hs, Hu. reflexivity.
  - apply IH. apply first_greatest_skip; [exact Hinv|].
    unfold Spec.drop. rewrite Hs. reflexivity.
Qed.

End ExtremumFacts.

(** X12.  [find_biggest_gain] never raises.  It returns nothing exactly
    when no stage has a positive uplift; otherwise it returns a stage with
    a positive uplift that is above the positive uplifts of the stages
    before it and not below those of the stages after it: the first stage
    of greatest gain. *)
Theorem find_biggest_gain_is_first_greatest :
  forall stages : list Funnel.Stage,
    exists r,
      Funnel.find_biggest_gain stages = Ok r
      /\ Spec.first_greatest Spec.gain stages r
      /\ (r = None
          <-> Forall (fun s => forall u, Funnel.uplift s = Some u -> u <= 0)
                stages)
      /\ (forall b, r = Some b ->
            In b stages /\ exists u, Funnel.uplift b = Some u /\ 0 < u).
Proof.
  intros stages.
  destruct (ExtremumFacts.gain_loop stages [] None) as (r & Hrun & Hr);
    [constructor|]. cbn [app] in Hr.
  exists r. split; [exact Hrun|]. split; [exact Hr|]. split.
  - split.
    + intros ->. cbn in Hr. eapply Forall_impl; [|exact Hr].
      intros s Hs u Hu. unfold Spec.gain in Hs. rewrite Hu in Hs.
      destruct (Float.gt u 0) eqn:Hgt; [discriminate|]. float_hyps. exact Hgt.
    + intros Hnone. destruct r as [b|]; [|reflexivity].
      destruct Hr as (pre & post & q & -> & Hb & _).
      destruct (ExtremumFacts.gain_uplift b q Hb) as [Hu Hq].
      apply Forall_app in Hnone. destruct Hnone as [_ Hnone].
      inversion Hnone as [|? ? Hle _]; subst. specialize (Hle q Hu). lra.
  - intros b ->. destruct Hr as (pre & post & q & -> & Hb & _).
    destruct (ExtremumFacts.gain_uplift b q Hb) as [Hu Hq].
    split; [apply in_or_app; right; left; reflexivity|].
    exists q. auto.
Qed.

(** X13.  [find_biggest_drop] never raises.  It returns nothing exactly
    when no stage has a negative uplift; otherwise it returns a stage with
    a negative uplift that is below the negative uplifts of the stages
    before it and not above those of the stages after it: the first stage
    of greatest drop. *)
Theorem find_biggest_drop_is_first_greatest :
  forall stages : list Funnel.Stage,
    exists r,
      Funnel.find_biggest_drop stages = Ok r
      /\ Spec.first_greatest Spec.drop stages r
      /\ (r = None
          <-> Forall (fun s => forall u, Funnel.uplift s = Some u -> 0 <= u)
                stages)
      /\ (forall w, r = Some w ->
            In w stages /\ exists u, Funnel.uplift w = Some u /\ u < 0).
Proof.
  intros stages.
  destruct (ExtremumFacts.drop_loop stages [] None) as (r & Hrun & Hr);
    [constructor|]. cbn [app] in Hr.
  exists r. split; [exact Hrun|]. split; [exact Hr|]. split.
  - split.
    + intros ->. cbn in Hr. eapply Forall_impl; [|exact Hr].
      intros s Hs u Hu. unfold Spec.drop in Hs. rewrite Hu in Hs.
      destruct (Float.lt u 0) eqn:Hlt; [discriminate|]. float_hyps. exact Hlt.
    + intros Hnone. destruct r as [w|]; [|reflexivity].
      destruct Hr as (pre & post & q & -> & Hw & _).
      destruct (ExtremumFacts.drop_uplift w q Hw) as [Hu Hq].
      apply Forall_app in Hnone. destruct Hnone as [_ Hnone].
      inversion Hnone as [|? ? Hle _]; subst. specialize (Hle _ Hu). lra.
  - intros w ->. destruct Hr as (pre & post & q & -> & Hw & _).
    destruct (ExtremumFacts.drop_uplift w q Hw) as [Hu Hq].
    split; [apply in_or_app; right; left; reflexivity|].
    exists (- q). split; [exact Hu | lra].
Qed.

(** ** A breakpoint needs a gain and a drop *)

Module FlipFacts.

(** A stage that shows a direction has a gain or a drop, as the
    direction says. *)
Lemma signal_score s d :
  Spec.signal s = Some d ->
  (d = "up" /\ exists q, Spec.gain s = Some q)
  \/ (d = "down" /\ exists q, Spec.drop s = Some q).
Proof.
  unfold Spec.signal, Spec.gain, Spec.drop.
  destruct (Funnel.uplift s) as [u|]; [|discriminate].
  destruct (Float.gt u (5 # 1000)) eqn:Hup.
  - intros [= <-]. left. split; [reflexivity|]. float_hyps.
    replace (Float.gt u 0) with true
      by (symmetry; apply FloatFacts.float_gt_iff; lra).
    eexists. reflexivity.
  - destruct (Float.lt u (- (5 # 1000))) eqn:Hdown; [|discriminate].
    intros [= <-]. right. split; [reflexivity|]. float_hyps.
    replace (Float.lt u 0) with true
      by (symmetry; apply FloatFacts.float_lt_iff; lra).
    eexists. reflexivity.
Qed.

(** Directions shown come from stages. *)
Lemma signals_from_stage stages d :
  In d (Spec.signals stages) ->
  exists s, In s stages /\ Spec.signal s = Some d.
Proof.
  induction stages as [|x rest IH]; [intros []|].
  rewrite FunnelFacts.signals_cons.
  destruct (Spec.signal x) as [dx|] eqn:Hx.
  - intros [<-|Hin].
    + exists x. split; [left; reflexivity | exact Hx].
    + destruct (IH Hin) as (s & Hs & Hd). exists s. split; [right|]; auto.
  - intros Hin. destruct (IH Hin) as (s & Hs & Hd).
    exists s. split; [right|]; auto.
Qed.

End FlipFacts.

(** X14.  When [find_breakpoint] finds a breakpoint, the funnel has a
    stage that gains and a stage that drops: [find_biggest_gain] and
    [find_biggest_drop] both return a stage, and not the same one. *)
Theorem breakpoint_has_gain_and_drop :
  forall (stages : list Funnel.Stage) (s : Funnel.Stage),
    Funnel.find_breakpoint stages = Some s ->
    exists g w,
      Funnel.find_biggest_gain stages = Ok (Some g)
      /\ Funnel.find_biggest_drop stages = Ok (Some w)
      /\ g <> w.
Proof.
  intros stages s Hflip.
  destruct (FunnelFacts.scan_some stages None s) as
    (pre & post & d & Hst & Hs & d0 & Hne & Hall & Hdiff);
    [intros p Hp; discriminate | exact Hflip |].
  assert (Hd0 : exists s0, In s0 pre /\ Spec.signal s0 = Some d0).
  { destruct (Spec.signals pre) as [|d1 ds] eqn:Hsig; [contradiction|].
    inversion Hall; subst. apply FlipFacts.signals_from_stage.
    rewrite Hsig. left. reflexivity. }
  destruct Hd0 as (s0 & Hin0 & Hs0).
  assert (Hins : In s stages)
    by (rewrite Hst; apply in_or_app; right; left; reflexivity).
  assert (Hins0 : In s0 stages)
    by (rewrite Hst; apply in_or_app; left; exact Hin0).
  assert (Hboth : (exists a q, In a stages /\ Spec.gain a = Some q)
                  /\ (exists a q, In a stages /\ Spec.drop a = Some q)).
  { destruct (FlipFacts.signal_score s d Hs) as [[Hd [q Hq]]|[Hd [q Hq]]];
      destruct (FlipFacts.signal_score s0 d0 Hs0)
        as [[Hd0 [q0 Hq0]]|[Hd0 [q0 Hq0]]];
      try (exfalso; apply Hdiff; congruence).
    - split; [exists s, q | exists s0, q0]; auto.
    - split; [exists s0, q0 | exists s, q]; auto. }
  destruct Hboth as [(a & qa & Ha & Hga) (b & qb & Hb & Hdb)].
  destruct (ExtremumFacts.gain_loop stages [] None) as (rg & Hrung & Hrg);
    [constructor|]. cbn [app] in Hrg.
  destruct (ExtremumFacts.drop_loop stages [] None) as (rd & Hrund & Hrd);
    [constructor|]. cbn [app] in Hrd.
  destruct (ExtremumFacts.first_greatest_some _ _ _ _ _ Hrg Ha Hga) as [g ->].
  destruct (ExtremumFacts.first_greatest_some _ _ _ _ _ Hrd Hb Hdb) as [w ->].
  exists g, w. split; [exact Hrung|]. split; [exact Hrund|].
  destruct Hrg as (_ & _ & q1 & _ & Hg & _).
  destruct Hrd as (_ & _ & q2 & _ & Hw & _).
  destruct (ExtremumFacts.gain_uplift g q1 Hg) as [Hug Hq1].
  destruct (ExtremumFacts.drop_uplift w q2 Hw) as [Huw Hq2].
  intros ->. rewrite Huw in Hug. injection Hug as Heq.
  rewrite <- Heq in Hq1. lra.
Qed.

Lemma breakpoint_has_gain_and_drop_witness :
  let stages := [ Spec.stage "Add to Cart" (10 # 100);
                  Spec.stage "Begin Checkout" (- (8 # 100)) ] in
  Funnel.find_breakpoint stages
  = Some (Spec.stage "Begin Checkout" (- (8 # 100)))
  /\ exists g w,
       Funnel.find_biggest_gain stages = Ok (Some g)
       /\ Funnel.find_biggest_drop stages = Ok (Some w)
       /\ g <> w.
Proof.
  intros stages.
  assert (H : Funnel.find_breakpoint stages
              = Some (Spec.stage "Begin Checkout" (- (8 # 100))))
    by reflexivity.
  split; [exact H|].
  exact (breakpoint_has_gain_and_drop stages _ H).
Defined.

(** ** The ranking of the segments *)

Module RankFacts.

Import Spotlight.

Lemma insert_ranked_perm s ranked :
  Permutation (insert_ranked s ranked) (s :: ranked).
Proof.
  induction ranked as [|x rest IH]; cbn [insert_ranked]; [reflexivity|].
  destruct (Float.lt (Qabs (revenue_opportunity s))
              (Qabs (revenue_opportunity x))); [|reflexivity].
  rewrite IH. apply perm_swap.
Qed.

Lemma rank_perm segments : Permutation (rank segments) segments.
Proof.
  induction segments as [|s rest IH]; cbn [rank]; [reflexivity|].
  rewrite insert_ranked_perm. constructor. exact IH.
Qed.

Lemma insert_ranked_sorted s ranked :
  StronglySorted
    (fun a b => Qabs (revenue_opportunity b) <= Qabs (revenue_opportunity a))
    ranked ->
  StronglySorted
    (fun a b => Qabs (revenue_opportunity b) <= Qabs (revenue_opportunity a))
    (insert_ranked s ranked).
Proof.
  induction 1 as [|x rest Hsorted IH Hx]; cbn [insert_ranked].
  - constructor; constructor.
  - destruct (Float.lt (Qabs (revenue_opportunity s))
                (Qabs (revenue_opportunity x))) eqn:Hlt; float_hyps.
    + constructor; [exact IH|].
      eapply Permutation_Forall;
        [symmetry; apply insert_ranked_perm|].
      constructor; [apply Qlt_le_weak; exact Hlt | exact Hx].
    + constructor; [constructor; assumption|].
      constructor; [exact Hlt|].
      eapply Forall_impl; [|exact Hx]. intros a Ha. cbn in Ha.
      eapply Qle_trans; eassumption.
Qed.

Lemma rank_sorted segments :
  StronglySorted
    (fun a b => Qabs (revenue_opportunity b) <= Qabs (revenue_opportunity a))
    (rank segments).
Proof.
  induction segments as [|s rest IH]; cbn [rank]; [constructor|].
  apply insert_ranked_sorted. exact IH.
Qed.

Lemma with_verdict_perm wanted l l' :
  Permutation l l' -> Spec.with_verdict wanted l = Spec.with_verdict wanted l'.
Proof.
  intros H. unfold Spec.with_verdict. f_equal.
  induction H as [|x l l' _ IH|x y l|l l' l'' _ IH1 _ IH2];
    cbn [filter]; [reflexivity| | |congruence].
  - destruct (String.eqb (verdict x) wanted); cbn; congruence.
  - destruct (String.eqb (verdict x) wanted),
             (String.eqb (verdict y) wanted); reflexivity.
Qed.

(** The action reads the list through four counts only. *)
Lemma action_by_counts segments :
  fst (rollout_recommendation segments)
  = let total := Z.of_nat (List.length segments) in
    let winners := Spec.with_verdict "WINNER" segments in
    let losers := Spec.with_verdict "LOSER" segments in
    let low_data := Spec.with_verdict "LOW DATA" segments in
    if (total =? 0)%Z then "HOLD"
    else if (losers =? 0)%Z && (total <=? 2 * winners)%Z then "ROLL OUT"
    else if (0 <? losers)%Z && (0 <? winners)%Z then "SEGMENT-SPECIFIC"
    else if (0 <? losers)%Z && (winners =? 0)%Z then "DON'T ROLL OUT"
    else "HOLD".
Proof.
  unfold rollout_recommendation, Spec.with_verdict. cbv zeta.
  rewrite RecommendationFacts.at_least_half.
  repeat match goal with
         | |- context [if ?c then _ else _] => destruct c
         end; reflexivity.
Qed.

End RankFacts.

(** X15.  The ranking of spotlight.py keeps every segment, each as often
    as it was in the list, and puts them in order of absolute revenue
    opportunity, largest first. *)
Theorem rank_sorts_by_opportunity :
  forall all_segments : list Spotlight.Segment,
    Permutation (Spotlight.rank all_segments) all_segments
    /\ StronglySorted
         (fun a b =>
            Qabs (Spotlight.revenue_opportunity b)
            <= Qabs (Spotlight.revenue_opportunity a))
         (Spotlight.rank all_segments)
    /\ List.length (Spotlight.rank all_segments) = List.length all_segments.
Proof.
  intros all_segments.
  split; [apply RankFacts.rank_perm|].
  split; [apply RankFacts.rank_sorted|].
  apply Permutation_length, RankFacts.rank_perm.
Qed.

(** X16.  The action [rollout_recommendation] gives does not depend on
    the order of the segments: it is the same on the ranked list, which
    [main] passes, as on the list before the ranking, and the same on any
    two lists that hold the same segments. *)
Theorem rollout_action_ignores_order :
  forall all_segments : list Spotlight.Segment,
    fst (Spotlight.rollout_recommendation (Spotlight.rank all_segments))
    = fst (Spotlight.rollout_recommendation all_segments)
    /\ (forall other,
          Permutation all_segments other ->
          fst (Spotlight.rollout_recommendation other)
          = fst (Spotlight.rollout_recommendation all_segments)).
Proof.
  intros all_segments.
  assert (Hperm : forall other,
            Permutation all_segments other ->
            fst (Spotlight.rollout_recommendation other)
            = fst (Spotlight.rollout_recommendation all_segments)).
  { intros other Hp. rewrite !RankFacts.action_by_counts. cbv zeta.
    rewrite (Permutation_length Hp).
    rewrite !(RankFacts.with_verdict_perm _ _ _ Hp). reflexivity. }
  split; [|exact Hperm].
  apply Hperm. symmetry. apply RankFacts.rank_perm.
Qed.

(** ** The projections of the rollout brief and of the profit impact *)

Module ProjectionFacts.

Lemma or_zero_present q : Rollout.or_zero (Some q) == q.
Proof.
  unfold Rollout.or_zero. destruct (Float.truthy q) eqn:H; [reflexivity|].
  apply FloatFacts.float_truthy_false_iff in H. rewrite H. reflexivity.
Qed.

Lemma truthy_positive q : 0 < q -> Float.truthy q = true.
Proof.
  intros H. apply not_false_iff_true.
  rewrite FloatFacts.float_truthy_false_iff. lra.
Qed.

Lemma truthy_iff q : Float.truthy q = true <-> ~ q == 0.
Proof.
  rewrite <- not_false_iff_true, FloatFacts.float_truthy_false_iff. tauto.
Qed.

End ProjectionFacts.

(** X17.  On the same visitors, runtime, control value and uplift, the
    rollout brief and the profit impact tool project the same annual
    baseline, expected annual and monthly figures and daily cost.  Their
    conservative figures agree when the lower bound is present; without a
    lower bound the rollout brief shows 0 where the profit impact tool
    shows none.  Their optimistic figures agree when the upper bound is
    present and not zero; on an upper bound of zero the rollout brief
    shows none, where the profit impact tool shows the amount. *)
Theorem rollout_projection_against_impact :
  forall (total_visitors days : Z) (c u : Q) (ci_low ci_high : option Q),
    let R := Rollout.main_projection total_visitors days (Some c) (Some u)
               ci_low ci_high in
    exists I,
      Impact.main_projection total_visitors days (Some c) (Some u)
        ci_low ci_high = Some I
      /\ Rollout.annual_baseline R == Impact.annual_baseline I
      /\ Rollout.expected_annual R == Impact.expected_annual I
      /\ Rollout.expected_monthly R == Impact.expected_monthly I
      /\ Rollout.daily_cost R == Impact.daily_impact I
      /\ (forall l, ci_low = Some l ->
            exists x,
              Impact.conservative_annual I = Some x
              /\ Rollout.conservative_annual R == x)
      /\ (ci_low = None ->
          Impact.conservative_annual I = None
          /\ Rollout.conservative_annual R = 0)
      /\ (forall h, ci_high = Some h -> ~ h == 0 ->
            exists x y,
              Impact.optimistic_annual I = Some x
              /\ Rollout.optimistic_annual R = Some y /\ y == x)
      /\ (forall h, ci_high = Some h -> h == 0 ->
            Rollout.optimistic_annual R = None
            /\ exists x, Impact.optimistic_annual I = Some x)
      /\ (ci_high = None ->
          Rollout.optimistic_annual R = None
          /\ Impact.optimistic_annual I = None).
Proof.
  intros total_visitors days c u ci_low ci_high R.
  eexists. split; [reflexivity|].
  subst R. unfold Rollout.main_projection.
  cbn [Rollout.annual_baseline Rollout.expected_annual
       Rollout.expected_monthly Rollout.daily_cost
       Rollout.conservative_annual Rollout.optimistic_annual
       Impact.annual_baseline Impact.expected_annual Impact.expected_monthly
       Impact.daily_impact Impact.conservative_annual
       Impact.optimistic_annual].
  set (avg := if (0 <? days)%Z
              then Helpers.daily_visitors total_visitors days else 0).
  pose proof (ProjectionFacts.or_zero_present c) as Hc.
  pose proof (ProjectionFacts.or_zero_present u) as Hu.
  assert (Hbase : avg * 365 * Rollout.or_zero (Some c) == avg * 365 * c)
    by (rewrite Hc; reflexivity).
  assert (Hexp : avg * 365 * Rollout.or_zero (Some c) * Rollout.or_zero (Some u)
                 == avg * 365 * c * u)
    by (rewrite Hc, Hu; reflexivity).
  split; [exact Hbase|]. split; [exact Hexp|].
  split; [rewrite Hexp; reflexivity|].
  split.
  { rewrite !ImpactFacts.daily_impact_value, Hexp. reflexivity. }
  split.
  { intros l ->. eexists. split; [reflexivity|].
    destruct (Float.gt l 0) eqn:Hl.
    - float_hyps. rewrite (ProjectionFacts.truthy_positive l Hl).
      cbn [andb]. rewrite Hbase. reflexivity.
    - rewrite andb_false_r. reflexivity. }
  split; [intros ->; split; reflexivity|].
  split.
  { intros h -> Hh. apply ProjectionFacts.truthy_iff in Hh. rewrite Hh.
    eexists. eexists. split; [reflexivity|]. split; [reflexivity|].
    rewrite Hbase. reflexivity. }
  split.
  { intros h -> Hh. apply FloatFacts.float_truthy_false_iff in Hh.
    rewrite Hh. split; [reflexivity|]. eexists. reflexivity. }
  intros ->. split; reflexivity.
Qed.

(** X18.  In the profit impact tool, with visitors and a control value
    that are not negative and a confidence interval that holds the
    uplift: for an uplift that is not negative the conservative figure
    is at most the expected one and the expected one at most the
    optimistic one; for a negative uplift the conservative figure is 0
    and the expected one is not above it. *)
Theorem impact_range_brackets_expected :
  forall (total_visitors days : Z) (c u l h : Q),
    (0 <= total_visitors)%Z -> (0 < days)%Z -> 0 <= c ->
    l <= u -> u <= h ->
    exists I low high,
      Impact.main_projection total_visitors days (Some c) (Some u)
        (Some l) (Some h) = Some I
      /\ Impact.conservative_annual I = Some low
      /\ Impact.optimistic_annual I = Some high
      /\ 0 <= Impact.annual_baseline I
      /\ 0 <= low
      /\ Impact.expected_annual I <= high
      /\ (0 <= u -> low <= Impact.expected_annual I)
      /\ (u < 0 -> low = 0 /\ Impact.expected_annual I <= low).
Proof.
  intros total_visitors days c u l h Hv Hd Hc Hlu Huh.
  eexists. eexists. eexists. split; [reflexivity|].
  split; [reflexivity|]. split; [reflexivity|].
  cbn [Impact.annual_baseline Impact.expected_annual].
  replace (0 <? days)%Z with true by (symmetry; apply Z.ltb_lt; exact Hd).
  rewrite (ImpactFacts.daily_visitors_positive total_visitors days Hd).
  set (B := inject_Z total_visitors / inject_Z days * 365 * c).
  assert (HB : 0 <= B).
  { unfold B. apply Qmult_le_0_compat; [|exact Hc].
    apply Qmult_le_0_compat; [|lra].
    apply Qle_shift_div_l.
    - change 0 with (inject_Z 0). rewrite <- Zlt_Qlt. exact Hd.
    - rewrite Qmult_0_l. change 0 with (inject_Z 0).
      rewrite <- Zle_Qle. exact Hv. }
  split; [exact HB|].
  assert (Hmono : forall x y, x <= y -> B * x <= B * y).
  { intros x y Hxy. rewrite !(Qmult_comm B).
    apply Qmult_le_compat_r; assumption. }
  destruct (Float.gt l 0) eqn:Hl; float_hyps.
  - split; [apply Qmult_le_0_compat; lra|].
    split; [apply Hmono; exact Huh|].
    split; [intros _; apply Hmono; exact Hlu | intros Hneg; lra].
  - split; [lra|]. split; [apply Hmono; exact Huh|].
    split.
    + intros Hu. apply Qmult_le_0_compat; assumption.
    + intros Hneg. split; [reflexivity|].
      rewrite <- (Qmult_0_r B). apply Hmono. lra.
Qed.

Lemma impact_range_brackets_expected_witness :
  (0 <= 1000)%Z /\ (0 < 10)%Z /\ 0 <= 2
  /\ - (2 # 100) <= 10 # 100 /\ 10 # 100 <= 20 # 100
  /\ exists I low,
       Impact.main_projection 1000 10 (Some 2) (Some (10 # 100))
         (Some (- (2 # 100))) (Some (20 # 100)) = Some I
       /\ Impact.conservative_annual I = Some low
       /\ low <= Impact.expected_annual I.
Proof.
  assert (H1 : (0 <= 1000)%Z) by lia.
  assert (H2 : (0 < 10)%Z) by lia.
  assert (H3 : 0 <= 2) by lra.
  assert (H4 : - (2 # 100) <= 10 # 100) by lra.
  assert (H5 : 10 # 100 <= 20 # 100) by lra.
  repeat (split; [assumption|]).
  destruct (impact_range_brackets_expected 1000 10 2 (10 # 100)
              (- (2 # 100)) (20 # 100) H1 H2 H3 H4 H5)
    as (I & low & high & HI & Hlow & _ & _ & _ & _ & Hpos & _).
  exists I, low. split; [exact HI|]. split; [exact Hlow|].
  apply Hpos. lra.
Defined.

(** ** The portfolio scorecard *)

Module PortfolioFacts.

Section Loop.

Variable metrics : list pyval.
Variable metric_name : string.
Hypothesis feed_of_records : Spec.records metrics.

Lemma metrics_follow_selector variants :
  forall best best_uplift best_conf r,
    match best with
    | None => best_uplift = PNone /\ best_conf = PNone
    | Some b =>
        get_metric_uplift metrics metric_name (Helpers.id b) = Ok best_uplift
        /\ get_metric_confidence metrics metric_name (Helpers.id b)
           = Ok best_conf
    end ->
    Funnel.pick_best_variant_from best best_uplift variants metrics
      metric_name = Ok r ->
    exists u c,
      Portfolio.best_variant_metrics_from best_uplift best_conf variants
        metrics metric_name = Ok (u, c)
      /\ match r with
         | None => u = PNone /\ c = PNone
         | Some b =>
             get_metric_uplift metrics metric_name (Helpers.id b) = Ok u
             /\ get_metric_confidence metrics metric_name (Helpers.id b)
                = Ok c
         end.
Proof.
  induction variants as [|v rest IH];
    intros best best_uplift best_conf r Hinv Hrun.
  - injection Hrun as <-. exists best_uplift, best_conf.
    split; [reflexivity | exact Hinv].
  - cbn [Funnel.pick_best_variant_from] in Hrun.
    cbn [Portfolio.best_variant_metrics_from].
    destruct (get_metric_uplift metrics metric_name (Helpers.id v))
      as [uplift|] eqn:Hu; [|discriminate].
    cbn [Py.bind] in *.
    destruct (if Py.is_none uplift then Ok false
              else if Py.is_none best_uplift then Ok true
              else Py.gt uplift best_uplift) as [[|]|]; [| |discriminate];
      cbn [Py.bind] in *.
    + destruct (AccessorFacts.confidence_total metrics metric_name
                  (Helpers.id v) feed_of_records) as [conf Hc].
      rewrite Hc. cbn [Py.bind].
      apply (IH (Some v) uplift conf r); [split; assumption | exact Hrun].
    + apply (IH best best_uplift best_conf r); assumption.
Qed.

End Loop.



End PortfolioFacts.

(** X19.  On a feed of records, whenever the selector of funnel.py
    returns on a list of variants, [best_variant_metrics] of portfolio.py
    returns on it too: the uplift and the confidence the feed gives the
    selected variant, and two [None]s when no variant is selected. *)
Theorem best_variant_metrics_of_selected :
  forall (variants : list Helpers.Variation) (metrics : list pyval)
         (metric_name : string) (r : option Helpers.Variation),
    Spec.records metrics ->
    Funnel.pick_best_variant variants metrics metric_name = Ok r ->
    exists u c,
      Portfolio.best_variant_metrics variants metrics metric_name = Ok (u, c)
      /\ (r = None -> u = PNone /\ c = PNone)
      /\ (forall b, r = Some b ->
            get_metric_uplift metrics metric_name (Helpers.id b) = Ok u
            /\ get_metric_confidence metrics metric_name (Helpers.id b)
               = Ok c).
Proof.
  intros variants metrics metric_name r Hrec Hrun.
  destruct (PortfolioFacts.metrics_follow_selector metrics metric_name Hrec
              variants None PNone PNone r) as (u & c & Hbest & Hr);
    [split; reflexivity | exact Hrun |].
  exists u, c. split; [exact Hbest|].
  split; [intros ->; exact Hr | intros b ->; exact Hr].
Qed.

Lemma best_variant_metrics_of_selected_witness :
  let a := Helpers.mkVariation "a" "Variant A" false in
  let b := Helpers.mkVariation "b" "Variant B" false in
  let reading (id : string) (u p : Q) :=
    PDict [ ("variation_id", PStr id);
            ("net_revenue_per_visitor",
             PDict [ ("p2bb", PNum p);
                     ("uplift", PDict [ ("value", PNum u) ]) ]) ] in
  let metrics := [ reading "a" (3 # 100) (70 # 100);
                   reading "b" (7 # 100) (91 # 100) ] in
  Spec.records metrics
  /\ Funnel.pick_best_variant [a; b] metrics "net_revenue_per_visitor"
     = Ok (Some b)
  /\ Portfolio.best_variant_metrics [a; b] metrics "net_revenue_per_visitor"
     = Ok (PNum (7 # 100), PNum (91 # 100)).
Proof.
  intros a b reading metrics.
  assert (Hrec : Spec.records metrics) by (repeat constructor).
  assert (Hrun : Funnel.pick_best_variant [a; b] metrics
                   "net_revenue_per_visitor" = Ok (Some b)) by reflexivity.
  split; [exact Hrec|]. split; [exact Hrun|].
  destruct (best_variant_metrics_of_selected [a; b] metrics
              "net_revenue_per_visitor" (Some b) Hrec Hrun)
    as (u & c & Hbest & _ & Hsel).
  destruct (Hsel b eq_refl) as [Hu Hc].
  rewrite Hbest. injection Hu as <-. injection Hc as <-. reflexivity.
Defined.


(** ** The health status of the morning brief *)

Module HealthFacts.

Ltac split_all_ifs :=
  repeat match goal with
         | |- context [if ?c then _ else _] => destruct c eqn:?
         end.

End HealthFacts.

(** X21.  [compute_health] gives RED, YELLOW or GREEN.  It gives RED
    exactly when the test has run fewer than 3 days, or has no order, or
    its conversion lift is below -20% at a confidence of at least 80%.
    It gives GREEN only to a test of at least 10 days, with orders and
    at least 50 visitors a day. *)
Theorem compute_health_status :
  forall (runtime total_orders : Z) (daily_vis_rate : Q)
         (primary_lift primary_conf conv_lift conv_conf : option Q),
    let status :=
      fst (Brief.compute_health runtime total_orders daily_vis_rate
             primary_lift primary_conf conv_lift conv_conf) in
    (status = "RED" \/ status = "YELLOW" \/ status = "GREEN")
    /\ (status = "RED"
        <-> (runtime < 3)%Z \/ total_orders = 0%Z
            \/ exists lift conf,
                 conv_lift = Some lift /\ conv_conf = Some conf
                 /\ lift < - (20 # 100) /\ 80 # 100 <= conf)
    /\ (status = "GREEN" ->
        (10 <= runtime)%Z /\ total_orders <> 0%Z /\ 50 <= daily_vis_rate
        /\ forall lift conf,
             primary_lift = Some lift -> primary_conf = Some conf ->
             ~ (lift < 0 /\ 60 # 100 <= conf /\ conf < 80 # 100)).
Proof.
  intros runtime total_orders daily_vis_rate primary_lift primary_conf
    conv_lift conv_conf status.
  subst status. unfold Brief.compute_health.
  change MIN_RUNTIME_DAYS with 10%Z. change VERDICT_MIN_ORDERS with 30%Z.
  destruct (runtime <? 3)%Z eqn:H3; float_hyps.
  { cbn. split; [auto|]. split; [split; auto|]. discriminate. }
  replace (3 <=? runtime)%Z with true by (symmetry; apply Z.leb_le; lia).
  cbn [andb].
  destruct (total_orders =? 0)%Z eqn:H0; float_hyps.
  { cbn. split; [auto|]. split; [split; auto|]. discriminate. }
  assert (Hconv :
    (match conv_lift, conv_conf with
     | Some lift, Some conf =>
         Float.lt lift (- (20 # 100)) && Float.ge conf (80 # 100)
     | _, _ => false
     end) = true
    <-> exists lift conf,
          conv_lift = Some lift /\ conv_conf = Some conf
          /\ lift < - (20 # 100) /\ 80 # 100 <= conf).
  { destruct conv_lift as [lift|], conv_conf as [conf|];
      try (split; [discriminate | intros (? & ? & ? & ? & _); discriminate]).
    rewrite andb_true_iff, FloatFacts.float_lt_iff, FloatFacts.float_ge_iff.
    split.
    - intros [? ?]. exists lift, conf. auto.
    - intros (? & ? & [= <-] & [= <-] & ? & ?). auto. }
  destruct (match conv_lift, conv_conf with
            | Some lift, Some conf =>
                Float.lt lift (- (20 # 100)) && Float.ge conf (80 # 100)
            | _, _ => false
            end) eqn:Hdrop.
  { cbn. split; [auto|]. split; [|discriminate].
    split; [intros _; right; right; apply Hconv; reflexivity | reflexivity]. }
  assert (Hnotred : ~ ((runtime < 3)%Z \/ total_orders = 0%Z
                       \/ exists lift conf,
                            conv_lift = Some lift /\ conv_conf = Some conf
                            /\ lift < - (20 # 100) /\ 80 # 100 <= conf)).
  { intros [H|[H|H]]; [lia | contradiction |].
    apply Hconv in H. discriminate. }
  destruct (runtime <? 10)%Z eqn:H10; float_hyps.
  { cbn. split; [auto|]. split; [|discriminate].
    split; [discriminate | intros H; contradiction]. }
  destruct (match primary_lift, primary_conf with
            | Some lift, Some conf =>
                Float.lt lift 0
                && (Float.le (60 # 100) conf && Float.lt conf (80 # 100))
            | _, _ => false
            end) eqn:Htrend.
  { cbn. split; [auto|]. split; [|discriminate].
    split; [discriminate | intros H; contradiction]. }
  destruct (Float.lt daily_vis_rate 50) eqn:Hvis; float_hyps.
  { cbn. split; [auto|]. split; [|discriminate].
    split; [discriminate | intros H; contradiction]. }
  assert (Hgreen :
    (10 <= runtime)%Z /\ total_orders <> 0%Z /\ 50 <= daily_vis_rate
    /\ forall lift conf,
         primary_lift = Some lift -> primary_conf = Some conf ->
         ~ (lift < 0 /\ 60 # 100 <= conf /\ conf < 80 # 100)).
  { split; [lia|]. split; [exact H0|]. split; [exact Hvis|].
    intros lift conf -> -> (Hl & Hc1 & Hc2).
    apply FloatFacts.float_lt_iff in Hl, Hc2.
    apply FloatFacts.float_le_iff in Hc1.
    rewrite Hl, Hc1, Hc2 in Htrend. discriminate. }
  HealthFacts.split_all_ifs; cbn;
    (split; [auto|]; split; [|intros _; exact Hgreen];
     split; [discriminate | intros H; contradiction]).
Qed.

(** X22.  A test that [compute_verdict] calls a WINNER on its primary
    metric shows in the morning brief as GREEN with a strong signal,
    provided it has at least 50 visitors a day and its conversion is not
    dropping by more than 20% at a confidence of 80% or more. *)
Theorem winner_shows_strong_signal :
  forall (runtime total_orders : Z) (daily_vis_rate lift conf : Q)
         (conv_lift conv_conf : option Q),
    Rollout.compute_verdict (Some conf) (Some lift) runtime total_orders
    = "WINNER" ->
    50 <= daily_vis_rate ->
    (forall l c, conv_lift = Some l -> conv_conf = Some c ->
       ~ (l < - (20 # 100) /\ 80 # 100 <= c)) ->
    Brief.compute_health runtime total_orders daily_vis_rate (Some lift)
      (Some conf) conv_lift conv_conf
    = ("GREEN", Brief.StrongSignal).
Proof.
  intros runtime total_orders daily_vis_rate lift conf conv_lift conv_conf
    Hwin Hvis Hconv.
  rewrite ClassifierFacts.rollout_compute_verdict_refines in Hwin.
  change "WINNER" with (Spec.label Spec.WINNER) in Hwin.
  apply VerdictFacts.label_injective in Hwin.
  assert (Hmature : (10 <= runtime)%Z /\ (30 <= total_orders)%Z).
  { destruct (Z_lt_ge_dec runtime 10) as [Hd|Hd];
      [|destruct (Z_lt_ge_dec total_orders 30) as [Ho|Ho]; [|lia]].
    - assert (H : Spec.default (Some conf) (Some lift) runtime total_orders
                  = Spec.TOO_EARLY)
        by (apply ClassifierFacts.default_too_early; auto).
      congruence.
    - assert (H : Spec.default (Some conf) (Some lift) runtime total_orders
                  = Spec.TOO_EARLY)
        by (apply ClassifierFacts.default_too_early; auto).
      congruence. }
  destruct Hmature as [Hd Ho].
  destruct (ClassifierFacts.default_present conf lift runtime total_orders
              Hd Ho) as (HW & _).
  apply HW in Hwin. destruct Hwin as [Hconf Hlift].
  unfold Brief.compute_health.
  change MIN_RUNTIME_DAYS with 10%Z. change VERDICT_MIN_ORDERS with 30%Z.
  replace (runtime <? 3)%Z with false by (symmetry; apply Z.ltb_ge; lia).
  replace (3 <=? runtime)%Z with true by (symmetry; apply Z.leb_le; lia).
  replace (total_orders =? 0)%Z with false
    by (symmetry; apply Z.eqb_neq; lia).
  cbn [andb].
  replace (match conv_lift, conv_conf with
           | Some lift0, Some conf0 =>
               Float.lt lift0 (- (20 # 100)) && Float.ge conf0 (80 # 100)
           | _, _ => false
           end) with false.
  2:{ symmetry. destruct conv_lift as [l|], conv_conf as [c|];
        try reflexivity.
      apply not_true_iff_false. rewrite andb_true_iff.
      rewrite FloatFacts.float_lt_iff, FloatFacts.float_ge_iff.
      exact (Hconv l c eq_refl eq_refl). }
  replace (runtime <? 10)%Z with false by (symmetry; apply Z.ltb_ge; lia).
  replace (Float.lt lift 0) with false
    by (symmetry; apply FloatFacts.float_lt_false_iff; lra).
  cbn [andb].
  replace (Float.lt daily_vis_rate 50) with false
    by (symmetry; apply FloatFacts.float_lt_false_iff; exact Hvis).
  replace (Float.ge conf (80 # 100)) with true
    by (symmetry; apply FloatFacts.float_ge_iff; exact Hconf).
  replace (Float.gt lift (2 # 100)) with true
    by (symmetry; apply FloatFacts.float_gt_iff; exact Hlift).
  replace (30 <=? total_orders)%Z with true
    by (symmetry; apply Z.leb_le; lia).
  reflexivity.
Qed.

Lemma winner_shows_strong_signal_witness :
  Rollout.compute_verdict (Some (92 # 100)) (Some (6 # 100)) 14 120 = "WINNER"
  /\ 50 <= 400
  /\ Brief.compute_health 14 120 400 (Some (6 # 100)) (Some (92 # 100))
       (Some (- (3 # 100))) (Some (40 # 100))
     = ("GREEN", Brief.StrongSignal).
Proof.
  assert (Hwin : Rollout.compute_verdict (Some (92 # 100)) (Some (6 # 100))
                   14 120 = "WINNER") by reflexivity.
  assert (Hvis : 50 <= 400) by lra.
  split; [exact Hwin|]. split; [exact Hvis|].
  apply (winner_shows_strong_signal 14 120 400 (6 # 100) (92 # 100)
           (Some (- (3 # 100))) (Some (40 # 100)) Hwin Hvis).
  intros l c [= <-] [= <-] [Hl _]. revert Hl. lra.
Defined.

(** ** Revenue against conversion in verdict.py *)

(** X23.  The divergence note of verdict.py is given exactly when the
    uplift of revenue per visitor and the uplift of the conversion rate
    are both present and point in opposite directions, each by more than
    0.005: revenue up with conversion down, or conversion up with revenue
    down.  The third, general note is never given. *)
Theorem divergence_note_cases :
  forall rpv_uplift cr_uplift : option Q,
    let note := TestVerdict.divergence rpv_uplift cr_uplift in
    note <> Some TestVerdict.SignalsNotAligned
    /\ (note = Some TestVerdict.RevenueUpConversionDown
        <-> exists r c,
              rpv_uplift = Some r /\ cr_uplift = Some c
              /\ 5 # 1000 < r /\ c < - (5 # 1000))
    /\ (note = Some TestVerdict.ConversionUpRevenueDown
        <-> exists r c,
              rpv_uplift = Some r /\ cr_uplift = Some c
              /\ r < - (5 # 1000) /\ 5 # 1000 < c)
    /\ (rpv_uplift = None \/ cr_uplift = None -> note = None).
Proof.
  intros rpv_uplift cr_uplift note. subst note.
  destruct rpv_uplift as [r|], cr_uplift as [c|]; cbn [TestVerdict.divergence];
    try (split; [discriminate|];
         split; [split; [discriminate
                        | intros (? & ? & ? & ? & _); discriminate]|];
         split; [split; [discriminate
                        | intros (? & ? & ? & ? & _); discriminate]
                | reflexivity]).
  destruct (Float.gt r (5 # 1000)) eqn:Hru,
           (Float.lt r (- (5 # 1000))) eqn:Hrd,
           (Float.gt c (5 # 1000)) eqn:Hcu,
           (Float.lt c (- (5 # 1000))) eqn:Hcd;
    float_hyps; try (exfalso; lra); cbn;
    (split; [discriminate|];
     split; [split; [try discriminate; intros _; exists r, c; auto
                    | try reflexivity;
                      intros (? & ? & [= <-] & [= <-] & ? & ?); exfalso; lra]|];
     split; [split; [try discriminate; intros _; exists r, c; auto
                    | try reflexivity;
                      intros (? & ? & [= <-] & [= <-] & ? & ?); exfalso; lra]
            | intros [?|?]; discriminate]).
Qed.

(** ** The choice of the best variation in verdict.py *)

Module BestFacts.

Import TestVerdict.

Lemma key_lt_false_iff a b :
  key_lt a b = false
  <-> (fst b <= fst a)%Z /\ (fst a = fst b -> snd b <= snd a).
Proof.
  unfold key_lt. rewrite orb_false_iff, andb_false_iff.
  rewrite Z.ltb_ge, Z.eqb_neq, FloatFacts.float_lt_false_iff.
  split.
  - intros [H1 [H2|H2]]; split; auto. intros; contradiction.
  - intros [H1 H2]. split; [exact H1|].
    destruct (Z.eq_dec (fst a) (fst b)) as [He|He]; auto.
Qed.

Lemma key_lt_asym a b : key_lt a b = true -> key_lt b a = false.
Proof.
  intros H. apply key_lt_false_iff. unfold key_lt in H.
  apply orb_true_iff in H. destruct H as [H|H].
  - apply Z.ltb_lt in H. split; [lia | intros; lia].
  - apply andb_true_iff in H. destruct H as [He Hlt].
    apply Z.eqb_eq in He. apply FloatFacts.float_lt_iff in Hlt.
    split; [lia | intros _; lra].
Qed.

Lemma key_lt_false_trans a b c :
  key_lt a b = false -> key_lt b c = false -> key_lt a c = false.
Proof.
  rewrite !key_lt_false_iff. intros [H1 H2] [H3 H4].
  split; [lia|]. intros He.
  assert (fst a = fst b) by lia. assert (fst b = fst c) by lia.
  specialize (H2 H). specialize (H4 H0). lra.
Qed.

Lemma insert_perm r sorted : Permutation (insert r sorted) (r :: sorted).
Proof.
  induction sorted as [|x rest IH]; cbn [insert]; [reflexivity|].
  destruct (key_lt (sort_key x) (sort_key r)); [|reflexivity].
  rewrite IH. apply perm_swap.
Qed.

Lemma sort_perm results : Permutation (sort results) results.
Proof.
  induction results as [|r rest IH]; cbn [sort]; [reflexivity|].
  rewrite insert_perm. constructor. exact IH.
Qed.

Lemma insert_sorted r sorted :
  StronglySorted (fun a b => key_lt (sort_key b) (sort_key a) = false) sorted ->
  StronglySorted (fun a b => key_lt (sort_key b) (sort_key a) = false)
    (insert r sorted).
Proof.
  induction 1 as [|x rest Hsorted IH Hx]; cbn [insert].
  - constructor; constructor.
  - destruct (key_lt (sort_key x) (sort_key r)) eqn:Hlt.
    + constructor; [exact IH|].
      eapply Permutation_Forall; [symmetry; apply insert_perm|].
      constructor; [apply key_lt_asym; exact Hlt | exact Hx].
    + constructor; [constructor; assumption|].
      constructor; [exact Hlt|].
      eapply Forall_impl; [|exact Hx]. intros y Hy. cbn in Hy.
      exact (key_lt_false_trans _ _ _ Hy Hlt).
Qed.

Lemma sort_sorted results :
  StronglySorted (fun a b => key_lt (sort_key b) (sort_key a) = false)
    (sort results).
Proof.
  induction results as [|r rest IH]; cbn [sort]; [constructor|].
  apply insert_sorted. exact IH.
Qed.

Lemma key_lt_irrefl a : key_lt a a = false.
Proof. apply key_lt_false_iff. split; [lia | intros _; apply Qle_refl]. Qed.

Lemma priority_winner v :
  (0 <= verdict_priority v)%Z /\ (verdict_priority v = 0%Z <-> v = "WINNER").
Proof.
  unfold verdict_priority.
  destruct (String.eqb_spec v "WINNER") as [->|Hw];
    [split; [lia | split; reflexivity]|].
  repeat match goal with
         | |- context [if ?c then _ else _] => destruct c
         end; (split; [lia | split; [discriminate | contradiction]]).
Qed.

(** The verdicts [variation_verdict] gives say where the uplift lies. *)
Lemma variation_verdict_uplift p2bb uplift days :
  (variation_verdict p2bb uplift days = "WINNER" ->
   exists u, uplift = Some u /\ 2 # 100 < u)
  /\ (variation_verdict p2bb uplift days = "LOSER" ->
      exists u, uplift = Some u /\ u < - (2 # 100)).
Proof.
  unfold variation_verdict.
  change NEUTRAL_LIFT_THRESHOLD with (2 # 100).
  destruct p2bb as [p|], uplift as [u|]; try (split; discriminate).
  destruct (Float.ge p MIN_CONFIDENCE) eqn:H1,
           (Float.gt u (2 # 100)) eqn:H2,
           (Float.ge (1 - p) MIN_CONFIDENCE) eqn:H3,
           (Float.lt u (- (2 # 100))) eqn:H4; cbn [andb]; float_hyps;
    try (destruct ((21 <=? days)%Z && Float.le (Qabs u) (2 # 100)));
    split; intros H; try discriminate H; exists u; auto.
Qed.

End BestFacts.

(** X24.  The sort of verdict.py keeps every variation result and puts
    first one of least sort key: no result has a better verdict than the
    best, and among the results with the verdict of the best none has a
    greater confidence.  So when some variation is a WINNER, the best
    variation is a WINNER. *)
Theorem best_has_least_sort_key :
  forall (results : list TestVerdict.VariationResult)
         (b : TestVerdict.VariationResult),
    hd_error (TestVerdict.sort results) = Some b ->
    Permutation (TestVerdict.sort results) results
    /\ In b results
    /\ (forall r, In r results ->
          (TestVerdict.verdict_priority (TestVerdict.verdict b)
           <= TestVerdict.verdict_priority (TestVerdict.verdict r))%Z
          /\ (TestVerdict.verdict r = TestVerdict.verdict b ->
              snd (TestVerdict.sort_key b) <= snd (TestVerdict.sort_key r)))
    /\ ((exists r, In r results /\ TestVerdict.verdict r = "WINNER") ->
        TestVerdict.verdict b = "WINNER").
Proof.
  intros results b Hhd.
  pose proof (BestFacts.sort_perm results) as Hperm.
  pose proof (BestFacts.sort_sorted results) as Hsorted.
  destruct (TestVerdict.sort results) as [|x rest] eqn:Hsort; [discriminate|].
  injection Hhd as ->.
  assert (Hin : In b results)
    by (apply (Permutation_in _ Hperm); left; reflexivity).
  assert (Hleast : forall r, In r results ->
            TestVerdict.key_lt (TestVerdict.sort_key r)
              (TestVerdict.sort_key b) = false).
  { intros r Hr. apply (Permutation_in _ (Permutation_sym Hperm)) in Hr.
    destruct Hr as [<-|Hr]; [apply BestFacts.key_lt_irrefl|].
    inversion Hsorted as [|? ? _ Hall]; subst.
    rewrite Forall_forall in Hall. exact (Hall r Hr). }
  split; [exact Hperm|]. split; [exact Hin|]. split.
  - intros r Hr. specialize (Hleast r Hr).
    apply BestFacts.key_lt_false_iff in Hleast.
    destruct Hleast as [Hp Hc]. cbn [TestVerdict.sort_key fst snd] in *.
    split; [exact Hp|]. intros Hv. apply Hc. rewrite Hv. reflexivity.
  - intros (r & Hr & Hw). specialize (Hleast r Hr).
    apply BestFacts.key_lt_false_iff in Hleast. destruct Hleast as [Hp _].
    cbn [TestVerdict.sort_key fst] in Hp. rewrite Hw in Hp.
    change (TestVerdict.verdict_priority "WINNER") with 0%Z in Hp.
    destruct (BestFacts.priority_winner (TestVerdict.verdict b)) as [H0 Hiff].
    apply Hiff. lia.
Qed.

Lemma best_has_least_sort_key_witness :
  let loser := TestVerdict.mkVariationResult "v1" "LOSER" (Some (5 # 100))
                 (Some (- (6 # 100))) in
  let winner := TestVerdict.mkVariationResult "v2" "WINNER" (Some (91 # 100))
                  (Some (7 # 100)) in
  let keep := TestVerdict.mkVariationResult "v3" "KEEP RUNNING"
                (Some (70 # 100)) (Some (3 # 100)) in
  hd_error (TestVerdict.sort [loser; winner; keep]) = Some winner
  /\ TestVerdict.verdict winner = "WINNER".
Proof.
  intros loser winner keep.
  assert (H : hd_error (TestVerdict.sort [loser; winner; keep]) = Some winner)
    by reflexivity.
  split; [exact H|].
  destruct (best_has_least_sort_key [loser; winner; keep] winner H)
    as (_ & _ & _ & Hwin).
  apply Hwin. exists winner. split; [right; left|]; reflexivity.
Defined.

(** X25.  When the segment quick-check of verdict.py flags a segment as
    contradicting the best variation, the two uplifts are present and
    contradict each other in the sense of spotlight.py and rollout.py:
    opposite in sign and each beyond 0.02. *)
Theorem verdict_contradiction_implies_uplift_contradiction :
  forall (p2bb uplift seg_p2bb seg_uplift : option Q) (days : Z),
    TestVerdict.segment_contradiction
      (TestVerdict.variation_verdict p2bb uplift days)
      (TestVerdict.segment_check seg_p2bb seg_uplift days) = true ->
    Spotlight.main_contradiction uplift seg_uplift = true
    /\ Rollout.contradiction uplift seg_uplift = true.
Proof.
  intros p2bb uplift seg_p2bb seg_uplift days Hflag.
  assert (H : Spotlight.main_contradiction uplift seg_uplift = true);
    [|split; [exact H | exact H]].
  unfold TestVerdict.segment_contradiction in Hflag.
  destruct (BestFacts.variation_verdict_uplift p2bb uplift days)
    as [Hbw Hbl].
  assert (Hseg : forall v,
            TestVerdict.segment_check seg_p2bb seg_uplift days = v ->
            v = "WINNER" \/ v = "LOSER" ->
            TestVerdict.variation_verdict seg_p2bb seg_uplift days = v).
  { intros v Hv Hwl. unfold TestVerdict.segment_check in Hv.
    destruct seg_uplift; [exact Hv|].
    subst v. destruct Hwl; discriminate. }
  destruct (BestFacts.variation_verdict_uplift seg_p2bb seg_uplift days)
    as [Hsw Hsl].
  destruct (String.eqb_spec (TestVerdict.variation_verdict p2bb uplift days)
              "WINNER") as [Hb|Hb];
    destruct (String.eqb_spec
                (TestVerdict.segment_check seg_p2bb seg_uplift days)
                "LOSER") as [Hs|Hs]; cbn [andb] in Hflag.
  - destruct (Hbw Hb) as (u & -> & Hu).
    destruct (Hsl (Hseg _ Hs (or_intror eq_refl))) as (s & -> & Hsu).
    apply ContradictionFacts.flag_iff. left. auto.
  - rewrite Hb in Hflag. cbn in Hflag. discriminate.
  - destruct (String.eqb_spec (TestVerdict.variation_verdict p2bb uplift days)
                "LOSER") as [Hb'|Hb']; [|discriminate].
    rewrite Hs in Hflag. cbn in Hflag. discriminate.
  - destruct (String.eqb_spec (TestVerdict.variation_verdict p2bb uplift days)
                "LOSER") as [Hb'|Hb']; [|discriminate].
    cbn [andb] in Hflag.
    destruct (String.eqb_spec
                (TestVerdict.segment_check seg_p2bb seg_uplift days)
                "WINNER") as [Hs'|Hs']; [|discriminate].
    destruct (Hbl Hb') as (u & -> & Hu).
    destruct (Hsw (Hseg _ Hs' (or_introl eq_refl))) as (s & -> & Hsu).
    apply ContradictionFacts.flag_iff. right. auto.
Qed.

Lemma verdict_contradiction_implies_uplift_contradiction_witness :
  TestVerdict.segment_contradiction
    (TestVerdict.variation_verdict (Some (92 # 100)) (Some (6 # 100)) 14)
    (TestVerdict.segment_check (Some (10 # 100)) (Some (- (5 # 100))) 14)
  = true
  /\ Spotlight.main_contradiction (Some (6 # 100)) (Some (- (5 # 100))) = true.
Proof.
  assert (H : TestVerdict.segment_contradiction
                (TestVerdict.variation_verdict (Some (92 # 100))
                   (Some (6 # 100)) 14)
                (TestVerdict.segment_check (Some (10 # 100))
                   (Some (- (5 # 100))) 14) = true) by reflexivity.
  split; [exact H|].
  exact (proj1 (verdict_contradiction_implies_uplift_contradiction _ _ _ _ _ H)).
Defined.

(** ** The command line of verdict.py *)

Module ArgsFacts.

Lemma positional_no_flag arguments :
  forall skip_next,
    ~ In "--slack" (TestVerdict.positional skip_next arguments).
Proof.
  induction arguments as [|arg rest IH]; intros skip_next; [intros []|].
  cbn [TestVerdict.positional]. destruct skip_next; [apply IH|].
  destruct (String.eqb_spec arg "--slack") as [->|Hne]; [apply IH|].
  intros [H|H]; [congruence | exact (IH false H)].
Qed.

Lemma positional_before_flag pre rest :
  ~ In "--slack" pre ->
  TestVerdict.positional false (pre ++ rest)
  = (pre ++ TestVerdict.positional false rest)%list.
Proof.
  induction pre as [|arg pre IH]; intros Hno; [reflexivity|].
  cbn [app TestVerdict.positional].
  destruct (String.eqb_spec arg "--slack") as [->|Hne].
  - exfalso. apply Hno. left. reflexivity.
  - rewrite IH; [reflexivity|]. intros H. apply Hno. right. exact H.
Qed.

Lemma parse_some argv url :
  Slack.parse_slack_args argv = Some url ->
  exists pre post,
    argv = (pre ++ "--slack" :: url :: post)%list /\ ~ In "--slack" pre.
Proof.
  induction argv as [|arg rest IH]; [discriminate|].
  cbn [Slack.parse_slack_args].
  destruct (String.eqb_spec arg "--slack") as [->|Hne].
  - destruct rest as [|u post]; [discriminate|]. intros [= <-].
    exists [], post. split; [reflexivity | intros []].
  - intros H. destruct (IH H) as (pre & post & -> & Hno).
    exists (arg :: pre), post. split; [reflexivity|].
    intros [Heq|Hin]; [congruence | exact (Hno Hin)].
Qed.

Lemma parse_none argv :
  Slack.parse_slack_args argv = None ->
  forall pre url post, argv <> (pre ++ "--slack" :: url :: post)%list.
Proof.
  induction argv as [|arg rest IH]; intros Hnone pre url post Heq.
  - destruct pre; discriminate.
  - cbn [Slack.parse_slack_args] in Hnone.
    destruct (String.eqb_spec arg "--slack") as [->|Hne].
    + destruct rest as [|u rest']; [|discriminate].
      destruct pre as [|a [|b pre]]; discriminate.
    + destruct pre as [|a pre]; [injection Heq as Ha _; congruence|].
      injection Heq as _ Heq. exact (IH Hnone pre url post Heq).
Qed.

End ArgsFacts.

(** X26.  When [parse_slack_args] finds a webhook URL on the command
    line of verdict.py, it is the argument after the first ["--slack"],
    and [main] leaves that pair out of the positional arguments it takes
    the test id from; ["--slack"] itself is never taken for a test id.
    When it finds none, no ["--slack"] on the command line has an
    argument after it. *)
Theorem slack_url_is_not_positional :
  forall (prog : string) (arguments : list string),
    prog <> "--slack" ->
    ~ In "--slack" (TestVerdict.positional false arguments)
    /\ TestVerdict.test_id (prog :: arguments) <> Some "--slack"
    /\ (forall url,
          Slack.parse_slack_args (prog :: arguments) = Some url ->
          exists pre post,
            arguments = (pre ++ "--slack" :: url :: post)%list
            /\ ~ In "--slack" pre
            /\ TestVerdict.positional false arguments
               = (pre ++ TestVerdict.positional false post)%list)
    /\ (Slack.parse_slack_args (prog :: arguments) = None ->
        forall pre url post,
          arguments <> (pre ++ "--slack" :: url :: post)%list).
Proof.
  intros prog arguments Hprog.
  pose proof (ArgsFacts.positional_no_flag arguments false) as Hno.
  split; [exact Hno|]. split.
  { unfold TestVerdict.test_id. cbn [tl].
    destruct (TestVerdict.positional false arguments) as [|a rest];
      [discriminate|].
    intros [= ->]. apply Hno. left. reflexivity. }
  split.
  - intros url Hparse.
    destruct (ArgsFacts.parse_some _ _ Hparse) as (pre & post & Heq & Hpre).
    destruct pre as [|a pre]; [injection Heq as Heq _; congruence|].
    injection Heq as _ ->.
    assert (Hpre' : ~ In "--slack" pre)
      by (intros H; apply Hpre; right; exact H).
    exists pre, post. split; [reflexivity|]. split; [exact Hpre'|].
    rewrite (ArgsFacts.positional_before_flag pre _ Hpre').
    cbn [TestVerdict.positional]. reflexivity.
  - intros Hnone pre url post Heq.
    apply (ArgsFacts.parse_none _ Hnone (prog :: pre) url post).
    rewrite Heq. reflexivity.
Qed.

Lemma slack_url_is_not_positional_witness :
  "verdict.py" <> "--slack"
  /\ Slack.parse_slack_args
       [ "verdict.py"; "--slack"; "https://hooks.slack.com/T0"; "exp-42" ]
     = Some "https://hooks.slack.com/T0"
  /\ TestVerdict.test_id
       [ "verdict.py"; "--slack"; "https://hooks.slack.com/T0"; "exp-42" ]
     <> Some "--slack".
Proof.
  assert (Hprog : "verdict.py" <> "--slack") by discriminate.
  split; [exact Hprog|]. split; [reflexivity|].
  destruct (slack_url_is_not_positional "verdict.py"
              [ "--slack"; "https://hooks.slack.com/T0"; "exp-42" ] Hprog)
    as (_ & Hid & _).
  exact Hid.
Defined.

(** ** The sign and the size of the revenue opportunity *)

(** X27.  For a positive runtime, visitor count and control revenue per
    visitor, the revenue opportunity of a segment has the sign of its
    uplift, and of two segments with the same uplift the one with more
    visitors has the opportunity of greater size, so that it ranks
    first. *)
Theorem revenue_opportunity_sign_and_size :
  forall (visitors more_visitors days : Z) (u rpv : Q),
    (0 < days)%Z -> (0 < visitors)%Z -> (visitors <= more_visitors)%Z ->
    0 < rpv ->
    exists r r',
      Spotlight.compute_revenue_opportunity visitors (Some u) (Some rpv) days
      = Ok r
      /\ Spotlight.compute_revenue_opportunity more_visitors (Some u)
           (Some rpv) days = Ok r'
      /\ (0 < r <-> 0 < u)
      /\ (r < 0 <-> u < 0)
      /\ Qabs r <= Qabs r'.
Proof.
  intros visitors more_visitors days u rpv Hd Hv Hmore Hrpv.
  unfold Spotlight.compute_revenue_opportunity.
  replace (days <=? 0)%Z with false by (symmetry; apply Z.leb_gt; lia).
  replace (visitors <=? 0)%Z with false by (symmetry; apply Z.leb_gt; lia).
  replace (more_visitors <=? 0)%Z with false
    by (symmetry; apply Z.leb_gt; lia).
  cbn [orb]. unfold Py.truediv.
  assert (Hnz : Qeq_bool (inject_Z days) 0 = false).
  { apply not_true_iff_false. rewrite Qeq_bool_iff.
    unfold Qeq, inject_Z. simpl. lia. }
  rewrite Hnz. cbn [Py.bind].
  eexists. eexists. split; [reflexivity|]. split; [reflexivity|].
  set (k := inject_Z visitors / inject_Z days).
  set (k' := inject_Z more_visitors / inject_Z days).
  assert (Hdq : 0 < inject_Z days)
    by (change 0 with (inject_Z 0); rewrite <- Zlt_Qlt; exact Hd).
  assert (Hk : 0 < k).
  { unfold k. apply Qlt_shift_div_l; [exact Hdq|]. rewrite Qmult_0_l.
    change 0 with (inject_Z 0). rewrite <- Zlt_Qlt. exact Hv. }
  assert (Hkk : k <= k').
  { unfold k, k'. unfold Qdiv. apply Qmult_le_compat_r.
    - rewrite <- Zle_Qle. exact Hmore.
    - apply Qlt_le_weak. apply Qinv_lt_0_compat. exact Hdq. }
  assert (Hc : 0 < k * rpv * 365) by (apply Qmult_lt_0_compat; [|lra];
    apply Qmult_lt_0_compat; assumption).
  assert (Hform : forall x, x * (rpv * u) * 365 == (x * rpv * 365) * u)
    by (intros x; ring).
  rewrite !Hform.
  split; [|split].
  - split; intros H.
    + destruct (Qlt_le_dec 0 u) as [Hu|Hu]; [exact Hu|]. exfalso.
      assert (k * rpv * 365 * u <= 0); [|lra].
      rewrite <- (Qmult_0_r (k * rpv * 365)).
      rewrite !(Qmult_comm (k * rpv * 365)).
      apply Qmult_le_compat_r; lra.
    + apply Qmult_lt_0_compat; assumption.
  - split; intros H.
    + destruct (Qlt_le_dec u 0) as [Hu|Hu]; [exact Hu|]. exfalso.
      assert (0 <= k * rpv * 365 * u); [|lra].
      apply Qmult_le_0_compat; lra.
    + assert (0 < k * rpv * 365 * (- u)); [|lra].
      apply Qmult_lt_0_compat; lra.
  - assert (H0 : 0 <= k * rpv * 365) by lra.
    assert (H0' : 0 <= k' * rpv * 365)
      by (apply Qmult_le_0_compat; [apply Qmult_le_0_compat|]; lra).
    assert (Habs : forall a, 0 <= a -> Qabs (a * u) == a * Qabs u).
    { intros a Ha. rewrite Qabs_Qmult. rewrite (Qabs_pos a Ha). reflexivity. }
    rewrite (Habs _ H0), (Habs _ H0').
    apply Qmult_le_compat_r; [|apply Qabs_nonneg].
    apply Qmult_le_compat_r; [|lra].
    apply Qmult_le_compat_r; [exact Hkk | lra].
Qed.

Lemma revenue_opportunity_sign_and_size_witness :
  (0 < 14)%Z /\ (0 < 2000)%Z /\ (2000 <= 5000)%Z /\ 0 < 3
  /\ exists r,
       Spotlight.compute_revenue_opportunity 2000 (Some (- (4 # 100)))
         (Some 3) 14 = Ok r
       /\ r < 0.
Proof.
  assert (H1 : (0 < 14)%Z) by lia.
  assert (H2 : (0 < 2000)%Z) by lia.
  assert (H3 : (2000 <= 5000)%Z) by lia.
  assert (H4 : 0 < 3) by lra.
  repeat (split; [assumption|]).
  destruct (revenue_opportunity_sign_and_size 2000 5000 14 (- (4 # 100)) 3
              H1 H2 H3 H4) as (r & r' & Hr & _ & _ & Hneg & _).
  exists r. split; [exact Hr|]. apply Hneg. lra.
Defined.
